(** * MT5 bridge: quote-to-tick synthesis and the streaming manager

    A shallow embedding of [backend/mt5_bridge_server.py] (v5.1, module [V5])
    and [backend/mt5_bridge_server_v6.py] (v6.1, module [V6]).

    Conventions of the embedding:
    - Python floats are exact rationals ([Q]); float literals are the
      decimal fractions they denote ([0.7] is [7#10]); [math.sin] is a
      parameter of the simulator.
    - Python dicts are [gmap]s, Python lists are lists; [str.upper()] acts
      on the ASCII letters.
    - [random.random()] reads the next draw of an explicit generator state.
    - Calls into the MetaTrader5 binding and into the websocket transport
      are given by their outcome ([Ret v] or [Raise e]), passed in by the
      caller of the embedded function. The calls the source makes outside
      any [try] block ([mt5.shutdown], [mt5.symbol_select]) are taken at the
      contract of the binding: they return.
    - [ws.accept()] succeeds at most once per socket: the transport
      refuses with [RuntimeError] a socket it has accepted ([accept_on]).
    - A [datetime] is its seconds since the epoch; the date arithmetic of
      [get_history] raises [OverflowError] outside the years 1 to 9999
      ([window_start]). The bounds the history route declares for [hours]
      are enforced before the handler runs.
    - A Python exception is a [Raise] result; the mutations made before the
      exception are kept, as in Python.
    - The coroutines are embedded turn by turn, each turn run to its end:
      no other task runs between the sends of one broadcast. *)

From Stdlib Require Import QArith Qabs Qround Lqa ZArith Ascii String.
From Stdlib Require Import Sorted.
From stdpp Require Import base option list strings gmap.

Local Open Scope Q_scope.

(** ** Numbers *)

Definition Qlt_bool (x y : Q) : bool := negb (Qle_bool y x).

(** Python's [max(a, b)]: [b] replaces [a] only when [b > a]. *)
Definition py_max (a b : Q) : Q := if Qlt_bool a b then b else a.

(** Python's [round(x, d)], on exact rationals: the nearest multiple of
    [10^-d], ties to the even one. *)
Definition round_half_even (x : Q) : Z :=
  let f := Qfloor x in
  let r := x - inject_Z f in
  if Qlt_bool r (1#2) then f
  else if Qlt_bool (1#2) r then (f + 1)%Z
  else if Z.even f then f else (f + 1)%Z.

Definition pow10 (d : nat) : Q := inject_Z (10 ^ Z.of_nat d).

Definition py_round (x : Q) (d : nat) : Q :=
  inject_Z (round_half_even (x * pow10 d)) / pow10 d.

(** ** Strings: [str.upper()] on ASCII *)

Definition is_lower (c : ascii) : bool :=
  let n := N_of_ascii c in ((97 <=? n) && (n <=? 122))%N.

Definition upper_ascii (c : ascii) : ascii :=
  if is_lower c then ascii_of_N (N_of_ascii c - 32) else c.

Fixpoint upper (s : string) : string :=
  match s with
  | EmptyString => EmptyString
  | String c s' => String (upper_ascii c) (upper s')
  end.

(** Two characters that are the same letter, whatever their case. *)
Definition same_letter (a b : ascii) : Prop :=
  a = b \/ (is_lower a = true /\ b = upper_ascii a)
        \/ (is_lower b = true /\ a = upper_ascii b).

(** Two strings that differ at most in the case of their letters. *)
Inductive same_modulo_case : string -> string -> Prop :=
  | smc_nil : same_modulo_case EmptyString EmptyString
  | smc_cons a b s t :
      same_letter a b -> same_modulo_case s t ->
      same_modulo_case (String a s) (String b t).

(** ** Random draws *)

(** The generator: an infinite sequence of draws and the index of the next
    one. [random.random()] returns a float in [0, 1). *)
Record Rng := mkRng { draws : nat -> Q; pos : nat }.

Definition unit_draws (g : Rng) : Prop := forall n, 0 <= draws g n < 1.

Definition rng_of_list (l : list Q) (d : Q) : Rng :=
  mkRng (fun n => nth n l d) 0.

(** ** Results and the state-and-exception monad *)

Inductive exn :=
  KeyError | FeedError | TransportError | ParseError | RuntimeError | OverflowError.

Inductive res (A : Type) := Ret (a : A) | Raise (e : exn).
Arguments Ret {A} a.
Arguments Raise {A} e.

Definition M (S A : Type) : Type := S -> res A * S.

Definition ret {S A} (a : A) : M S A := fun s => (Ret a, s).
Definition raise {S A} (e : exn) : M S A := fun s => (Raise e, s).
Definition bind {S A B} (m : M S A) (k : A -> M S B) : M S B :=
  fun s => match m s with
           | (Ret a, s') => k a s'
           | (Raise e, s') => (Raise e, s')
           end.
(** [try: m except: h] *)
Definition try_except {S A} (m : M S A) (h : exn -> M S A) : M S A :=
  fun s => match m s with
           | (Ret a, s') => (Ret a, s')
           | (Raise e, s') => h e s'
           end.
Definition get {S} : M S S := fun s => (Ret s, s).
Definition put {S} (s : S) : M S unit := fun _ => (Ret tt, s).
Definition modify {S} (f : S -> S) : M S unit := fun s => (Ret tt, f s).
(** The outcome of a call into a collaborator. *)
Definition call {S A} (o : res A) : M S A := fun s => (o, s).
(** Run a computation on one component of the state. *)
Definition zoom {S T A} (rd : S -> T) (wr : T -> S -> S) (m : M T A) : M S A :=
  fun s => let '(r, t) := m (rd s) in (r, wr t s).

Declare Scope m_scope.
Delimit Scope m_scope with m.
Notation "'let*' x ':=' m 'in' k" := (bind m (fun x => k))
  (at level 10, x pattern, m at level 100, k at level 200) : m_scope.
Notation "m ';;;' k" := (bind m (fun _ => k))
  (at level 100, k at level 200, right associativity) : m_scope.

(** [random.random()] *)
Definition random {S} : M (S * Rng) Q :=
  fun '(s, g) => (Ret (draws g (pos g)), (s, mkRng (draws g) (Datatypes.S (pos g)))).

(** ['buy' if random.random() > 0.5 else 'sell'] *)
Definition coin (r : Q) : string := if Qlt_bool (1#2) r then "buy" else "sell".


Local Open Scope m_scope.

(** Reading and updating the first component of a state paired with the
    generator. *)
Definition gets {S A} (f : S -> A) : M (S * Rng) A := fun s => (Ret (f (fst s)), s).
Definition update {S} (f : S -> S) : M (S * Rng) unit :=
  fun s => (Ret tt, (f (fst s), snd s)).

(** [d[k]]: a missing key raises [KeyError]. *)
Definition index {S A} (d : gmap string A) (k : string) : M S A :=
  match d !! k with
  | Some v => ret v
  | None => raise KeyError
  end.

(** Python truthiness of [sym] in [if sym:], for [sym] a string or [None]. *)
Definition truthy (sym : option string) : option string :=
  match sym with
  | Some EmptyString => None
  | other => other
  end.


(** ** Ticks, messages, raw history records *)

(** A websocket, by identity. *)
Definition handle := nat.

(** [class TD] / [class TickData], also the dict appended by v5.1's
    [get_history], which has the same keys. *)
Record TD := mkTD
  { symbol : string; price : Q; bid : Q; ask : Q;
    volume_synthetic : Q; side : string; timestamp : Z;
    price_change : Q; spread : Q; source : string }.

Inductive Msg :=
  | TickMsg (data : TD)
  | ConnectedMsg (mode symbol : string) (mt5_available mt5_connected : bool).

(** The window of a history request. A [datetime] is taken as its seconds
    since the epoch, exactly; [DATETIME_MIN] is the first instant of year 1
    and [DATETIME_END] the first instant after year 9999. *)
Definition DATETIME_MIN : Q := - 62135596800.
Definition DATETIME_END : Q := 253402300800.

(** The largest number of days a [timedelta] holds. *)
Definition TIMEDELTA_MAX_DAYS : Z := 999999999.

(** [utc_to - timedelta(hours=hours)]. [timedelta] raises [OverflowError]
    when its number of days leaves [-999999999, 999999999], and the
    subtraction raises it when the result is no date of the years 1 to
    9999. The rounding of the delta to microseconds is left out. *)
Definition window_start (utc_to hours : Q) : res Q :=
  let days := Qfloor (hours / 24) in
  if (days <? - TIMEDELTA_MAX_DAYS)%Z || (TIMEDELTA_MAX_DAYS <? days)%Z
  then Raise OverflowError
  else
    let utc_from := utc_to - hours * 3600 in
    if Qlt_bool utc_from DATETIME_MIN || Qle_bool DATETIME_END utc_from
    then Raise OverflowError
    else Ret utc_from.

(** One element of the array returned by [copy_ticks_range]: what reading
    and converting each field gives, [None] when that raises. *)
Record RawTick := mkRaw
  { by_name_bid : option Q; by_name_ask : option Q;
    by_name_time : option Z; by_name_time_msc : option Z;
    by_pos_0 : option Z; by_pos_1 : option Q; by_pos_2 : option Q }.

(** A well-formed record: every field readable by name and by position. *)
Definition raw_tick (b a : Q) (ts tms : Z) : RawTick :=
  mkRaw (Some b) (Some a) (Some ts) (Some tms) (Some ts) (Some b) (Some a).

(** A task created by [asyncio.create_task(self.mt5.listen(sym))]. *)
Record Task := mkTask { task_symbol : string; cancelled : bool }.

(** [ws in conns] and [conns.remove(ws)]: the first equal element goes. *)
Fixpoint remove_first (ws : handle) (l : list handle) : list handle :=
  match l with
  | [] => []
  | x :: l' => if Nat.eqb x ws then l' else x :: remove_first ws l'
  end.

Definition contains (ws : handle) (l : list handle) : bool :=
  existsb (Nat.eqb ws) l.

(** One entry of [mt5.symbols_get()]. *)
Record SymbolInfo := mkSymbolInfo
  { si_name : string; si_description : string; si_digits : nat; si_visible : bool }.

(** Python's [needle in hay] on strings. *)
Fixpoint occurs (needle hay : string) : bool :=
  String.prefix needle hay ||
  match hay with
  | EmptyString => false
  | String _ hay' => occurs needle hay'
  end.

(** What [await ws.receive_text()] followed by [json.loads] gives in a turn
    of the websocket endpoint: the receive raises [WebSocketDisconnect]; the
    receive raises something else (the transport raises [RuntimeError] on a
    socket that is not connected and [KeyError] on a binary frame); a text
    arrives that is no JSON object with a usable symbol, so that decoding or
    handling it raises; or a command arrives, with its ['action'] and
    ['symbol'] keys when present. *)
Inductive Incoming :=
  | WsDisconnect
  | ReceiveFails (e : exn)
  | Garbage
  | Command (action symbol : option string).

(** How a turn of the endpoint's loop ends: the loop is left, or goes on,
    having delivered a pong or not. *)
Inductive WsTurn := Closed | Continue (pong_sent : bool).

(** ** Version 5.1: [mt5_bridge_server.py] *)

Module V5.

Record Profile := mkProfile { mult : Q; bv : Q; dig : nat }.

Definition SYM_CFG : gmap string Profile :=
  list_to_map
    [ ("EURUSD", mkProfile 100000 5 5);
      ("GBPUSD", mkProfile 100000 5 5);
      ("USDJPY", mkProfile 1000 5 3);
      ("XAUUSD", mkProfile 50 10 2);
      ("USTEC", mkProfile 2 10 2);
      ("US100", mkProfile 2 10 2);
      ("NAS100", mkProfile 2 10 2);
      ("BTCUSD", mkProfile 1 5 2) ].

Definition default_profile : Profile := mkProfile 1000 5 5.

Definition gcfg (s : string) : Profile :=
  default default_profile (SYM_CFG !! upper s).

(** [class VC] *)
Record VC := mkVC { lb : gmap string Q; lm : gmap string Q }.

Definition VC_init : VC := mkVC ∅ ∅.

Definition calc (sym : string) (bid ask : Q) : M (VC * Rng) (Q * Q * Q * string) :=
  let c := gcfg sym in
  let mid := (bid + ask) / 2 in
  let* lb0 := gets (fun vc => default bid (lb vc !! sym)) in
  let* lm0 := gets (fun vc => default mid (lm vc !! sym)) in
  let pc := mid - lm0 in
  let bc := bid - lb0 in
  let vol := Qabs pc * mult c + bv c in
  let* r := random in
  let vol := vol * ((7#10) + r * (6#10)) in
  let vol := py_max vol (bv c) in
  let* side :=
    (if Qlt_bool 0 bc then ret "buy"
     else if Qlt_bool bc 0 then ret "sell"
     else let* r' := random in ret (coin r')) in
  update (fun vc => mkVC (<[sym := bid]> (lb vc)) (<[sym := mid]> (lm vc))) ;;;
  ret (mid, vol, pc, side).

Definition reset (sym : option string) : VC -> VC :=
  fun vc =>
    match truthy sym with
    | Some s => mkVC (delete s (lb vc)) (delete s (lm vc))
    | None => mkVC ∅ ∅
    end.


(** *** [class MT5C] *)

Record MT5C := mkMT5C
  { connected : bool; cvc : VC; on_tick : bool; tc : nat }.

Definition MT5C_new : MT5C := mkMT5C false VC_init false 0.

Definition set_connected (b : bool) (c : MT5C) : MT5C :=
  mkMT5C b (cvc c) (on_tick c) (tc c).

(** What the binding answers during [init]. *)
Record InitEnv := mkInitEnv
  { MT5_AVAILABLE : bool;
    initialize : res bool;
    account_info : res bool }.

Definition init (env : InitEnv) : M MT5C bool :=
  if negb (MT5_AVAILABLE env) then ret false
  else
    try_except
      (let* ok := call (initialize env) in
       if negb ok then ret false
       else
         modify (set_connected true) ;;;
         let* a := call (account_info env) in
         ret true)
      (fun _ => ret false).

Definition shutdown : MT5C -> MT5C :=
  fun c => if connected c then set_connected false c else c.

(** *** [class WM] and the transport *)

Record WM := mkWM
  { conns : list handle; vc : VC;
    sim_task : option Task; mt5_task : option Task;
    mt5 : option MT5C; mode : string; sym : string }.

Definition WM_new : WM :=
  mkWM [] VC_init None None None "simulation" "EURUSD".

(** The manager together with what the transport has delivered so far. *)
Record World := mkWorld { wm : WM; sent : list (handle * Msg) }.

Definition set_conns (l : list handle) (w : World) : World :=
  let m := wm w in
  mkWorld (mkWM l (vc m) (sim_task m) (mt5_task m) (mt5 m) (mode m) (sym m)) (sent w).

Definition set_vc (v : VC) (m : WM) : WM :=
  mkWM (conns m) v (sim_task m) (mt5_task m) (mt5 m) (mode m) (sym m).

Definition set_mode (md : string) (m : WM) : WM :=
  mkWM (conns m) (vc m) (sim_task m) (mt5_task m) (mt5 m) md (sym m).

Section Transport.
(** [accept ws] is the outcome of [ws.accept()], [send ws msg] the one of
    [ws.send_json(msg)]. *)
Variable accept : handle -> res unit.
Variable send : handle -> Msg -> res unit.

Definition send_json (ws : handle) (msg : Msg) : M World unit :=
  fun w => match send ws msg with
           | Ret _ => (Ret tt, mkWorld (wm w) (sent w ++ [(ws, msg)]))
           | Raise e => (Raise e, w)
           end.

Definition conn (ws : handle) : M World unit :=
  call (accept ws) ;;;
  modify (fun w => set_conns (conns (wm w) ++ [ws]) w).

Definition disc (ws : handle) : World -> World :=
  fun w => if contains ws (conns (wm w))
           then set_conns (remove_first ws (conns (wm w))) w
           else w.

(** The first loop of [bcast], over the connections it started with. *)
Fixpoint bcast_send (msg : Msg) (l : list handle) (bad : list handle)
  : M World (list handle) :=
  match l with
  | [] => ret bad
  | c :: l' =>
      let* bad' :=
        try_except (send_json c msg ;;; ret bad)
                   (fun _ => ret (bad ++ [c])) in
      bcast_send msg l' bad'
  end.

Definition bcast (msg : Msg) : M World unit :=
  let* w := get in
  let* bad := bcast_send msg (conns (wm w)) [] in
  modify (fun w => fold_left (fun w c => disc c w) bad w).
End Transport.

(** Running a synthesizer or a transport computation inside the state of
    the producers. *)
Definition on_vc {A} (m : M (VC * Rng) A) : M (World * Rng) A :=
  zoom (fun s => (vc (wm (fst s)), snd s))
       (fun t s => (mkWorld (set_vc (fst t) (wm (fst s))) (sent (fst s)), snd t)) m.

Definition on_world {A} (m : M World A) : M (World * Rng) A :=
  zoom fst (fun w s => (w, snd s)) m.

Definition set_mt5 (c : option MT5C) (m : WM) : WM :=
  mkWM (conns m) (vc m) (sim_task m) (mt5_task m) c (mode m) (sym m).

(** The connector's own synthesizer, for the connector held by the manager. *)
Definition on_cvc {A} (c : MT5C) (m : M (VC * Rng) A) : M (World * Rng) (A * MT5C) :=
  fun s =>
    let '(r, (v, g)) := m (cvc c, snd s) in
    let c' := mkMT5C (connected c) v (on_tick c) (tc c) in
    (match r with Ret a => Ret (a, c') | Raise e => Raise e end,
     (mkWorld (set_mt5 (Some c') (wm (fst s))) (sent (fst s)), g)).

Definition mk_tick (s : string) (d : nat) (mid b a vol : Q) (sd : string)
    (ts : Z) (pc sp : Q) (src : string) : TD :=
  mkTD s (py_round mid d) (py_round b d) (py_round a d) (py_round vol 2) sd ts
       (py_round pc d) (py_round sp d) src.

Section Producers.
Variable send : handle -> Msg -> res unit.
(** [sine n] stands for [math.sin(n/300)], [now] for the clock reading
    [int(datetime.now().timestamp()*1000)]. *)
Variable sine : nat -> Q.
Variable now : Z.

(** One turn of the [while True] loop of [WM.simulate]; [pr] and [n] are
    its local variables, returned as the turn leaves them. *)
Definition simulate_step (pr : gmap string Q) (n : nat)
  : M (World * Rng) (gmap string Q * nat) :=
  let* md := gets (fun w => mode (wm w)) in
  if negb (String.eqb md "simulation") then ret (pr, n)
  else
    let n := Datatypes.S n in
    let* s := gets (fun w => sym (wm w)) in
    let bp := default 1 (pr !! s) in
    let nf := bp * (5#100000) in
    let* r := random in
    let bp := bp + (sine n * nf * (3#10) + (r - (5#10)) * nf) in
    let pr := <[s := bp]> pr in
    try_except
      (let sp := bp * (8#100000) in
       let b := bp - sp / 2 in
       let a := bp + sp / 2 in
       let* (mid, vol, pc, sd) := on_vc (calc s b a) in
       let* t := random in
       let* vol :=
         (if Qlt_bool (95#100) t
          then let* u := random in ret (vol * (3 + u * 5))
          else ret vol) in
       let d := dig (gcfg s) in
       on_world (bcast send
         (TickMsg (mk_tick s d mid b a vol sd now pc sp "simulation"))) ;;;
       (* await asyncio.sleep(0.05 + random.random() * 0.15) *)
       let* z := random in
       ret (pr, n))
      (fun _ => ret (pr, n)).

(** One turn of the [while self.connected] loop of [MT5C.listen], for the
    connector the manager holds; [tick] is the outcome of
    [mt5.symbol_info_tick(sym)] as [(time, bid, ask)], [lt] the local
    variable, returned as the turn leaves it. *)
Definition listen_poll (sym0 : string) (tick : res (option (Z * Q * Q))) (lt : Z)
  : M (World * Rng) Z :=
  let* oc := gets (fun w => mt5 (wm w)) in
  match oc with
  | None => ret lt
  | Some c =>
      if negb (connected c) then ret lt
      else
        match tick with
        | Raise _ => ret lt
        | Ret None => ret lt
        | Ret (Some (tm, b, a)) =>
            if negb (Z.eqb tm lt) || Nat.eqb (tc c) 0 then
              let c := mkMT5C (connected c) (cvc c) (on_tick c) (Datatypes.S (tc c)) in
              update (fun w => mkWorld (set_mt5 (Some c) (wm w)) (sent w)) ;;;
              if Qle_bool b 0 || Qle_bool a 0 then ret tm
              else
                try_except
                  (let* (r, c') := on_cvc c (calc sym0 b a) in
                   let '(mid, vol, pc, sd) := r in
                   let d := dig (gcfg sym0) in
                   let td := mk_tick sym0 d mid b a vol sd now pc (a - b) "mt5" in
                   (if on_tick c' then on_world (bcast send (TickMsg td)) else ret tt) ;;;
                   ret tm)
                  (fun _ => ret tm)
            else ret lt
        end
  end.
End Producers.

(** [WM.start_mt5] *)
Definition start_mt5 (env : InitEnv) (sym0 : string) : M WM bool :=
  fun m =>
    let fresh := mkMT5C false VC_init true 0 in
    let '(r, c) := init env fresh in
    let m := mkWM (conns m) (vc m) (sim_task m) (mt5_task m) (Some c) (mode m) (upper sym0) in
    match r with
    | Raise e => (Raise e, m)
    | Ret true =>
        (Ret true,
         mkWM (conns m) (vc m) (sim_task m) (Some (mkTask sym0 false)) (mt5 m) "mt5" (sym m))
    | Ret false => (Ret false, set_mode "simulation" m)
    end.

(** [WM.stop_mt5] *)
Definition stop_mt5 : WM -> WM :=
  fun m =>
    (* the connector is shut down, then dropped *)
    let m := match mt5 m with
             | Some c => set_mt5 (Some (shutdown c)) m
             | None => m
             end in
    let m := set_mt5 None m in
    let m := match mt5_task m with
             | Some t => mkWM (conns m) (vc m) (sim_task m)
                              (Some (mkTask (task_symbol t) true)) (mt5 m) (mode m) (sym m)
             | None => m
             end in
    set_mode "simulation" m.

(** The answer of [POST /switch_symbol/{symbol}]. *)
Record SwitchReply := mkReply { ok : bool; reply_mode : string; reply_symbol : string }.

Definition switch_sym (env : InitEnv) (symbol0 : string) : M WM SwitchReply :=
  modify (fun m => mkWM (conns m) (reset (Some (upper symbol0)) (vc m)) (sim_task m)
                        (mt5_task m) (mt5 m) (mode m) (upper symbol0)) ;;;
  let* m := get in
  if String.eqb (mode m) "mt5" then
    modify stop_mt5 ;;;
    let* m := get in
    let* r := start_mt5 env (sym m) in
    let* m := get in
    ret (mkReply r (mode m) (sym m))
  else
    ret (mkReply true "simulation" (sym m)).

(** *** [MT5C.get_history] *)

(** What the binding answers during [get_history], and the reading of the
    clock, [datetime.now(timezone.utc)]. *)
Record HistEnv := mkHistEnv
  { hist_available : bool;
    symbol_select : bool;
    copy_ticks_range : res (option (list RawTick));
    copy_ticks_from : res (option (list RawTick));
    utc_now : Q }.

(** The two nested [try] blocks reading one record: by name, else by
    position, else the record is given up. *)
Definition read_record (t : RawTick) : option (Q * Q * Z) :=
  match by_name_bid t, by_name_ask t, by_name_time t with
  | Some b, Some a, Some ts => Some (b, a, default (ts * 1000)%Z (by_name_time_msc t))
  | _, _, _ =>
      match by_pos_1 t, by_pos_2 t, by_pos_0 t with
      | Some b, Some a, Some ts => Some (b, a, (ts * 1000)%Z)
      | _, _, _ => None
      end
  end.

(** The [for i in range(n)] loop, on the local synthesizer [vc]. *)
Fixpoint replay (sym0 : string) (raw : list RawTick) (result : list TD)
  : M (VC * Rng) (list TD) :=
  match raw with
  | [] => ret result
  | t :: raw' =>
      match read_record t with
      | None => replay sym0 raw' result
      | Some (b, a, tms) =>
          if Qle_bool b 0 || Qle_bool a 0 then replay sym0 raw' result
          else
            let* (mid, vol, pc, sd) := calc sym0 b a in
            let d := dig (gcfg sym0) in
            replay sym0 raw'
              (result ++ [mk_tick sym0 d mid b a vol sd tms pc (a - b) "mt5_history"])
      end
  end.

Definition is_empty (raw : option (list RawTick)) : bool :=
  match raw with
  | None | Some [] => true
  | Some (_ :: _) => false
  end.

(** The start of the window is computed after the two guards and before
    the [try]. *)
Definition get_history (env : HistEnv) (sym0 : string) (hours : Q)
  : M (MT5C * Rng) (list TD) :=
  let* c := gets (fun c => c) in
  if negb (connected c) || negb (hist_available env) then ret []
  else if negb (symbol_select env) then ret []
  else
    let* utc_from := call (window_start (utc_now env) hours) in
    try_except
      (let* raw := call (copy_ticks_range env) in
       let* raw := (if is_empty raw then call (copy_ticks_from env) else ret raw) in
       if is_empty raw then ret []
       else
         let raw := default [] raw in
         zoom (fun s => (VC_init, snd s)) (fun t s => (fst s, snd t))
              (replay sym0 raw []))
      (fun _ => ret []).

(** *** The routes *)

(** [GET /health] *)
Record Health := mkHealth
  { health_mode : string; health_symbol : string; health_mt5_connected : bool }.

Definition health (m : WM) : Health :=
  mkHealth (mode m) (sym m)
           (match mt5 m with Some c => connected c | None => false end).

(** [GET /history/{symbol}]. [hours] is declared
    [Query(default=1.0, ge=0.1, le=24)]: a request outside these bounds is
    answered by the framework (status 422) and the handler does not run. *)
Inductive HistoryReply :=
  | HistRejected
  | HistError (error : string) (ticks : list TD) (count : nat)
  | HistOk (symbol0 : string) (hours : Q) (count : nat) (ticks : list TD).

Definition route_get_history (env : HistEnv) (symbol0 : string) (hours : Q)
  : M (WM * Rng) HistoryReply :=
  if Qlt_bool hours (1#10) || Qlt_bool 24 hours then ret HistRejected
  else
    let* oc := gets mt5 in
    match oc with
    | Some c =>
        if connected c then
          let* ticks :=
            zoom (fun s => (c, snd s))
                 (fun t s => (set_mt5 (Some (fst t)) (fst s), snd t))
                 (get_history env (upper symbol0) hours) in
          ret (HistOk (upper symbol0) hours (length ticks) ticks)
        else ret (HistError "MT5 não conectado" [] 0)
    | None => ret (HistError "MT5 não conectado" [] 0)
    end.

(** [GET /symbols]; [symbols_get] is the outcome of [mt5.symbols_get()],
    [None] standing for a result that cannot be iterated. *)
Definition symbols (available : bool) (symbols_get : res (option (list SymbolInfo)))
    (filter0 : string) (m : WM) : list (string * string * nat) :=
  if negb available || negb (match mt5 m with Some c => connected c | None => false end)
  then []
  else
    match symbols_get with
    | Ret (Some ss) =>
        firstn 50
          (map (fun s => (si_name s, si_description s, si_digits s))
               (List.filter
                  (fun s => match filter0 with
                            | EmptyString => true
                            | _ => occurs (upper filter0) (upper (si_name s))
                            end) ss))
    | Ret None => []
    | Raise _ => []
    end.

(** One turn of the loop of [ws_ep], with its [except WebSocketDisconnect],
    the only exception the endpoint catches. *)
Definition ws_turn (env : InitEnv) (ws : handle) (incoming : Incoming)
  : M World WsTurn :=
  match incoming with
  | WsDisconnect => modify (disc ws) ;;; ret Closed
  | ReceiveFails e => raise e
  | Garbage => raise ParseError
  | Command action symbol0 =>
      match action with
      | Some a =>
          if String.eqb a "subscribe" then ret (Continue false)
          else if String.eqb a "switch_symbol" then
            zoom wm (fun m w => mkWorld m (sent w))
                 (switch_sym env (default "EURUSD" symbol0)) ;;;
            ret (Continue false)
          else ret (Continue false)
      | None => ret (Continue false)
      end
  end.

End V5.

(** ** Version 6.1: [mt5_bridge_server_v6.py] *)

Module V6.

Record Profile := mkProfile { mult : Q; bv : Q; dig : nat; base : Q }.

Definition SYM_CFG_items : list (string * Profile) :=
    [ ("EURUSD", mkProfile 100000 5 5 (10850#10000));
      ("GBPUSD", mkProfile 100000 5 5 (12650#10000));
      ("USDJPY", mkProfile 1000 5 3 (14950#100));
      ("XAUUSD", mkProfile 50 10 2 2350);
      ("USTEC", mkProfile 2 10 2 18500);
      ("US100", mkProfile 2 10 2 18500);
      ("NAS100", mkProfile 2 10 2 18500);
      ("BTCUSD", mkProfile 1 5 2 67000) ].

Definition SYM_CFG : gmap string Profile := list_to_map SYM_CFG_items.

Definition default_profile : Profile := mkProfile 1000 5 5 1.

Definition gcfg (symbol : string) : Profile :=
  default default_profile (SYM_CFG !! upper symbol).

(** [class VolumeCalculator] *)
Record VolumeCalculator := mkVC
  { last_bid : gmap string Q;
    last_mid : gmap string Q;
    _initialized : gmap string bool }.

Definition VC_init : VolumeCalculator := mkVC ∅ ∅ ∅.

Definition calc (symbol : string) (bid ask : Q)
  : M (VolumeCalculator * Rng) (Q * Q * Q * string) :=
  let config := gcfg symbol in
  let mid := (bid + ask) / 2 in
  let* ini := gets _initialized in
  match ini !! symbol with
  | None =>
      update (fun vc => mkVC (<[symbol := bid]> (last_bid vc))
                             (<[symbol := mid]> (last_mid vc))
                             (<[symbol := true]> (_initialized vc))) ;;;
      let* r := random in
      let vol := bv config * ((8#10) + r * (4#10)) in
      let* r' := random in
      ret (mid, vol, 0, coin r')
  | Some _ =>
      let* lms := gets last_mid in
      let* lm0 := index lms symbol in
      let price_change := mid - lm0 in
      let* lbs := gets last_bid in
      let* lb0 := index lbs symbol in
      let bid_change := bid - lb0 in
      let vol := Qabs price_change * mult config + bv config in
      let* r := random in
      let vol := vol * ((7#10) + r * (6#10)) in
      let vol := py_max vol (bv config) in
      let* t := random in
      let* vol :=
        (if Qlt_bool (97#100) t
         then let* u := random in ret (vol * (3 + u * 5))
         else ret vol) in
      let* side :=
        (if Qlt_bool 0 bid_change then ret "buy"
         else if Qlt_bool bid_change 0 then ret "sell"
         else let* r' := random in ret (coin r')) in
      update (fun vc => mkVC (<[symbol := bid]> (last_bid vc))
                             (<[symbol := mid]> (last_mid vc))
                             (_initialized vc)) ;;;
      ret (mid, vol, price_change, side)
  end.

Definition reset (symbol : option string) : VolumeCalculator -> VolumeCalculator :=
  fun vc =>
    match truthy symbol with
    | Some s => mkVC (delete s (last_bid vc)) (delete s (last_mid vc))
                     (delete s (_initialized vc))
    | None => mkVC ∅ ∅ ∅
    end.

(** *** [class MT5Connector] *)

Record MT5Connector := mkMT5C
  { connected : bool; cvc : VolumeCalculator; on_tick : bool;
    tick_count : nat; _should_reconnect : bool; mt5_path : option string }.

Definition MT5Connector_new : MT5Connector :=
  mkMT5C false VC_init false 0 true None.

Definition set_connected (b : bool) (c : MT5Connector) : MT5Connector :=
  mkMT5C b (cvc c) (on_tick c) (tick_count c) (_should_reconnect c) (mt5_path c).

(** What the system and the binding answer during [init]: the path found
    by [find_mt5_path], [mt5.initialize] with the credentials, the second
    [mt5.initialize] without them, [mt5.account_info]. *)
Record InitEnv := mkInitEnv
  { MT5_AVAILABLE : bool;
    find_mt5_path : option string;
    initialize_with : res bool;
    initialize_bare : res bool;
    account_info : res bool }.

Definition init (env : InitEnv) : M MT5Connector bool :=
  if negb (MT5_AVAILABLE env) then ret false
  else
    modify (fun c => mkMT5C (connected c) (cvc c) (on_tick c) (tick_count c)
                            (_should_reconnect c) (find_mt5_path env)) ;;;
    try_except
      (let* ok := call (initialize_with env) in
       let* ok := (if negb ok then call (initialize_bare env) else ret true) in
       if negb ok then ret false
       else
         modify (set_connected true) ;;;
         let* a := call (account_info env) in
         ret true)
      (fun _ => ret false).

Definition shutdown : MT5Connector -> MT5Connector :=
  fun c => if connected c then set_connected false c else c.

(** *** [class WebSocketManager] and the transport *)

Record WebSocketManager := mkWM
  { connections : list handle; vc : VolumeCalculator;
    sim_task : option Task; mt5_task : option Task;
    mt5 : option MT5Connector; mode : string; symbol : string }.

Definition WM_new : WebSocketManager :=
  mkWM [] VC_init None None None "simulation" "EURUSD".

(** The manager together with what the transport has delivered so far. *)
Record World := mkWorld { wm : WebSocketManager; sent : list (handle * Msg) }.

Definition set_connections (l : list handle) (w : World) : World :=
  let m := wm w in
  mkWorld (mkWM l (vc m) (sim_task m) (mt5_task m) (mt5 m) (mode m) (symbol m)) (sent w).

Definition set_vc (v : VolumeCalculator) (m : WebSocketManager) : WebSocketManager :=
  mkWM (connections m) v (sim_task m) (mt5_task m) (mt5 m) (mode m) (symbol m).

Definition set_mode (md : string) (m : WebSocketManager) : WebSocketManager :=
  mkWM (connections m) (vc m) (sim_task m) (mt5_task m) (mt5 m) md (symbol m).

Definition set_mt5 (c : option MT5Connector) (m : WebSocketManager) : WebSocketManager :=
  mkWM (connections m) (vc m) (sim_task m) (mt5_task m) c (mode m) (symbol m).

Definition mt5_connected (m : WebSocketManager) : bool :=
  match mt5 m with Some c => connected c | None => false end.

Section Transport.
Variable accept : handle -> res unit.
Variable send : handle -> Msg -> res unit.

Definition send_json (ws : handle) (msg : Msg) : M World unit :=
  fun w => match send ws msg with
           | Ret _ => (Ret tt, mkWorld (wm w) (sent w ++ [(ws, msg)]))
           | Raise e => (Raise e, w)
           end.

Definition connect (available : bool) (ws : handle) : M World unit :=
  call (accept ws) ;;;
  modify (fun w => set_connections (connections (wm w) ++ [ws]) w) ;;;
  let* w := get in
  send_json ws (ConnectedMsg (mode (wm w)) (symbol (wm w)) available
                             (mt5_connected (wm w))).

Definition disconnect (ws : handle) : World -> World :=
  fun w => if contains ws (connections (wm w))
           then set_connections (remove_first ws (connections (wm w))) w
           else w.

(** The first loop of [broadcast], over the connections it started with. *)
Fixpoint broadcast_send (msg : Msg) (l : list handle) (bad : list handle)
  : M World (list handle) :=
  match l with
  | [] => ret bad
  | c :: l' =>
      let* bad' :=
        try_except (send_json c msg ;;; ret bad)
                   (fun _ => ret (bad ++ [c])) in
      broadcast_send msg l' bad'
  end.

Definition broadcast (msg : Msg) : M World unit :=
  let* w := get in
  let* bad := broadcast_send msg (connections (wm w)) [] in
  modify (fun w => fold_left (fun w c => disconnect c w) bad w).
End Transport.

Definition on_vc {A} (m : M (VolumeCalculator * Rng) A) : M (World * Rng) A :=
  zoom (fun s => (vc (wm (fst s)), snd s))
       (fun t s => (mkWorld (set_vc (fst t) (wm (fst s))) (sent (fst s)), snd t)) m.

Definition on_world {A} (m : M World A) : M (World * Rng) A :=
  zoom fst (fun w s => (w, snd s)) m.

(** The connector's own synthesizer, for the connector held by the manager. *)
Definition on_cvc {A} (c : MT5Connector) (m : M (VolumeCalculator * Rng) A)
  : M (World * Rng) (A * MT5Connector) :=
  fun s =>
    let '(r, (v, g)) := m (cvc c, snd s) in
    let c' := mkMT5C (connected c) v (on_tick c) (tick_count c)
                     (_should_reconnect c) (mt5_path c) in
    (match r with Ret a => Ret (a, c') | Raise e => Raise e end,
     (mkWorld (set_mt5 (Some c') (wm (fst s))) (sent (fst s)), g)).

Definition mk_tick (s : string) (d : nat) (mid b a vol : Q) (sd : string)
    (ts : Z) (pc sp : Q) (src : string) : TD :=
  mkTD s (py_round mid d) (py_round b d) (py_round a d) (py_round vol 2) sd ts
       (py_round pc d) (py_round sp d) src.

(** [prices = {s: c['base'] for s, c in SYM_CFG.items()}] *)
Definition initial_prices : gmap string Q :=
  list_to_map (map (fun sc => (fst sc, base (snd sc))) SYM_CFG_items).

Section Producers.
Variable send : handle -> Msg -> res unit.
Variable sine : nat -> Q.
Variable now : Z.

(** One turn of the [while True] loop of [WebSocketManager.simulate]. *)
Definition simulate_step (prices : gmap string Q) (n : nat)
  : M (World * Rng) (gmap string Q * nat) :=
  let* md := gets (fun w => mode (wm w)) in
  if negb (String.eqb md "simulation") then ret (prices, n)
  else
    let n := Datatypes.S n in
    let* s := gets (fun w => symbol (wm w)) in
    let bp := default 1 (prices !! s) in
    let nf := bp * (5#100000) in
    let* r := random in
    let bp := bp + (sine n * nf * (3#10) + (r - (5#10)) * nf) in
    let prices := <[s := bp]> prices in
    try_except
      (let sp := bp * (8#100000) in
       let b := bp - sp / 2 in
       let a := bp + sp / 2 in
       let* (mid, vol, pc, sd) := on_vc (calc s b a) in
       let d := dig (gcfg s) in
       on_world (broadcast send
         (TickMsg (mk_tick s d mid b a vol sd now pc sp "simulation"))) ;;;
       (* await asyncio.sleep(0.05 + random.random() * 0.15) *)
       let* z := random in
       ret (prices, n))
      (fun _ => ret (prices, n)).

(** One turn of the [while self.connected] loop of [MT5Connector.listen],
    for the connector the manager holds. *)
Definition listen_poll (symbol0 : string) (tick : res (option (Z * Q * Q)))
    (last_time : Z) : M (World * Rng) Z :=
  let* oc := gets (fun w => mt5 (wm w)) in
  match oc with
  | None => ret last_time
  | Some c =>
      if negb (connected c) then ret last_time
      else
        match tick with
        | Raise _ => ret last_time
        | Ret None => ret last_time
        | Ret (Some (tm, b, a)) =>
            if negb (Z.eqb tm last_time) then
              let c := mkMT5C (connected c) (cvc c) (on_tick c)
                              (Datatypes.S (tick_count c))
                              (_should_reconnect c) (mt5_path c) in
              update (fun w => mkWorld (set_mt5 (Some c) (wm w)) (sent w)) ;;;
              if Qlt_bool 0 b && Qlt_bool 0 a then
                try_except
                  (let* (r, c') := on_cvc c (calc symbol0 b a) in
                   let '(mid, vol, pc, sd) := r in
                   let d := dig (gcfg symbol0) in
                   let td := mk_tick symbol0 d mid b a vol sd now pc (a - b) "mt5" in
                   (if on_tick c' then on_world (broadcast send (TickMsg td))
                    else ret tt) ;;;
                   ret tm)
                  (fun _ => ret tm)
              else ret tm
            else ret last_time
        end
  end.
End Producers.

(** [WebSocketManager.start_mt5] *)
Definition start_mt5 (env : InitEnv) (symbol0 : string) : M WebSocketManager bool :=
  fun m =>
    let fresh := mkMT5C false VC_init true 0 true None in
    let '(r, c) := init env fresh in
    let m := mkWM (connections m) (vc m) (sim_task m) (mt5_task m) (Some c)
                  (mode m) (upper symbol0) in
    match r with
    | Raise e => (Raise e, m)
    | Ret true =>
        (Ret true,
         mkWM (connections m) (vc m) (sim_task m) (Some (mkTask symbol0 false))
              (mt5 m) "mt5" (symbol m))
    | Ret false => (Ret false, set_mode "simulation" m)
    end.

(** [WebSocketManager.stop_mt5] *)
Definition stop_mt5 : WebSocketManager -> WebSocketManager :=
  fun m =>
    (* the connector is shut down, then dropped *)
    let m := match mt5 m with
             | Some c => set_mt5 (Some (shutdown c)) m
             | None => m
             end in
    let m := set_mt5 None m in
    let m := mkWM (connections m) (vc m) (sim_task m) None (mt5 m) (mode m) (symbol m) in
    set_mode "simulation" m.

(** The answer of [POST /switch_symbol/{symbol}]. *)
Record SwitchReply := mkReply
  { success : bool; reply_mode : string; reply_symbol : string }.

Definition switch_symbol (env : InitEnv) (symbol0 : string)
  : M WebSocketManager SwitchReply :=
  modify (fun m => mkWM (connections m) (reset (Some (upper symbol0)) (vc m))
                        (sim_task m) (mt5_task m) (mt5 m) (mode m) (upper symbol0)) ;;;
  let* m := get in
  if String.eqb (mode m) "mt5" then
    modify stop_mt5 ;;;
    let* m := get in
    let* r := start_mt5 env (symbol m) in
    let* m := get in
    ret (mkReply r (mode m) (symbol m))
  else
    ret (mkReply true "simulation" (symbol m)).

(** The answer of [POST /reconnect]: the outcome and the mode, no symbol. *)
Record ReconnectReply := mkReconnectReply { rc_success : bool; rc_mode : string }.

Definition reconnect (env : InitEnv) : M WebSocketManager ReconnectReply :=
  let* m := get in
  (match mt5 m with Some _ => modify stop_mt5 | None => ret tt end) ;;;
  let* m := get in
  let* r := start_mt5 env (symbol m) in
  let* m := get in
  ret (mkReconnectReply r (mode m)).

(** *** [MT5Connector.get_history] *)

(** The dict appended to [result]. *)
Record HistTick := mkHistTick
  { h_symbol : string; h_price : Q; h_bid : Q; h_ask : Q;
    h_volume_synthetic : Q; h_side : string; h_timestamp : Z; h_source : string }.

Record HistEnv := mkHistEnv
  { hist_available : bool;
    symbol_select : bool;
    copy_ticks_range : res (option (list RawTick));
    copy_ticks_from : res (option (list RawTick));
    utc_now : Q }.

(** Reading one record by name; [None] when a conversion raises. *)
Definition read_record (t : RawTick) : option (Q * Q * Z) :=
  match by_name_bid t, by_name_ask t, by_name_time t with
  | Some b, Some a, Some ts => Some (b, a, default (ts * 1000)%Z (by_name_time_msc t))
  | _, _, _ => None
  end.

(** The [for t in raw] loop, on the local synthesizer [vc]; the body is
    inside [try: ... except: continue]. *)
Fixpoint replay (symbol0 : string) (raw : list RawTick) (result : list HistTick)
  : M (VolumeCalculator * Rng) (list HistTick) :=
  match raw with
  | [] => ret result
  | t :: raw' =>
      let* result' :=
        try_except
          (match read_record t with
           | None => raise ParseError
           | Some (b, a, tms) =>
               if Qlt_bool 0 b && Qlt_bool 0 a then
                 let* (mid, vol, pc, sd) := calc symbol0 b a in
                 let d := dig (gcfg symbol0) in
                 ret (result ++ [mkHistTick symbol0 (py_round mid d) (py_round b d)
                                   (py_round a d) (py_round vol 2) sd tms "mt5_history"])
               else ret result
           end)
          (fun _ => ret result) in
      replay symbol0 raw' result'
  end.

Definition is_empty (raw : option (list RawTick)) : bool :=
  match raw with
  | None | Some [] => true
  | Some (_ :: _) => false
  end.

(** The start of the window is computed after the two guards and before
    the [try]. *)
Definition get_history (env : HistEnv) (symbol0 : string) (hours : Q)
  : M (MT5Connector * Rng) (list HistTick) :=
  let* c := gets (fun c => c) in
  if negb (connected c) || negb (hist_available env) then ret []
  else if negb (symbol_select env) then ret []
  else
    let* utc_from := call (window_start (utc_now env) hours) in
    try_except
      (let* raw := call (copy_ticks_range env) in
       let* raw := (if is_empty raw then call (copy_ticks_from env) else ret raw) in
       if is_empty raw then ret []
       else
         let raw := default [] raw in
         zoom (fun s => (VC_init, snd s)) (fun t s => (fst s, snd t))
              (replay symbol0 raw []))
      (fun _ => ret []).

(** *** [find_mt5_path] *)

Section FindPath.
(** [os.path.expandvars], [os.path.exists], [os.path.dirname] and
    [os.path.join], as the system answers. *)
Variable expandvars : string -> string.
Variable path_exists : string -> bool.
Variable dirname : string -> string.
Variable join : string -> string -> string.

(** The loop over [MT5_POSSIBLE_PATHS]. *)
Fixpoint find_mt5_path_in (paths : list string) : option string :=
  match paths with
  | [] => None
  | path :: rest =>
      let expanded := expandvars path in
      if path_exists expanded then Some expanded
      else
        let folder := dirname expanded in
        if path_exists folder then
          let exe := join folder "terminal64.exe" in
          if path_exists exe then Some exe else find_mt5_path_in rest
        else find_mt5_path_in rest
  end.
End FindPath.

(** *** The routes *)

(** [GET /] and [GET /health] *)
Record Root := mkRoot
  { root_mode : string; root_symbol : string; root_mt5_available : bool;
    root_mt5_connected : bool; root_clients : nat }.

Definition root (available : bool) (m : WebSocketManager) : Root :=
  mkRoot (mode m) (symbol m) available (mt5_connected m) (length (connections m)).

Record Health := mkHealth
  { health_mode : string; health_symbol : string; health_mt5_connected : bool;
    health_tick_count : nat }.

Definition health (m : WebSocketManager) : Health :=
  mkHealth (mode m) (symbol m) (mt5_connected m)
           (match mt5 m with Some c => tick_count c | None => 0%nat end).

(** [GET /history/{symbol}]. [hours] is declared
    [Query(default=1.0, ge=0.1, le=24)]: a request outside these bounds is
    answered by the framework (status 422) and the handler does not run. *)
Inductive HistoryReply :=
  | HistRejected
  | HistError (error : string) (ticks : list HistTick) (count : nat)
  | HistOk (symbol0 : string) (hours : Q) (count : nat) (ticks : list HistTick).

Definition route_get_history (env : HistEnv) (symbol0 : string) (hours : Q)
  : M (WebSocketManager * Rng) HistoryReply :=
  if Qlt_bool hours (1#10) || Qlt_bool 24 hours then ret HistRejected
  else
    let* oc := gets mt5 in
    match oc with
    | Some c =>
        if connected c then
          let* ticks :=
            zoom (fun s => (c, snd s))
                 (fun t s => (set_mt5 (Some (fst t)) (fst s), snd t))
                 (get_history env (upper symbol0) hours) in
          ret (HistOk (upper symbol0) hours (length ticks) ticks)
        else ret (HistError "MT5 não conectado" [] 0)
    | None => ret (HistError "MT5 não conectado" [] 0)
    end.

(** [GET /symbols]: the name and, from the terminal, the visibility. *)
Definition list_symbols (available : bool) (symbols_get : res (option (list SymbolInfo)))
    (m : WebSocketManager) : list (string * option bool) :=
  if negb available || negb (mt5_connected m)
  then map (fun sc => (fst sc, None)) SYM_CFG_items
  else
    match symbols_get with
    | Ret (Some syms) => map (fun s => (si_name s, Some (si_visible s))) (firstn 100 syms)
    | Ret None => []
    | Raise _ => []
    end.

(** One turn of the loop of [ws_ep]: the receive is outside the inner
    [try], under [except WebSocketDisconnect] only; the command is decoded
    and handled inside [try: ... except: pass]; [pong] is the outcome of
    sending the pong. *)
Definition ws_turn (env : InitEnv) (pong : handle -> res unit) (ws : handle)
    (incoming : Incoming) : M World WsTurn :=
  match incoming with
  | WsDisconnect => modify (disconnect ws) ;;; ret Closed
  | ReceiveFails e => raise e
  | Garbage => ret (Continue false)
  | Command action symbol0 =>
      try_except
        (match action with
         | Some a =>
             if String.eqb a "switch_symbol" then
               zoom wm (fun m w => mkWorld m (sent w))
                    (switch_symbol env (default "EURUSD" symbol0)) ;;;
               ret (Continue false)
             else if String.eqb a "ping" then
               call (pong ws) ;;; ret (Continue true)
             else ret (Continue false)
         | None => ret (Continue false)
         end)
        (fun _ => ret (Continue false))
  end.

End V6.



(** * Vocabulary of the statements *)

(** A v6.1 synthesizer whose three dicts agree: a symbol marked initialized
    has a stored bid and a stored mid. *)
Definition vc_consistent (vc : V6.VolumeCalculator) : Prop :=
  forall s, is_Some (V6._initialized vc !! s) ->
            is_Some (V6.last_bid vc !! s) /\ is_Some (V6.last_mid vc !! s).


(** The side rule of step 3: [r] is the draw used when the bid did not move. *)
Definition side_rule (bid_change : Q) (sd : string) (r : Q) : Prop :=
  (0 < bid_change -> sd = "buy") /\
  (bid_change < 0 -> sd = "sell") /\
  (bid_change == 0 -> sd = coin r).

(** The burst of v6.1's step 3: [t] is the test draw, [u] the factor draw. *)
Definition burst (vol t u : Q) : Q :=
  if Qlt_bool (97#100) t then vol * (3 + u * 5) else vol.

(** Whether the transport delivers [msg] to [ws]. *)
Definition delivers (send : handle -> Msg -> res unit) (msg : Msg) (ws : handle) : bool :=
  match send ws msg with Ret _ => true | Raise _ => false end.

Definition fails (send : handle -> Msg -> res unit) (msg : Msg) (ws : handle) : bool :=
  negb (delivers send msg ws).

(** [disc] / [disconnect] on the list of connections alone. *)
Definition drop (l : list handle) (ws : handle) : list handle :=
  if contains ws l then remove_first ws l else l.

(** The transport's side of [ws.accept()]. The call sends the ASGI message
    [websocket.accept], which the transport refuses with [RuntimeError] on a
    socket that has been accepted before; so [accept] succeeds at most once
    per socket. [accepted] lists the sockets accepted so far, [handshake ws]
    is the outcome of accepting a socket that has not been. *)
Definition accept_on (handshake : handle -> res unit) (accepted : list handle)
    (ws : handle) : res unit :=
  if contains ws accepted then Raise RuntimeError else handshake ws.

Definition accepted_after (handshake : handle -> res unit) (accepted : list handle)
    (ws : handle) : list handle :=
  if contains ws accepted then accepted
  else match handshake ws with
       | Ret _ => ws :: accepted
       | Raise _ => accepted
       end.

(** The registries the code can reach over such a transport, with the
    sockets accepted so far: [conn] / [connect], [disc] / [disconnect] and
    the broadcast are the only code that writes the list of connections;
    the last constructor stands for everything else, which leaves it alone. *)
Inductive hub_reachable5 : list handle -> V5.World -> Prop :=
  | hr5_new : hub_reachable5 [] (V5.mkWorld V5.WM_new [])
  | hr5_conn handshake acc w ws r w' :
      hub_reachable5 acc w ->
      V5.conn (accept_on handshake acc) ws w = (r, w') ->
      hub_reachable5 (accepted_after handshake acc ws) w'
  | hr5_disc acc w ws :
      hub_reachable5 acc w -> hub_reachable5 acc (V5.disc ws w)
  | hr5_bcast send msg acc w r w' :
      hub_reachable5 acc w -> V5.bcast send msg w = (r, w') -> hub_reachable5 acc w'
  | hr5_other acc w w' :
      hub_reachable5 acc w -> V5.conns (V5.wm w') = V5.conns (V5.wm w) ->
      hub_reachable5 acc w'.

Inductive hub_reachable6 : list handle -> V6.World -> Prop :=
  | hr6_new : hub_reachable6 [] (V6.mkWorld V6.WM_new [])
  | hr6_connect handshake send available acc w ws r w' :
      hub_reachable6 acc w ->
      V6.connect (accept_on handshake acc) send available ws w = (r, w') ->
      hub_reachable6 (accepted_after handshake acc ws) w'
  | hr6_disconnect acc w ws :
      hub_reachable6 acc w -> hub_reachable6 acc (V6.disconnect ws w)
  | hr6_broadcast send msg acc w r w' :
      hub_reachable6 acc w -> V6.broadcast send msg w = (r, w') -> hub_reachable6 acc w'
  | hr6_other acc w w' :
      hub_reachable6 acc w ->
      V6.connections (V6.wm w') = V6.connections (V6.wm w) ->
      hub_reachable6 acc w'.

(** The two stream modes. *)
Definition valid_mode (md : string) : Prop := md = "mt5" \/ md = "simulation".

(** Whether the live connection attempt succeeds: the binding is there,
    [initialize] answers true and [account_info] does not raise. *)
Definition connects5 (env : V5.InitEnv) : bool :=
  V5.MT5_AVAILABLE env &&
  match V5.initialize env, V5.account_info env with
  | Ret true, Ret _ => true
  | _, _ => false
  end.

Definition connects6 (env : V6.InitEnv) : bool :=
  V6.MT5_AVAILABLE env &&
  match V6.initialize_with env, V6.initialize_bare env, V6.account_info env with
  | Ret true, _, Ret _ => true
  | Ret false, Ret true, Ret _ => true
  | _, _, _ => false
  end.

(** The managers that the mode-changing operations can produce. *)
Inductive wm_reachable5 : V5.WM -> Prop :=
  | wr5_new : wm_reachable5 V5.WM_new
  | wr5_start env s m r m' :
      wm_reachable5 m -> V5.start_mt5 env s m = (r, m') -> wm_reachable5 m'
  | wr5_stop m : wm_reachable5 m -> wm_reachable5 (V5.stop_mt5 m)
  | wr5_switch env s m r m' :
      wm_reachable5 m -> V5.switch_sym env s m = (r, m') -> wm_reachable5 m'.

Inductive wm_reachable6 : V6.WebSocketManager -> Prop :=
  | wr6_new : wm_reachable6 V6.WM_new
  | wr6_start env s m r m' :
      wm_reachable6 m -> V6.start_mt5 env s m = (r, m') -> wm_reachable6 m'
  | wr6_stop m : wm_reachable6 m -> wm_reachable6 (V6.stop_mt5 m)
  | wr6_switch env s m r m' :
      wm_reachable6 m -> V6.switch_symbol env s m = (r, m') -> wm_reachable6 m'
  | wr6_reconnect env m r m' :
      wm_reachable6 m -> V6.reconnect env m = (r, m') -> wm_reachable6 m'.

(** The quote a history record contributes, if any: its fields must be
    readable and its bid and ask positive. *)
Definition usable5 (t : RawTick) : option (Q * Q * Z) :=
  match V5.read_record t with
  | Some (b, a, tms) => if Qle_bool b 0 || Qle_bool a 0 then None else Some (b, a, tms)
  | None => None
  end.

Definition usable6 (t : RawTick) : option (Q * Q * Z) :=
  match V6.read_record t with
  | Some (b, a, tms) => if Qlt_bool 0 b && Qlt_bool 0 a then Some (b, a, tms) else None
  | None => None
  end.

(** The valid records, read off the fields of a record and not through the
    readers of the code. A record read by name gives its bid, its ask and
    its time in milliseconds, the time in seconds times 1000 standing in for
    a millisecond field that cannot be read; v5.1 falls back on the fields
    by position; the quote counts when bid and ask are positive. *)
Definition quote_by_name (t : RawTick) : option (Q * Q * Z) :=
  match by_name_bid t, by_name_ask t, by_name_time t with
  | Some b, Some a, Some ts => Some (b, a, default (ts * 1000)%Z (by_name_time_msc t))
  | _, _, _ => None
  end.

Definition quote_by_position (t : RawTick) : option (Q * Q * Z) :=
  match by_pos_1 t, by_pos_2 t, by_pos_0 t with
  | Some b, Some a, Some ts => Some (b, a, (ts * 1000)%Z)
  | _, _, _ => None
  end.

Definition positive_quote (q : Q * Q * Z) : option (Q * Q * Z) :=
  let '(b, a, tms) := q in
  if Qlt_bool 0 b && Qlt_bool 0 a then Some (b, a, tms) else None.

Definition valid6 (t : RawTick) : option (Q * Q * Z) :=
  match quote_by_name t with
  | Some q => positive_quote q
  | None => None
  end.

Definition valid5 (t : RawTick) : option (Q * Q * Z) :=
  match quote_by_name t with
  | Some q => positive_quote q
  | None =>
      match quote_by_position t with
      | Some q => positive_quote q
      | None => None
      end
  end.

(** The hours the history route lets through, and a clock that reads a
    date later than the first day of year 1. *)
Definition route_hours (hours : Q) : Prop := 1#10 <= hours /\ hours <= 24.

Definition clock_in_range (now : Q) : Prop :=
  DATETIME_MIN + 86400 <= now /\ now < DATETIME_END.

(** The bid, ask and timestamp a converted quote shows. *)
Definition shown (d : nat) (q : Q * Q * Z) : Q * Q * Z :=
  let '(b, a, tms) := q in (py_round b d, py_round a d, tms).

(** The batch [get_history] works on once the window is there: what
    [copy_ticks_range] returns, or [copy_ticks_from] when that is [None] or
    empty; no batch when the connector is not connected, the binding
    absent, the symbol not selectable, or a fetch raises. *)
Definition batch5 (env : V5.HistEnv) (c : V5.MT5C) : list RawTick :=
  if V5.connected c && V5.hist_available env && V5.symbol_select env then
    match V5.copy_ticks_range env with
    | Ret r =>
        if V5.is_empty r then
          match V5.copy_ticks_from env with
          | Ret r' => default [] r'
          | Raise _ => []
          end
        else default [] r
    | Raise _ => []
    end
  else [].

Definition batch6 (env : V6.HistEnv) (c : V6.MT5Connector) : list RawTick :=
  if V6.connected c && V6.hist_available env && V6.symbol_select env then
    match V6.copy_ticks_range env with
    | Ret r =>
        if V6.is_empty r then
          match V6.copy_ticks_from env with
          | Ret r' => default [] r'
          | Raise _ => []
          end
        else default [] r
    | Raise _ => []
    end
  else [].

(** The probability that a uniform draw from [0, 1) exceeds [threshold]. *)
Definition tail_probability (threshold : Q) : Q := 1 - threshold.

(** The volume of step 3 before any burst. *)
Definition jittered (pc mult bv r : Q) : Q :=
  py_max ((Qabs pc * mult + bv) * ((7#10) + r * (6#10))) bv.

(** The timestamps of the records of a batch that can be read, in order. *)
Definition stamps5 (raw : list RawTick) : list Z :=
  omap (fun t => snd <$> V5.read_record t) raw.

Definition stamps6 (raw : list RawTick) : list Z :=
  omap (fun t => snd <$> V6.read_record t) raw.

(** A record whose bid, ask and time can be read by name. *)
Definition name_readable (t : RawTick) : Prop :=
  is_Some (by_name_bid t) /\ is_Some (by_name_ask t) /\ is_Some (by_name_time t).

(** A manager in live mode holds a connected connector. *)
Definition live_has_connector5 (m : V5.WM) : Prop :=
  V5.mode m = "mt5" -> exists c, V5.mt5 m = Some c /\ V5.connected c = true.

Definition live_has_connector6 (m : V6.WebSocketManager) : Prop :=
  V6.mode m = "mt5" -> exists c, V6.mt5 m = Some c /\ V6.connected c = true.

(** The last draw a generator has handed out. *)
Definition last_draw (g : Rng) : Q := draws g (Nat.pred (pos g)).

(** * Properties *)

(** ** Arithmetic helpers *)

Lemma Qlt_bool_iff (x y : Q) : Qlt_bool x y = true <-> x < y.
Proof.
  unfold Qlt_bool. rewrite Bool.negb_true_iff.
  split; intros H.
  - apply Qnot_le_lt. intros Hle. apply Qle_bool_iff in Hle. congruence.
  - destruct (Qle_bool y x) eqn:E; [|reflexivity].
    apply Qle_bool_iff in E. lra.
Qed.

Lemma Qlt_bool_false (x y : Q) : Qlt_bool x y = false <-> y <= x.
Proof.
  unfold Qlt_bool. rewrite Bool.negb_false_iff. apply Qle_bool_iff.
Qed.

Lemma py_max_ge_r (a b : Q) : b <= py_max a b.
Proof.
  unfold py_max. destruct (Qlt_bool a b) eqn:E.
  - lra.
  - apply Qlt_bool_false in E. exact E.
Qed.

Lemma py_max_ge_l (a b : Q) : a <= py_max a b.
Proof.
  unfold py_max. destruct (Qlt_bool a b) eqn:E.
  - apply Qlt_bool_iff in E. lra.
  - lra.
Qed.

Lemma coin_buy (r : Q) : coin r = "buy" <-> 1#2 < r.
Proof.
  unfold coin. destruct (Qlt_bool (1#2) r) eqn:E.
  - apply Qlt_bool_iff in E. split; [intros _; exact E|reflexivity].
  - apply Qlt_bool_false in E. split; [discriminate|intros H; lra].
Qed.

Lemma coin_sell (r : Q) : coin r = "sell" <-> r <= 1#2.
Proof.
  unfold coin. destruct (Qlt_bool (1#2) r) eqn:E.
  - apply Qlt_bool_iff in E. split; [discriminate|intros H; lra].
  - apply Qlt_bool_false in E. split; [intros _; exact E|reflexivity].
Qed.

Lemma coin_side (r : Q) : coin r = "buy" \/ coin r = "sell".
Proof. unfold coin. destruct (Qlt_bool (1#2) r); auto. Qed.

(** ** Letter case *)

Lemma upper_ascii_idem (a : ascii) : upper_ascii (upper_ascii a) = upper_ascii a.
Proof. destruct a as [[] [] [] [] [] [] [] []]; reflexivity. Qed.

Lemma same_letter_upper (a b : ascii) :
  same_letter a b -> upper_ascii a = upper_ascii b.
Proof.
  intros [-> | [[_ ->] | [_ ->]]]; [reflexivity| |];
    now rewrite upper_ascii_idem.
Qed.

Lemma same_modulo_case_upper (s t : string) :
  same_modulo_case s t -> upper s = upper t.
Proof.
  induction 1 as [|a b s t Hab _ IH]; simpl; [reflexivity|].
  now rewrite (same_letter_upper a b Hab), IH.
Qed.

(** ** The profile registry *)

(** C9. The profile lookup [gcfg] is total and case-insensitive, in both
    versions: every string gets either the profile the table holds for its
    upper-case form or the default profile; two symbols that differ only in
    letter case get the same profile; a symbol whose upper-case form is not
    in the table gets the default profile, with multiplier 1000, base volume
    5 and 5 decimal digits. *)
Theorem gcfg_total_case_insensitive (s t : string) :
  (* total *)
  ((exists p, V5.SYM_CFG !! upper s = Some p /\ V5.gcfg s = p) \/
   (V5.SYM_CFG !! upper s = None /\ V5.gcfg s = V5.default_profile)) /\
  ((exists p, V6.SYM_CFG !! upper s = Some p /\ V6.gcfg s = p) \/
   (V6.SYM_CFG !! upper s = None /\ V6.gcfg s = V6.default_profile)) /\
  (* case-insensitive *)
  (same_modulo_case s t -> V5.gcfg s = V5.gcfg t /\ V6.gcfg s = V6.gcfg t) /\
  (* default for unrecognized symbols *)
  (V5.SYM_CFG !! upper s = None ->
     V5.mult (V5.gcfg s) = 1000 /\ V5.bv (V5.gcfg s) = 5 /\ V5.dig (V5.gcfg s) = 5%nat) /\
  (V6.SYM_CFG !! upper s = None ->
     V6.mult (V6.gcfg s) = 1000 /\ V6.bv (V6.gcfg s) = 5 /\ V6.dig (V6.gcfg s) = 5%nat).
Proof.
  repeat split.
  - unfold V5.gcfg. destruct (V5.SYM_CFG !! upper s) as [p|]; [left; eauto|right; auto].
  - unfold V6.gcfg. destruct (V6.SYM_CFG !! upper s) as [p|]; [left; eauto|right; auto].
  - unfold V5.gcfg. now rewrite (same_modulo_case_upper s t H).
  - unfold V6.gcfg. now rewrite (same_modulo_case_upper s t H).
  - unfold V5.gcfg. now rewrite H.
  - unfold V5.gcfg. now rewrite H.
  - unfold V5.gcfg. now rewrite H.
  - unfold V6.gcfg. now rewrite H.
  - unfold V6.gcfg. now rewrite H.
  - unfold V6.gcfg. now rewrite H.
Qed.

Lemma gcfg_total_case_insensitive_witness :
  (V5.gcfg "eurUsd" = V5.gcfg "EURUSD" /\ V6.gcfg "eurUsd" = V6.gcfg "EURUSD") /\
  (V5.mult (V5.gcfg "dogecoin") = 1000 /\ V5.bv (V5.gcfg "dogecoin") = 5 /\
   V5.dig (V5.gcfg "dogecoin") = 5%nat) /\
  (V6.mult (V6.gcfg "dogecoin") = 1000 /\ V6.bv (V6.gcfg "dogecoin") = 5 /\
   V6.dig (V6.gcfg "dogecoin") = 5%nat).
Proof.
  split; [|split].
  - apply (gcfg_total_case_insensitive "eurUsd" "EURUSD").
    repeat (constructor; [vm_compute; tauto|]). constructor.
  - apply (gcfg_total_case_insensitive "dogecoin" ""). vm_compute. reflexivity.
  - apply (gcfg_total_case_insensitive "dogecoin" ""). vm_compute. reflexivity.
Defined.

(** ** The synthesizer *)

Ltac run_m :=
  cbv [bind gets random update ret raise index call try_except get modify put];
  cbn [fst snd draws pos].

Lemma side_rule_buy (bc r : Q) : 0 < bc -> side_rule bc "buy" r.
Proof. intros H. repeat split; intros; first [reflexivity|lra]. Qed.

Lemma side_rule_sell (bc r : Q) : bc < 0 -> side_rule bc "sell" r.
Proof. intros H. repeat split; intros; first [reflexivity|lra]. Qed.

Lemma side_rule_coin (bc r : Q) : bc <= 0 -> 0 <= bc -> side_rule bc (coin r) r.
Proof. intros H1 H2. repeat split; intros; first [reflexivity|lra]. Qed.

(** Splits on the two comparisons that choose the side. *)
Ltac side_split bc :=
  let E1 := fresh "E" in let E2 := fresh "E" in
  destruct (Qlt_bool 0 bc) eqn:E1;
  [apply Qlt_bool_iff in E1
  |destruct (Qlt_bool bc 0) eqn:E2;
   [apply Qlt_bool_iff in E2
   |apply Qlt_bool_false in E1; apply Qlt_bool_false in E2]];
  eexists _, _; (split; [reflexivity|]); cbn [draws pos fst snd];
  (split; [reflexivity|]); (split; [lia|]);
  (split; [first [apply side_rule_buy; assumption
                 |apply side_rule_sell; assumption
                 |apply side_rule_coin; assumption]
          |first [left; reflexivity|right; reflexivity|apply coin_side]]).

(** What v5.1's [calc] returns and stores, in terms of the draws. *)
Lemma V5_calc_spec (sym : string) (bid ask : Q) (vc : V5.VC) (g : Rng) :
  let c := V5.gcfg sym in
  let mid := (bid + ask) / 2 in
  let pc := mid - default mid (V5.lm vc !! sym) in
  let bc := bid - default bid (V5.lb vc !! sym) in
  let vol := py_max ((Qabs pc * V5.mult c + V5.bv c)
                     * ((7#10) + draws g (pos g) * (6#10))) (V5.bv c) in
  exists sd g',
    V5.calc sym bid ask (vc, g)
    = (Ret (mid, vol, pc, sd),
       (V5.mkVC (<[sym := bid]> (V5.lb vc)) (<[sym := mid]> (V5.lm vc)), g')) /\
    draws g' = draws g /\ (pos g < pos g')%nat /\
    side_rule bc sd (last_draw g') /\ (sd = "buy" \/ sd = "sell").
Proof.
  intros c mid pc bc vol.
  unfold V5.calc. destruct g as [dr p]. run_m. fold c mid pc bc vol.
  side_split bc.
Qed.

(** What v6.1's [calc] returns and stores on a symbol it has not seen. *)
Lemma V6_calc_first (symbol : string) (bid ask : Q) (vc : V6.VolumeCalculator) (g : Rng) :
  V6._initialized vc !! symbol = None ->
  let mid := (bid + ask) / 2 in
  V6.calc symbol bid ask (vc, g)
  = (Ret (mid, V6.bv (V6.gcfg symbol) * ((8#10) + draws g (pos g) * (4#10)), 0,
          coin (draws g (S (pos g)))),
     (V6.mkVC (<[symbol := bid]> (V6.last_bid vc)) (<[symbol := mid]> (V6.last_mid vc))
              (<[symbol := true]> (V6._initialized vc)),
      mkRng (draws g) (S (S (pos g))))).
Proof.
  intros H mid. unfold V6.calc. destruct g as [dr p]. run_m. rewrite H.
  run_m. reflexivity.
Qed.

(** What v6.1's [calc] returns and stores on a symbol it has seen. *)
Lemma V6_calc_next (symbol : string) (bid ask : Q) (vc : V6.VolumeCalculator) (g : Rng)
    (i : bool) (lb0 lm0 : Q) :
  V6._initialized vc !! symbol = Some i ->
  V6.last_bid vc !! symbol = Some lb0 ->
  V6.last_mid vc !! symbol = Some lm0 ->
  let c := V6.gcfg symbol in
  let mid := (bid + ask) / 2 in
  let pc := mid - lm0 in
  let vol := py_max ((Qabs pc * V6.mult c + V6.bv c)
                     * ((7#10) + draws g (pos g) * (6#10))) (V6.bv c) in
  exists sd g',
    V6.calc symbol bid ask (vc, g)
    = (Ret (mid, burst vol (draws g (S (pos g))) (draws g (S (S (pos g)))), pc, sd),
       (V6.mkVC (<[symbol := bid]> (V6.last_bid vc)) (<[symbol := mid]> (V6.last_mid vc))
                (V6._initialized vc), g')) /\
    draws g' = draws g /\ (pos g < pos g')%nat /\
    side_rule (bid - lb0) sd (last_draw g') /\ (sd = "buy" \/ sd = "sell").
Proof.
  intros Hi Hb Hm c mid pc vol.
  unfold V6.calc, burst. destruct g as [dr p]. run_m. rewrite Hi. run_m.
  rewrite Hm. cbn beta iota. cbn [fst snd]. rewrite Hb. cbn beta iota.
  cbn [fst snd draws pos]. fold c mid pc. cbn [draws pos] in vol. fold vol.
  destruct (Qlt_bool (97#100) (dr (S p))); side_split (bid - lb0).
Qed.

Lemma V5_bv_pos (s : string) : 5 <= V5.bv (V5.gcfg s).
Proof.
  unfold V5.gcfg. destruct (V5.SYM_CFG !! upper s) as [p|] eqn:E; cbn.
  - apply elem_of_list_to_map_2 in E.
    repeat (apply elem_of_cons in E as [E|E]; [inversion E; subst; cbn; lra|]).
    now apply elem_of_nil in E.
  - lra.
Qed.

Lemma V6_bv_pos (s : string) : 5 <= V6.bv (V6.gcfg s).
Proof.
  unfold V6.gcfg. destruct (V6.SYM_CFG !! upper s) as [p|] eqn:E; cbn.
  - apply elem_of_list_to_map_2 in E.
    repeat (apply elem_of_cons in E as [E|E]; [inversion E; subst; cbn; lra|]).
    now apply elem_of_nil in E.
  - lra.
Qed.

Lemma burst_ge (vol t u : Q) : 0 <= vol -> 0 <= u -> vol <= burst vol t u.
Proof.
  intros Hv Hu. unfold burst. destruct (Qlt_bool (97#100) t); [nra|lra].
Qed.

Lemma vc_consistent_init : vc_consistent V6.VC_init.
Proof. intros s [x Hx]. cbn in Hx. now rewrite lookup_empty in Hx. Qed.


Lemma vc_consistent_seed (k : string) (b m : Q) (i : gmap string bool)
    (vc : V6.VolumeCalculator) :
  vc_consistent vc ->
  (forall s, is_Some (i !! s) -> s = k \/ is_Some (V6._initialized vc !! s)) ->
  vc_consistent (V6.mkVC (<[k := b]> (V6.last_bid vc)) (<[k := m]> (V6.last_mid vc)) i).
Proof.
  intros H Hi s Hs. cbn in *. destruct (decide (k = s)) as [->|Hne].
  - rewrite !lookup_insert_eq. split; eexists; reflexivity.
  - rewrite !lookup_insert_ne by exact Hne.
    destruct (Hi s Hs) as [->|Hs']; [congruence|]. now apply H.
Qed.

(** Every call of v6.1's [calc] on a consistent synthesizer returns, and
    leaves the synthesizer consistent. *)
Lemma V6_calc_returns (symbol : string) (bid ask : Q) (vc : V6.VolumeCalculator) (g : Rng) :
  vc_consistent vc ->
  exists vol pc sd vc' g',
    V6.calc symbol bid ask (vc, g) = (Ret ((bid + ask) / 2, vol, pc, sd), (vc', g')) /\
    (sd = "buy" \/ sd = "sell") /\ vc_consistent vc'.
Proof.
  intros Hc. destruct (V6._initialized vc !! symbol) as [i|] eqn:Hi.
  - destruct (Hc symbol (ex_intro _ i Hi)) as [[lb0 Hb] [lm0 Hm]].
    destruct (V6_calc_next symbol bid ask vc g i lb0 lm0 Hi Hb Hm)
      as (sd & g' & Hrun & _ & _ & _ & Hsd).
    rewrite Hrun. eexists _, _, _, _, _. split; [reflexivity|]. split; [exact Hsd|].
    apply vc_consistent_seed; auto.
  - rewrite (V6_calc_first symbol bid ask vc g Hi).
    eexists _, _, _, _, _. split; [reflexivity|]. split; [apply coin_side|].
    apply vc_consistent_seed; auto.
    intros s Hs. destruct (decide (symbol = s)) as [->|Hne]; [now left|right].
    now rewrite lookup_insert_ne in Hs.
Qed.


(** C2. After the first observation of a symbol, the side [calc] returns
    follows the move of the bid: "buy" when [bid - last_bid > 0], "sell"
    when [bid - last_bid < 0], and only when the bid did not move the side
    is the coin flip on the next draw, "buy" exactly when that draw exceeds
    one half. It holds in both versions and for every quote, so in
    particular for [bid > 0] and [ask > 0]. *)
Theorem side_follows_bid (symbol : string) (bid ask : Q) (g : Rng) :
  (forall vc lb0,
     V5.lb vc !! symbol = Some lb0 ->
     exists mid vol pc sd st,
       V5.calc symbol bid ask (vc, g) = (Ret (mid, vol, pc, sd), st) /\
       side_rule (bid - lb0) sd (last_draw (snd st))) /\
  (forall vc i lb0 lm0,
     V6._initialized vc !! symbol = Some i ->
     V6.last_bid vc !! symbol = Some lb0 ->
     V6.last_mid vc !! symbol = Some lm0 ->
     exists mid vol pc sd st,
       V6.calc symbol bid ask (vc, g) = (Ret (mid, vol, pc, sd), st) /\
       side_rule (bid - lb0) sd (last_draw (snd st))) /\
  (forall r, (coin r = "buy" <-> 1#2 < r) /\ (coin r = "sell" <-> r <= 1#2)).
Proof.
  split; [|split].
  - intros vc lb0 Hb.
    destruct (V5_calc_spec symbol bid ask vc g) as (sd & g' & Hrun & _ & _ & Hrule & _).
    rewrite Hb in Hrule. cbn [default] in Hrule.
    eexists _, _, _, _, _. split; [exact Hrun|exact Hrule].
  - intros vc i lb0 lm0 Hi Hb Hm.
    destruct (V6_calc_next symbol bid ask vc g i lb0 lm0 Hi Hb Hm)
      as (sd & g' & Hrun & _ & _ & Hrule & _).
    eexists _, _, _, _, _. split; [exact Hrun|exact Hrule].
  - intros r. split; [apply coin_buy|apply coin_sell].
Qed.

(** C3, as amended. In v5.1 every call of [calc] returns a volume at least
    the symbol's base volume. In v6.1 every call on a symbol already
    observed does; the first observation of a symbol returns instead the
    base volume times a factor in [0.8, 1.2). *)
Theorem volume_floor_after_warmup (symbol : string) (bid ask : Q) (g : Rng) :
  unit_draws g ->
  (forall vc,
     exists mid vol pc sd st,
       V5.calc symbol bid ask (vc, g) = (Ret (mid, vol, pc, sd), st) /\
       V5.bv (V5.gcfg symbol) <= vol) /\
  (forall vc i,
     vc_consistent vc ->
     V6._initialized vc !! symbol = Some i ->
     exists mid vol pc sd st,
       V6.calc symbol bid ask (vc, g) = (Ret (mid, vol, pc, sd), st) /\
       V6.bv (V6.gcfg symbol) <= vol) /\
  (forall vc,
     V6._initialized vc !! symbol = None ->
     exists mid vol pc sd st,
       V6.calc symbol bid ask (vc, g) = (Ret (mid, vol, pc, sd), st) /\
       (8#10) * V6.bv (V6.gcfg symbol) <= vol < (12#10) * V6.bv (V6.gcfg symbol)).
Proof.
  intros Hg. split; [|split].
  - intros vc.
    destruct (V5_calc_spec symbol bid ask vc g) as (sd & g' & Hrun & _).
    eexists _, _, _, _, _. split; [exact Hrun|apply py_max_ge_r].
  - intros vc i Hc Hi.
    destruct (Hc symbol (ex_intro _ i Hi)) as [[lb0 Hb] [lm0 Hm]].
    destruct (V6_calc_next symbol bid ask vc g i lb0 lm0 Hi Hb Hm) as (sd & g' & Hrun & _).
    eexists _, _, _, _, _. split; [exact Hrun|].
    pose proof (V6_bv_pos symbol) as Hbv.
    match goal with |- _ <= burst ?v _ _ =>
      pose proof (py_max_ge_r
        ((Qabs ((bid + ask) / 2 - lm0) * V6.mult (V6.gcfg symbol) + V6.bv (V6.gcfg symbol))
         * ((7#10) + draws g (pos g) * (6#10))) (V6.bv (V6.gcfg symbol))) as Hmax;
      pose proof (burst_ge v (draws g (S (pos g))) (draws g (S (S (pos g))))) as Hb2
    end.
    destruct (Hg (S (S (pos g)))) as [Hu _].
    cbv zeta in Hb2. lra.
  - intros vc Hi. rewrite (V6_calc_first symbol bid ask vc g Hi).
    eexists _, _, _, _, _. split; [reflexivity|].
    pose proof (V6_bv_pos symbol) as Hbv. destruct (Hg (pos g)) as [H0 H1].
    split; nra.
Qed.

Lemma volume_floor_after_warmup_witness :
  exists mid vol pc sd st,
    V6.calc "EURUSD" (10855#10000) (10857#10000)
      (V6.mkVC {["EURUSD" := 10850#10000]} {["EURUSD" := 10851#10000]}
               {["EURUSD" := true]},
       mkRng (fun _ => 1#2) 0)
    = (Ret (mid, vol, pc, sd), st) /\
    V6.bv (V6.gcfg "EURUSD") <= vol.
Proof.
  refine (proj1 (proj2 (volume_floor_after_warmup "EURUSD" (10855#10000) (10857#10000)
            (mkRng (fun _ => 1#2) 0) _)) _ true _ _).
  - intros n. cbn. lra.
  - intros s. destruct (decide (s = "EURUSD")) as [->|Hne]; cbn.
    + intros _. split; eexists; apply lookup_singleton_eq.
    + rewrite lookup_singleton_ne by congruence. intros [x Hx]. discriminate.
  - apply lookup_singleton_eq.
Defined.

(** C3, as stated, fails on v6.1: the first observation of EURUSD with a
    jitter draw of 0 returns volume 4, below the base volume 5. *)
Lemma volume_floor_first_call_counterexample :
  exists mid vol pc sd st,
    V6.calc "EURUSD" (10850#10000) (10852#10000)
      (V6.VC_init, rng_of_list [0] (1#2))
    = (Ret (mid, vol, pc, sd), st) /\
    vol == 4 /\ vol < V6.bv (V6.gcfg "EURUSD").
Proof.
  rewrite V6_calc_first by apply lookup_empty.
  eexists _, _, _, _, _. split; [reflexivity|]. split; vm_compute; reflexivity.
Qed.

Lemma side_follows_bid_witness :
  exists mid vol pc sd st,
    V5.calc "EURUSD" (10855#10000) (10857#10000)
      (V5.mkVC {["EURUSD" := 10850#10000]} {["EURUSD" := 10851#10000]},
       mkRng (fun _ => 1#2) 0)
    = (Ret (mid, vol, pc, sd), st) /\
    side_rule ((10855#10000) - (10850#10000)) sd (last_draw (snd st)).
Proof.
  apply (proj1 (side_follows_bid "EURUSD" (10855#10000) (10857#10000)
                  (mkRng (fun _ => 1#2) 0))).
  vm_compute. reflexivity.
Defined.

Lemma Qlt_bool_diag_r (x : Q) : Qlt_bool 0 (x - x) = false.
Proof. apply Qlt_bool_false. lra. Qed.

Lemma Qlt_bool_diag_l (x : Q) : Qlt_bool (x - x) 0 = false.
Proof. apply Qlt_bool_false. lra. Qed.

Lemma py_max_wd (a a' b : Q) : a == a' -> py_max a b == py_max a' b.
Proof.
  intros H. unfold py_max.
  destruct (Qlt_bool a b) eqn:E1, (Qlt_bool a' b) eqn:E2;
    try apply Qlt_bool_iff in E1; try apply Qlt_bool_iff in E2;
    try apply Qlt_bool_false in E1; try apply Qlt_bool_false in E2; lra.
Qed.

Lemma Qabs_diag (x : Q) : Qabs (x - x) == 0.
Proof.
  assert (H : x - x == 0) by ring. rewrite H. reflexivity.
Qed.

(** C4, as amended. With no stored state for the symbol (its first call,
    or the first call after [reset(symbol)]), [calc] seeds the state with
    [(bid, (bid+ask)/2)], returns a price change of 0 and a side chosen by
    the coin flip on the second draw. The volume is the base volume times
    [0.8 + 0.4 r] in v6.1, and [max(base_volume * (0.7 + 0.6 r), base_volume)]
    in v5.1, for [r] the first draw. *)
Theorem first_observation (symbol : string) (bid ask : Q) (g : Rng) :
  let mid := (bid + ask) / 2 in
  let r0 := draws g (pos g) in
  let r1 := draws g (S (pos g)) in
  let g2 := mkRng (draws g) (S (S (pos g))) in
  (forall vc,
     V6._initialized vc !! symbol = None ->
     V6.calc symbol bid ask (vc, g)
     = (Ret (mid, V6.bv (V6.gcfg symbol) * ((8#10) + r0 * (4#10)), 0, coin r1),
        (V6.mkVC (<[symbol := bid]> (V6.last_bid vc)) (<[symbol := mid]> (V6.last_mid vc))
                 (<[symbol := true]> (V6._initialized vc)), g2))) /\
  (forall vc, V6._initialized (V6.reset (Some symbol) vc) !! symbol = None) /\
  (0 <= r0 < 1 -> 8#10 <= (8#10) + r0 * (4#10) < 12#10) /\
  (forall vc,
     V5.lb vc !! symbol = None -> V5.lm vc !! symbol = None ->
     exists vol pc,
       V5.calc symbol bid ask (vc, g)
       = (Ret (mid, vol, pc, coin r1),
          (V5.mkVC (<[symbol := bid]> (V5.lb vc)) (<[symbol := mid]> (V5.lm vc)), g2)) /\
       pc == 0 /\
       vol == py_max (V5.bv (V5.gcfg symbol) * ((7#10) + r0 * (6#10)))
                     (V5.bv (V5.gcfg symbol))) /\
  (forall vc, V5.lb (V5.reset (Some symbol) vc) !! symbol = None /\
              V5.lm (V5.reset (Some symbol) vc) !! symbol = None).
Proof.
  intros mid r0 r1 g2. split; [|split; [|split; [|split]]].
  - intros vc Hi. apply (V6_calc_first symbol bid ask vc g Hi).
  - intros vc. unfold V6.reset. destruct symbol; cbn.
    + apply lookup_empty.
    + apply lookup_delete_eq.
  - intros [H0 H1]. split; lra.
  - intros vc Hb Hm. unfold V5.calc. destruct g as [dr p]. run_m.
    rewrite Hb, Hm. cbn [default].
    rewrite Qlt_bool_diag_r, Qlt_bool_diag_l. cbn [fst snd draws pos].
    eexists _, _. split; [reflexivity|]. split.
    + apply Qplus_opp_r.
    + apply py_max_wd. rewrite Qabs_diag. subst r0. cbn [draws pos]. ring.
  - intros vc. unfold V5.reset. destruct symbol; cbn.
    + split; apply lookup_empty.
    + split; apply lookup_delete_eq.
Qed.

Lemma first_observation_witness :
  exists vol pc st,
    V5.calc "XAUUSD" 2900 2901 (V5.VC_init, rng_of_list [1#4; 3#4] 0)
    = (Ret ((2900 + 2901) / 2, vol, pc, "buy"), st) /\
    pc == 0 /\ vol == 10.
Proof.
  destruct (proj1 (proj2 (proj2 (proj2
              (first_observation "XAUUSD" 2900 2901 (rng_of_list [1#4; 3#4] 0)))))
              V5.VC_init) as (vol & pc & Hrun & Hpc & Hvol).
  - reflexivity.
  - reflexivity.
  - exists vol, pc. eexists. split; [exact Hrun|]. split; [exact Hpc|].
    rewrite Hvol. vm_compute. reflexivity.
Defined.

(** C4, as stated, fails on v5.1: the first observation of EURUSD with a
    jitter draw of 9/10 returns volume 6.2, which is not the base volume 5
    times a factor between 0.8 and 1.2. *)
Lemma first_observation_volume_counterexample :
  exists mid vol pc sd st,
    V5.calc "EURUSD" (10850#10000) (10852#10000)
      (V5.VC_init, rng_of_list [9#10] (1#2))
    = (Ret (mid, vol, pc, sd), st) /\
    ~ (exists u, 8#10 <= u <= 12#10 /\ vol == V5.bv (V5.gcfg "EURUSD") * u).
Proof.
  destruct (V5_calc_spec "EURUSD" (10850#10000) (10852#10000) V5.VC_init
              (rng_of_list [9#10] (1#2))) as (sd & g' & Hrun & _).
  eexists _, _, _, _, _. split; [exact Hrun|].
  intros (u & [Hlo Hhi] & Hu).
  assert (Hv : (62#10) == V5.bv (V5.gcfg "EURUSD") * u).
  { rewrite <- Hu. vm_compute. reflexivity. }
  change (V5.bv (V5.gcfg "EURUSD")) with 5 in Hv. lra.
Qed.

(** ** The subscriber registry *)

Lemma contains_In (ws : handle) (l : list handle) : contains ws l = true <-> In ws l.
Proof.
  unfold contains. rewrite existsb_exists. split.
  - intros (x & Hx & E). apply Nat.eqb_eq in E. now subst.
  - intros H. exists ws. split; [exact H|apply Nat.eqb_refl].
Qed.

Lemma remove_first_notin (ws : handle) (l : list handle) :
  ~ In ws l -> remove_first ws l = l.
Proof.
  induction l as [|x l IH]; cbn; [reflexivity|]. intros H.
  destruct (Nat.eqb x ws) eqn:E.
  - apply Nat.eqb_eq in E. subst. exfalso. apply H. now left.
  - f_equal. apply IH. intros Hin. apply H. now right.
Qed.

Lemma remove_first_app (ws : handle) (pre l : list handle) :
  ~ In ws pre -> remove_first ws (pre ++ ws :: l) = pre ++ l.
Proof.
  induction pre as [|x pre IH]; cbn; intros H.
  - now rewrite Nat.eqb_refl.
  - destruct (Nat.eqb x ws) eqn:E.
    + apply Nat.eqb_eq in E. subst. exfalso. apply H. now left.
    + f_equal. apply IH. intros Hin. apply H. now right.
Qed.

Lemma drop_notin (ws : handle) (l : list handle) : ~ In ws l -> drop l ws = l.
Proof.
  intros H. unfold drop. destruct (contains ws l) eqn:E; [|reflexivity].
  apply contains_In in E. contradiction.
Qed.

(** Removing, one entry per failed delivery, the failed connections of a
    list leaves the connections that were delivered to. *)
Lemma drop_failed (ok : handle -> bool) (l pre : list handle) :
  Forall (fun h => ok h = true) pre ->
  fold_left drop (List.filter (fun h => negb (ok h)) l) (pre ++ l)
  = pre ++ List.filter ok l.
Proof.
  revert pre. induction l as [|a l IH]; intros pre Hpre; cbn.
  - reflexivity.
  - destruct (ok a) eqn:Ea; cbn.
    + change (pre ++ a :: l) with (pre ++ [a] ++ l). rewrite app_assoc.
      rewrite IH.
      * now rewrite <- app_assoc.
      * apply Forall_app. split; [exact Hpre|]. now repeat constructor.
    + assert (Hnot : ~ In a pre).
      { intros Hin. rewrite Forall_forall in Hpre.
        apply list_elem_of_In in Hin. specialize (Hpre a Hin). congruence. }
      unfold drop at 2. 
      assert (Hc : contains a (pre ++ a :: l) = true).
      { apply contains_In. apply in_or_app. right. now left. }
      rewrite Hc, remove_first_app by exact Hnot. now apply IH.
Qed.

Lemma length_filter_split (ok : handle -> bool) (l : list handle) :
  length (List.filter ok l)
  = (length l - length (List.filter (fun h => negb (ok h)) l))%nat.
Proof.
  induction l as [|a l IH]; cbn; [reflexivity|].
  assert (H := List.filter_length_le (fun h => negb (ok h)) l).
  destruct (ok a); cbn; lia.
Qed.

Lemma V5_bcast_send_spec (send : handle -> Msg -> res unit) (msg : Msg)
    (l bad : list handle) (w : V5.World) :
  V5.bcast_send send msg l bad w
  = (Ret (bad ++ List.filter (fails send msg) l),
     V5.mkWorld (V5.wm w)
       (V5.sent w ++ map (fun h => (h, msg)) (List.filter (delivers send msg) l))).
Proof.
  revert bad w. induction l as [|c l IH]; intros bad w; cbn [V5.bcast_send].
  - cbn. rewrite !app_nil_r. now destruct w.
  - unfold bind at 1, try_except, bind, V5.send_json, ret.
    unfold fails, delivers. cbn [List.filter map].
    destruct (send c msg) as [u|e]; cbn [negb].
    + rewrite IH. cbn. now rewrite <- app_assoc.
    + rewrite IH. cbn. now rewrite <- app_assoc.
Qed.

Lemma V5_fold_disc (bad : list handle) (w : V5.World) :
  fold_left (fun w c => V5.disc c w) bad w
  = V5.set_conns (fold_left drop bad (V5.conns (V5.wm w))) w.
Proof.
  revert w. induction bad as [|c bad IH]; intros w; cbn [fold_left].
  - now destruct w as [[] ?].
  - rewrite IH. unfold V5.disc, drop.
    destruct (contains c (V5.conns (V5.wm w))); now destruct w as [[] ?].
Qed.

Lemma V5_bcast_spec (send : handle -> Msg -> res unit) (msg : Msg) (w : V5.World) :
  V5.bcast send msg w
  = (Ret tt,
     V5.set_conns (List.filter (delivers send msg) (V5.conns (V5.wm w)))
       (V5.mkWorld (V5.wm w)
          (V5.sent w ++ map (fun h => (h, msg))
                           (List.filter (delivers send msg) (V5.conns (V5.wm w)))))).
Proof.
  unfold V5.bcast, bind, get, modify. rewrite V5_bcast_send_spec.
  rewrite V5_fold_disc. cbn [V5.wm app]. f_equal. f_equal.
  apply (drop_failed (delivers send msg) (V5.conns (V5.wm w)) []). constructor.
Qed.

Lemma V6_bcast_send_spec (send : handle -> Msg -> res unit) (msg : Msg)
    (l bad : list handle) (w : V6.World) :
  V6.broadcast_send send msg l bad w
  = (Ret (bad ++ List.filter (fails send msg) l),
     V6.mkWorld (V6.wm w)
       (V6.sent w ++ map (fun h => (h, msg)) (List.filter (delivers send msg) l))).
Proof.
  revert bad w. induction l as [|c l IH]; intros bad w; cbn [V6.broadcast_send].
  - cbn. rewrite !app_nil_r. now destruct w.
  - unfold bind at 1, try_except, bind, V6.send_json, ret.
    unfold fails, delivers. cbn [List.filter map].
    destruct (send c msg) as [u|e]; cbn [negb].
    + rewrite IH. cbn. now rewrite <- app_assoc.
    + rewrite IH. cbn. now rewrite <- app_assoc.
Qed.

Lemma V6_fold_disc (bad : list handle) (w : V6.World) :
  fold_left (fun w c => V6.disconnect c w) bad w
  = V6.set_connections (fold_left drop bad (V6.connections (V6.wm w))) w.
Proof.
  revert w. induction bad as [|c bad IH]; intros w; cbn [fold_left].
  - now destruct w as [[] ?].
  - rewrite IH. unfold V6.disconnect, drop.
    destruct (contains c (V6.connections (V6.wm w))); now destruct w as [[] ?].
Qed.

Lemma V6_bcast_spec (send : handle -> Msg -> res unit) (msg : Msg) (w : V6.World) :
  V6.broadcast send msg w
  = (Ret tt,
     V6.set_connections (List.filter (delivers send msg) (V6.connections (V6.wm w)))
       (V6.mkWorld (V6.wm w)
          (V6.sent w ++ map (fun h => (h, msg))
                           (List.filter (delivers send msg) (V6.connections (V6.wm w)))))).
Proof.
  unfold V6.broadcast, bind, get, modify. rewrite V6_bcast_send_spec.
  rewrite V6_fold_disc. cbn [V6.wm app]. f_equal. f_equal.
  apply (drop_failed (delivers send msg) (V6.connections (V6.wm w)) []). constructor.
Qed.

(** C5. A broadcast over the [N] registered connections, [K] of which fail
    delivery, returns without an exception; the message has been delivered,
    in order, to the [N - K] connections that do not fail; exactly those
    remain registered, so every failing connection is gone and [N - K] are
    left; nothing else of the manager changes. It holds in both versions. *)
Theorem broadcast_self_healing (send : handle -> Msg -> res unit) (msg : Msg) :
  (forall w : V5.World,
     let N := length (V5.conns (V5.wm w)) in
     let K := length (List.filter (fails send msg) (V5.conns (V5.wm w))) in
     exists w',
       V5.bcast send msg w = (Ret tt, w') /\
       V5.sent w' = V5.sent w ++ map (fun h => (h, msg))
                      (List.filter (delivers send msg) (V5.conns (V5.wm w))) /\
       V5.conns (V5.wm w') = List.filter (delivers send msg) (V5.conns (V5.wm w)) /\
       (forall h, In h (V5.conns (V5.wm w')) <->
                  In h (V5.conns (V5.wm w)) /\ fails send msg h = false) /\
       length (V5.conns (V5.wm w')) = (N - K)%nat /\
       V5.vc (V5.wm w') = V5.vc (V5.wm w) /\ V5.mode (V5.wm w') = V5.mode (V5.wm w) /\
       V5.sym (V5.wm w') = V5.sym (V5.wm w) /\ V5.mt5 (V5.wm w') = V5.mt5 (V5.wm w)) /\
  (forall w : V6.World,
     let N := length (V6.connections (V6.wm w)) in
     let K := length (List.filter (fails send msg) (V6.connections (V6.wm w))) in
     exists w',
       V6.broadcast send msg w = (Ret tt, w') /\
       V6.sent w' = V6.sent w ++ map (fun h => (h, msg))
                      (List.filter (delivers send msg) (V6.connections (V6.wm w))) /\
       V6.connections (V6.wm w')
       = List.filter (delivers send msg) (V6.connections (V6.wm w)) /\
       (forall h, In h (V6.connections (V6.wm w')) <->
                  In h (V6.connections (V6.wm w)) /\ fails send msg h = false) /\
       length (V6.connections (V6.wm w')) = (N - K)%nat /\
       V6.vc (V6.wm w') = V6.vc (V6.wm w) /\ V6.mode (V6.wm w') = V6.mode (V6.wm w) /\
       V6.symbol (V6.wm w') = V6.symbol (V6.wm w) /\ V6.mt5 (V6.wm w') = V6.mt5 (V6.wm w)).
Proof.
  split; intros w N K; eexists; (split; [first [apply V5_bcast_spec|apply V6_bcast_spec]|]);
    cbn; repeat split; try tauto;
    try apply length_filter_split;
    try (now apply List.filter_In in H);
    try (apply List.filter_In in H as [_ H]; unfold fails; now rewrite H);
    try (intros [H1 H2]; apply List.filter_In; split; [exact H1|];
         unfold fails in H2; now apply Bool.negb_false_iff in H2).
Qed.

Lemma remove_first_In (ws x : handle) (l : list handle) :
  In x (remove_first ws l) -> In x l.
Proof.
  induction l as [|y l IH]; cbn; [tauto|].
  destruct (Nat.eqb y ws); cbn; tauto.
Qed.

Lemma remove_first_NoDup (ws : handle) (l : list handle) :
  List.NoDup l -> ~ In ws (remove_first ws l).
Proof.
  induction 1 as [|y l Hy Hl IH]; cbn; [tauto|].
  destruct (Nat.eqb y ws) eqn:E.
  - apply Nat.eqb_eq in E. now subst.
  - apply Nat.eqb_neq in E. cbn. tauto.
Qed.

Lemma remove_first_length (ws : handle) (l : list handle) :
  In ws l -> length (remove_first ws l) = (length l - 1)%nat.
Proof.
  induction l as [|y l IH]; cbn; [tauto|]. intros H.
  destruct (Nat.eqb y ws) eqn:E; [lia|].
  apply Nat.eqb_neq in E. destruct H as [H|H]; [contradiction|].
  cbn. rewrite IH by exact H. destruct l; [destruct H|cbn; lia].
Qed.

Lemma drop_properties (ws : handle) (l : list handle) :
  (~ In ws l -> drop l ws = l) /\
  (In ws l -> length (drop l ws) = (length l - 1)%nat) /\
  (List.NoDup l -> ~ In ws (drop l ws) /\ drop (drop l ws) ws = drop l ws).
Proof.
  split; [apply drop_notin|split].
  - intros H. unfold drop. apply contains_In in H as Hc. rewrite Hc.
    now apply remove_first_length.
  - intros Hnd. assert (Hout : ~ In ws (drop l ws)).
    { unfold drop. destruct (contains ws l) eqn:E.
      - now apply remove_first_NoDup.
      - intros Hin. apply contains_In in Hin. congruence. }
    split; [exact Hout|now apply drop_notin].
Qed.

Lemma remove_first_keeps_NoDup (ws : handle) (l : list handle) :
  List.NoDup l -> List.NoDup (remove_first ws l).
Proof.
  induction 1 as [|y l Hy Hl IH]; cbn; [constructor|].
  destruct (Nat.eqb y ws); [exact Hl|].
  constructor; [|exact IH]. intros Hin. apply Hy. now apply remove_first_In in Hin.
Qed.

Lemma drop_keeps (ws : handle) (l : list handle) :
  List.NoDup l -> List.NoDup (drop l ws) /\ forall x, In x (drop l ws) -> In x l.
Proof.
  intros H. unfold drop. destruct (contains ws l); [|tauto].
  split; [now apply remove_first_keeps_NoDup|]. intros x. apply remove_first_In.
Qed.

Lemma V5_disc_drop (ws : handle) (w : V5.World) :
  V5.disc ws w = V5.set_conns (drop (V5.conns (V5.wm w)) ws) w.
Proof.
  unfold V5.disc, drop.
  destruct (contains ws (V5.conns (V5.wm w))); now destruct w as [[] ?].
Qed.

Lemma V6_disconnect_drop (ws : handle) (w : V6.World) :
  V6.disconnect ws w = V6.set_connections (drop (V6.connections (V6.wm w)) ws) w.
Proof.
  unfold V6.disconnect, drop.
  destruct (contains ws (V6.connections (V6.wm w))); now destruct w as [[] ?].
Qed.

(** What [conn] does over the transport: a socket accepted before is
    refused and the registry untouched. *)
Lemma V5_conn_accept_on (handshake : handle -> res unit) (acc : list handle)
    (ws : handle) (w : V5.World) :
  V5.conn (accept_on handshake acc) ws w
  = if contains ws acc then (Raise RuntimeError, w)
    else match handshake ws with
         | Ret _ => (Ret tt, V5.set_conns (V5.conns (V5.wm w) ++ [ws]) w)
         | Raise e => (Raise e, w)
         end.
Proof.
  unfold V5.conn, accept_on, bind, call, modify.
  destruct (contains ws acc); [reflexivity|]. now destruct (handshake ws) as [[]|e].
Qed.

Lemma V6_connect_accept_on (handshake : handle -> res unit) (send : handle -> Msg -> res unit)
    (available : bool) (acc : list handle) (ws : handle) (w : V6.World) :
  exists r w',
    V6.connect (accept_on handshake acc) send available ws w = (r, w') /\
    V6.connections (V6.wm w')
    = (if contains ws acc then V6.connections (V6.wm w)
       else match handshake ws with
            | Ret _ => V6.connections (V6.wm w) ++ [ws]
            | Raise _ => V6.connections (V6.wm w)
            end) /\
    (contains ws acc = true -> r = Raise RuntimeError /\ w' = w).
Proof.
  unfold V6.connect, accept_on, bind, call, modify, get, V6.send_json.
  destruct (contains ws acc); [eexists _, _; repeat split; reflexivity|].
  destruct (handshake ws) as [[]|e]; cbn [fst snd].
  - match goal with |- context [send ws ?msg] => destruct (send ws msg) as [[]|e] end;
      eexists _, _; (split; [reflexivity|]); (split; [reflexivity|discriminate]).
  - eexists _, _. split; [reflexivity|]. split; [reflexivity|discriminate].
Qed.

Lemma NoDup_snoc (l : list handle) (x : handle) :
  List.NoDup l -> ~ In x l -> List.NoDup (l ++ [x]).
Proof.
  induction 1 as [|y l Hy Hl IH]; cbn; intros Hx.
  - constructor; [intros []|constructor].
  - constructor; [|apply IH; tauto].
    intros Hin. apply in_app_or in Hin as [Hin|[<-|[]]]; tauto.
Qed.

(** Over the transport no handle is ever registered twice, and every
    registered handle has been accepted. *)
Lemma hub_reachable5_inv (acc : list handle) (w : V5.World) :
  hub_reachable5 acc w ->
  List.NoDup (V5.conns (V5.wm w)) /\ forall x, In x (V5.conns (V5.wm w)) -> In x acc.
Proof.
  induction 1 as [|handshake acc w ws r w' _ [IH1 IH2] Hrun|acc w ws _ [IH1 IH2]
                 |send msg acc w r w' _ [IH1 IH2] Hrun|acc w w' _ [IH1 IH2] Hk].
  - split; [constructor|intros x []].
  - rewrite V5_conn_accept_on in Hrun. unfold accepted_after.
    destruct (contains ws acc) eqn:E; [inversion Hrun; subst; tauto|].
    assert (Hout : ~ In ws acc) by (intros Hin; apply contains_In in Hin; congruence).
    destruct (handshake ws) as [[]|e]; inversion Hrun; subst; [|tauto].
    cbn. split.
    + apply NoDup_snoc; [exact IH1|]. intros Hin. now apply Hout, IH2.
    + intros x Hin. apply in_app_or in Hin as [Hin|[<-|[]]]; [right; now apply IH2|now left].
  - rewrite V5_disc_drop. cbn. destruct (drop_keeps ws _ IH1) as [H1 H2].
    split; [exact H1|]. intros x Hx. now apply IH2, H2.
  - rewrite V5_bcast_spec in Hrun. inversion Hrun; subst. cbn. split.
    + now apply List.NoDup_filter.
    + intros x Hx. apply List.filter_In in Hx. now apply IH2.
  - rewrite Hk. tauto.
Qed.

Lemma hub_reachable6_inv (acc : list handle) (w : V6.World) :
  hub_reachable6 acc w ->
  List.NoDup (V6.connections (V6.wm w)) /\
  forall x, In x (V6.connections (V6.wm w)) -> In x acc.
Proof.
  induction 1 as [|handshake send available acc w ws r w' _ [IH1 IH2] Hrun
                 |acc w ws _ [IH1 IH2]
                 |send msg acc w r w' _ [IH1 IH2] Hrun|acc w w' _ [IH1 IH2] Hk].
  - split; [constructor|intros x []].
  - destruct (V6_connect_accept_on handshake send available acc ws w)
      as (r0 & w0 & Hrun0 & Hc & _).
    rewrite Hrun in Hrun0. inversion Hrun0; subst r0 w0. rewrite Hc.
    unfold accepted_after.
    destruct (contains ws acc) eqn:E; [tauto|].
    assert (Hout : ~ In ws acc) by (intros Hin; apply contains_In in Hin; congruence).
    destruct (handshake ws) as [[]|e]; [|tauto].
    split.
    + apply NoDup_snoc; [exact IH1|]. intros Hin. now apply Hout, IH2.
    + intros x Hin. apply in_app_or in Hin as [Hin|[<-|[]]]; [right; now apply IH2|now left].
  - rewrite V6_disconnect_drop. cbn. destruct (drop_keeps ws _ IH1) as [H1 H2].
    split; [exact H1|]. intros x Hx. now apply IH2, H2.
  - rewrite V6_bcast_spec in Hrun. inversion Hrun; subst. cbn. split.
    + now apply List.NoDup_filter.
    + intros x Hx. apply List.filter_In in Hx. now apply IH2.
  - rewrite Hk. tauto.
Qed.

(** C8. The registry itself has no membership test: [conn] / [connect]
    append the handle whenever [accept] succeeds and leave the list alone
    when it raises. Over the transport, which accepts a socket at most once,
    every registry the code reaches lists no handle twice, and subscribing a
    handle that is registered already is refused by the transport and
    leaves the registry exactly as it was. Unsubscribing a handle that is not
    registered changes nothing and does not fail; unsubscribing a registered
    handle takes it out, a second unsubscribe changing nothing. It holds in
    both versions. *)
Theorem registry_operations (ws : handle) :
  (forall accept (w : V5.World),
     accept ws = Ret tt ->
     V5.conn accept ws w = (Ret tt, V5.set_conns (V5.conns (V5.wm w) ++ [ws]) w)) /\
  (forall accept e (w : V5.World),
     accept ws = Raise e -> V5.conn accept ws w = (Raise e, w)) /\
  (forall accept send available e (w : V6.World),
     accept ws = Raise e -> V6.connect accept send available ws w = (Raise e, w)) /\
  (forall accept send available (w : V6.World),
     accept ws = Ret tt ->
     (forall msg, send ws msg = Ret tt) ->
     exists w',
       V6.connect accept send available ws w = (Ret tt, w') /\
       V6.connections (V6.wm w') = V6.connections (V6.wm w) ++ [ws]) /\
  (forall acc (w : V5.World),
     hub_reachable5 acc w ->
     List.NoDup (V5.conns (V5.wm w)) /\
     (In ws (V5.conns (V5.wm w)) ->
      forall handshake, V5.conn (accept_on handshake acc) ws w = (Raise RuntimeError, w)) /\
     (~ In ws (V5.conns (V5.wm w)) -> V5.disc ws w = w) /\
     (In ws (V5.conns (V5.wm w)) ->
      length (V5.conns (V5.wm (V5.disc ws w))) = (length (V5.conns (V5.wm w)) - 1)%nat) /\
     ~ In ws (V5.conns (V5.wm (V5.disc ws w))) /\
     V5.disc ws (V5.disc ws w) = V5.disc ws w) /\
  (forall acc (w : V6.World),
     hub_reachable6 acc w ->
     List.NoDup (V6.connections (V6.wm w)) /\
     (In ws (V6.connections (V6.wm w)) ->
      forall handshake send available,
        V6.connect (accept_on handshake acc) send available ws w = (Raise RuntimeError, w)) /\
     (~ In ws (V6.connections (V6.wm w)) -> V6.disconnect ws w = w) /\
     (In ws (V6.connections (V6.wm w)) ->
      length (V6.connections (V6.wm (V6.disconnect ws w)))
      = (length (V6.connections (V6.wm w)) - 1)%nat) /\
     ~ In ws (V6.connections (V6.wm (V6.disconnect ws w))) /\
     V6.disconnect ws (V6.disconnect ws w) = V6.disconnect ws w).
Proof.
  split; [|split; [|split; [|split; [|split]]]].
  - intros accept w Ha. unfold V5.conn, bind, call, modify. now rewrite Ha.
  - intros accept e w Ha. unfold V5.conn, bind, call. now rewrite Ha.
  - intros accept send available e w Ha. unfold V6.connect, bind, call. now rewrite Ha.
  - intros accept send available w Ha Hs.
    unfold V6.connect, bind, call, modify, get, V6.send_json. rewrite Ha, Hs.
    eexists. split; reflexivity.
  - intros acc w Hr. destruct (hub_reachable5_inv acc w Hr) as [Hnd Hsub].
    destruct (drop_properties ws (V5.conns (V5.wm w))) as (H1 & H2 & H3).
    destruct (H3 Hnd) as [H4 H5].
    split; [exact Hnd|split; [|split; [|split; [|split]]]].
    + intros Hin handshake. rewrite V5_conn_accept_on.
      apply Hsub, contains_In in Hin. now rewrite Hin.
    + intros H. rewrite V5_disc_drop, H1 by exact H. now destruct w as [[] ?].
    + intros H. rewrite V5_disc_drop. cbn. now apply H2.
    + rewrite V5_disc_drop. exact H4.
    + rewrite !V5_disc_drop. cbn. now rewrite H5.
  - intros acc w Hr. destruct (hub_reachable6_inv acc w Hr) as [Hnd Hsub].
    destruct (drop_properties ws (V6.connections (V6.wm w))) as (H1 & H2 & H3).
    destruct (H3 Hnd) as [H4 H5].
    split; [exact Hnd|split; [|split; [|split; [|split]]]].
    + intros Hin handshake send available.
      destruct (V6_connect_accept_on handshake send available acc ws w)
        as (r & w' & Hrun & _ & Hraise).
      apply Hsub, contains_In in Hin. destruct (Hraise Hin) as [-> ->]. exact Hrun.
    + intros H. rewrite V6_disconnect_drop, H1 by exact H. now destruct w as [[] ?].
    + intros H. rewrite V6_disconnect_drop. cbn. now apply H2.
    + rewrite V6_disconnect_drop. exact H4.
    + rewrite !V6_disconnect_drop. cbn. now rewrite H5.
Qed.

(** Socket 7 subscribes, the transport accepting it; subscribing it again
    is refused and the registry keeps its single entry. *)
Lemma registry_operations_witness :
  V5.conn (accept_on (fun _ => Ret tt) [7%nat]) 7%nat
    (V5.set_conns [7%nat] (V5.mkWorld V5.WM_new []))
  = (Raise RuntimeError, V5.set_conns [7%nat] (V5.mkWorld V5.WM_new [])).
Proof.
  refine (proj1 (proj2 (proj1 (proj2 (proj2 (proj2 (proj2 (registry_operations 7%nat)))))
                          [7%nat] (V5.set_conns [7%nat] (V5.mkWorld V5.WM_new [])) _))
            _ (fun _ => Ret tt)).
  - exact (hr5_conn (fun _ => Ret tt) [] (V5.mkWorld V5.WM_new []) 7%nat
             (Ret tt) (V5.set_conns [7%nat] (V5.mkWorld V5.WM_new []))
             hr5_new eq_refl).
  - now left.
Defined.

(** ** The stream mode *)

Lemma V5_init_spec (env : V5.InitEnv) (c : V5.MT5C) :
  exists c', V5.init env c = (Ret (connects5 env), c').
Proof.
  unfold V5.init, connects5.
  destruct (V5.MT5_AVAILABLE env); cbn [negb andb]; [|eexists; reflexivity].
  unfold try_except, bind, call, modify, ret.
  destruct (V5.initialize env) as [[|]|e]; cbn [negb];
    try (eexists; reflexivity).
  destruct (V5.account_info env) as [a|e]; eexists; reflexivity.
Qed.

Lemma V6_init_spec (env : V6.InitEnv) (c : V6.MT5Connector) :
  exists c', V6.init env c = (Ret (connects6 env), c').
Proof.
  unfold V6.init, connects6.
  destruct (V6.MT5_AVAILABLE env); cbn [negb andb]; [|eexists; reflexivity].
  unfold try_except, bind, call, modify, ret.
  destruct (V6.initialize_with env) as [[|]|e]; cbn [negb];
    try (eexists; reflexivity).
  - destruct (V6.account_info env) as [a|e]; [eexists; reflexivity|].
    destruct (V6.initialize_bare env) as [[|]|?]; eexists; reflexivity.
  - destruct (V6.initialize_bare env) as [[|]|e]; cbn [negb];
      try (eexists; reflexivity).
    destruct (V6.account_info env) as [a|e]; eexists; reflexivity.
Qed.

Lemma V5_start_spec (env : V5.InitEnv) (s : string) (m : V5.WM) :
  exists m',
    V5.start_mt5 env s m = (Ret (connects5 env), m') /\
    V5.mode m' = (if connects5 env then "mt5" else "simulation") /\
    V5.sym m' = upper s.
Proof.
  unfold V5.start_mt5.
  destruct (V5_init_spec env (V5.mkMT5C false V5.VC_init true 0)) as [c' ->].
  destruct (connects5 env); eexists; repeat split.
Qed.

Lemma V6_start_spec (env : V6.InitEnv) (s : string) (m : V6.WebSocketManager) :
  exists m',
    V6.start_mt5 env s m = (Ret (connects6 env), m') /\
    V6.mode m' = (if connects6 env then "mt5" else "simulation") /\
    V6.symbol m' = upper s.
Proof.
  unfold V6.start_mt5.
  destruct (V6_init_spec env (V6.mkMT5C false V6.VC_init true 0 true None)) as [c' ->].
  destruct (connects6 env); eexists; repeat split.
Qed.

Lemma valid_mode_if (b : bool) : valid_mode (if b then "mt5" else "simulation").
Proof. destruct b; [now left|now right]. Qed.

Lemma valid_mode_not_mt5 (md : string) :
  valid_mode md -> String.eqb md "mt5" = false -> md = "simulation".
Proof. intros [->| ->]; [discriminate|reflexivity]. Qed.

Lemma V5_switch_spec (env : V5.InitEnv) (s : string) (m : V5.WM) :
  valid_mode (V5.mode m) ->
  exists reply m',
    V5.switch_sym env s m = (Ret reply, m') /\
    valid_mode (V5.mode m') /\
    V5.reply_mode reply = V5.mode m' /\
    (V5.mode m = "mt5" -> connects5 env = false ->
       V5.mode m' = "simulation" /\ V5.ok reply = false).
Proof.
  intros Hv. unfold V5.switch_sym, bind, modify, get, ret. cbn [V5.mode].
  destruct (String.eqb (V5.mode m) "mt5") eqn:E.
  - match goal with |- context [V5.start_mt5 env ?s0 ?m0] =>
      destruct (V5_start_spec env s0 m0) as (m' & Hrun & Hmode & _) end.
    rewrite Hrun. eexists _, _. split; [reflexivity|]. cbn [V5.reply_mode V5.ok].
    rewrite Hmode. split; [apply valid_mode_if|]. split; [reflexivity|].
    intros _ ->. split; reflexivity.
  - eexists _, _. split; [reflexivity|]. cbn.
    pose proof (valid_mode_not_mt5 _ Hv E) as Hs. rewrite Hs.
    split; [now right|]. split; [reflexivity|].
    intros H. rewrite H in Hs. discriminate.
Qed.

Lemma V6_switch_spec (env : V6.InitEnv) (s : string) (m : V6.WebSocketManager) :
  valid_mode (V6.mode m) ->
  exists reply m',
    V6.switch_symbol env s m = (Ret reply, m') /\
    valid_mode (V6.mode m') /\
    V6.reply_mode reply = V6.mode m' /\
    (V6.mode m = "mt5" -> connects6 env = false ->
       V6.mode m' = "simulation" /\ V6.success reply = false).
Proof.
  intros Hv. unfold V6.switch_symbol, bind, modify, get, ret. cbn [V6.mode].
  destruct (String.eqb (V6.mode m) "mt5") eqn:E.
  - match goal with |- context [V6.start_mt5 env ?s0 ?m0] =>
      destruct (V6_start_spec env s0 m0) as (m' & Hrun & Hmode & _) end.
    rewrite Hrun. eexists _, _. split; [reflexivity|].
    cbn [V6.reply_mode V6.success].
    rewrite Hmode. split; [apply valid_mode_if|]. split; [reflexivity|].
    intros _ ->. split; reflexivity.
  - eexists _, _. split; [reflexivity|]. cbn.
    pose proof (valid_mode_not_mt5 _ Hv E) as Hs. rewrite Hs.
    split; [now right|]. split; [reflexivity|].
    intros H. rewrite H in Hs. discriminate.
Qed.

(** Every manager the operations produce is in one of the two modes. *)
Lemma wm_reachable5_valid (m : V5.WM) : wm_reachable5 m -> valid_mode (V5.mode m).
Proof.
  induction 1 as [|env s m r m' _ IH Hrun|m _ IH|env s m r m' _ IH Hrun].
  - now right.
  - destruct (V5_start_spec env s m) as (m2 & E & Hm & _).
    rewrite Hrun in E. inversion E; subst. rewrite Hm. apply valid_mode_if.
  - now right.
  - destruct (V5_switch_spec env s m IH) as (rp & m2 & E & Hv & _).
    rewrite Hrun in E. now inversion E; subst.
Qed.

Lemma wm_reachable6_valid (m : V6.WebSocketManager) :
  wm_reachable6 m -> valid_mode (V6.mode m).
Proof.
  induction 1 as [|env s m r m' _ IH Hrun|m _ IH|env s m r m' _ IH Hrun
                 |env m r m' _ IH Hrun].
  - now right.
  - destruct (V6_start_spec env s m) as (m2 & E & Hm & _).
    rewrite Hrun in E. inversion E; subst. rewrite Hm. apply valid_mode_if.
  - now right.
  - destruct (V6_switch_spec env s m IH) as (rp & m2 & E & Hv & _).
    rewrite Hrun in E. now inversion E; subst.
  - unfold V6.reconnect, bind, get, modify, ret in Hrun.
    destruct (V6.mt5 m); cbn in Hrun.
    + match type of Hrun with context [V6.start_mt5 env ?s0 ?m0] =>
        destruct (V6_start_spec env s0 m0) as (m2 & E & Hm & _) end.
      rewrite E in Hrun. inversion Hrun; subst. rewrite Hm. apply valid_mode_if.
    + match type of Hrun with context [V6.start_mt5 env ?s0 ?m0] =>
        destruct (V6_start_spec env s0 m0) as (m2 & E & Hm & _) end.
      rewrite E in Hrun. inversion Hrun; subst. rewrite Hm. apply valid_mode_if.
Qed.

(** C1. Every call of [start_mt5] and of the symbol switch returns, without
    an exception, and leaves the mode equal to "mt5" or to "simulation";
    when the live connection attempt fails, the mode left is "simulation"
    and the call reports [False]. It holds in both versions; the switch is
    taken from a manager whose mode is one of the two, which every manager
    the operations produce is. *)
Theorem live_failure_degrades_to_simulation :
  (forall env s m, exists m',
     V5.start_mt5 env s m = (Ret (connects5 env), m') /\
     valid_mode (V5.mode m') /\
     (connects5 env = false -> V5.mode m' = "simulation")) /\
  (forall env s m,
     valid_mode (V5.mode m) ->
     exists reply m',
       V5.switch_sym env s m = (Ret reply, m') /\
       valid_mode (V5.mode m') /\
       V5.reply_mode reply = V5.mode m' /\
       (V5.mode m = "mt5" -> connects5 env = false ->
          V5.mode m' = "simulation" /\ V5.ok reply = false)) /\
  (forall env s m, exists m',
     V6.start_mt5 env s m = (Ret (connects6 env), m') /\
     valid_mode (V6.mode m') /\
     (connects6 env = false -> V6.mode m' = "simulation")) /\
  (forall env s m,
     valid_mode (V6.mode m) ->
     exists reply m',
       V6.switch_symbol env s m = (Ret reply, m') /\
       valid_mode (V6.mode m') /\
       V6.reply_mode reply = V6.mode m' /\
       (V6.mode m = "mt5" -> connects6 env = false ->
          V6.mode m' = "simulation" /\ V6.success reply = false)).
Proof.
  split; [|split; [|split]].
  - intros env s m. destruct (V5_start_spec env s m) as (m' & Hrun & Hmode & _).
    exists m'. split; [exact Hrun|]. rewrite Hmode. split; [apply valid_mode_if|].
    now intros ->.
  - apply V5_switch_spec.
  - intros env s m. destruct (V6_start_spec env s m) as (m' & Hrun & Hmode & _).
    exists m'. split; [exact Hrun|]. rewrite Hmode. split; [apply valid_mode_if|].
    now intros ->.
  - apply V6_switch_spec.
Qed.

(** Scenario C: a switch to XAUUSD in live mode whose connection attempt
    fails, the binding being absent. *)
Lemma live_failure_degrades_to_simulation_witness :
  exists reply m',
    V6.switch_symbol (V6.mkInitEnv false None (Ret false) (Ret false) (Ret false))
      "XAUUSD" (V6.set_mode "mt5" V6.WM_new) = (Ret reply, m') /\
    V6.mode m' = "simulation" /\ V6.success reply = false.
Proof.
  destruct (proj2 (proj2 (proj2 live_failure_degrades_to_simulation))
              (V6.mkInitEnv false None (Ret false) (Ret false) (Ret false))
              "XAUUSD" (V6.set_mode "mt5" V6.WM_new))
    as (reply & m' & Hrun & _ & _ & H).
  - left. reflexivity.
  - exists reply, m'. split; [exact Hrun|]. apply H; reflexivity.
Defined.

(** ** History conversion *)

Lemma V5_replay_spec (sym0 : string) (raw : list RawTick) :
  forall (result : list TD) (vc : V5.VC) (g : Rng),
  exists out vc' g',
    V5.replay sym0 raw result (vc, g) = (Ret (result ++ out), (vc', g')) /\
    map (fun td => (bid td, ask td, timestamp td)) out
    = map (shown (V5.dig (V5.gcfg sym0))) (omap usable5 raw) /\
    Forall (fun td => symbol td = sym0 /\ source td = "mt5_history") out.
Proof.
  induction raw as [|t raw IH]; intros result vc g.
  - exists [], vc, g. cbn. rewrite app_nil_r. repeat split. constructor.
  - cbn [V5.replay omap list_omap]. unfold usable5 at 1.
    destruct (V5.read_record t) as [[[b a] tms]|]; [|apply IH].
    destruct (Qle_bool b 0 || Qle_bool a 0); [apply IH|].
    destruct (V5_calc_spec sym0 b a vc g) as (sd & g1 & Hrun & _).
    unfold bind. rewrite Hrun.
    match goal with |- context [V5.replay sym0 raw ?r (?v, g1)] =>
      destruct (IH r v g1) as (out & vc' & g' & Hrec & Hmap & Hall) end.
    rewrite Hrec. eexists (_ :: out), vc', g'. split; [now rewrite <- app_assoc|].
    split.
    + cbn [map]. rewrite Hmap. reflexivity.
    + constructor; [split; reflexivity|exact Hall].
Qed.

Lemma V6_replay_spec (symbol0 : string) (raw : list RawTick) :
  forall (result : list V6.HistTick) (vc : V6.VolumeCalculator) (g : Rng),
  vc_consistent vc ->
  exists out vc' g',
    V6.replay symbol0 raw result (vc, g) = (Ret (result ++ out), (vc', g')) /\
    map (fun h => (V6.h_bid h, V6.h_ask h, V6.h_timestamp h)) out
    = map (shown (V6.dig (V6.gcfg symbol0))) (omap usable6 raw) /\
    Forall (fun h => V6.h_symbol h = symbol0 /\ V6.h_source h = "mt5_history") out.
Proof.
  induction raw as [|t raw IH]; intros result vc g Hc.
  - exists [], vc, g. cbn. rewrite app_nil_r. repeat split. constructor.
  - cbn [V6.replay omap list_omap]. unfold usable6 at 1.
    unfold bind at 1, try_except.
    destruct (V6.read_record t) as [[[b a] tms]|]; [|now apply IH].
    destruct (Qlt_bool 0 b && Qlt_bool 0 a); [|now apply IH].
    destruct (V6_calc_returns symbol0 b a vc g Hc)
      as (vol & pc & sd & vc1 & g1 & Hrun & _ & Hc1).
    unfold bind. rewrite Hrun. unfold ret.
    match goal with |- context [V6.replay symbol0 raw ?r (vc1, g1)] =>
      destruct (IH r vc1 g1 Hc1) as (out & vc' & g' & Hrec & Hmap & Hall) end.
    rewrite Hrec. eexists (_ :: out), vc', g'. split; [now rewrite <- app_assoc|].
    split.
    + cbn [map]. rewrite Hmap. reflexivity.
    + constructor; [split; reflexivity|exact Hall].
Qed.

Lemma omap_length_le {A B : Type} (f : A -> option B) (l : list A) :
  (length (omap f l) <= length l)%nat.
Proof.
  induction l as [|x l IH]; cbn; [lia|]. destruct (f x); cbn; lia.
Qed.

Lemma V5_get_history_spec (env : V5.HistEnv) (sym0 : string) (hours w : Q)
    (c : V5.MT5C) (g : Rng) :
  window_start (V5.utc_now env) hours = Ret w ->
  exists result vc' g',
    V5.get_history env sym0 hours (c, g) = (Ret result, (c, g')) /\
    V5.replay sym0 (batch5 env c) [] (V5.VC_init, g) = (Ret result, (vc', g')).
Proof.
  intros Hw.
  destruct (V5_replay_spec sym0 (batch5 env c) [] V5.VC_init g)
    as (out & vc' & g' & Hrun & _).
  cbn [app] in Hrun. revert Hrun.
  unfold V5.get_history, batch5, bind, gets, try_except, call, zoom, ret.
  cbn [fst snd].
  destruct (V5.connected c), (V5.hist_available env), (V5.symbol_select env);
    cbn [negb orb andb];
    try (intros H; inversion H; subst; eexists _, _, _; split; reflexivity).
  rewrite Hw.
  destruct (V5.copy_ticks_range env) as [[[|t0 r0]|]|e];
    cbn [V5.is_empty from_option id fst snd];
    try destruct (V5.copy_ticks_from env) as [[[|t1 r1]|]|e1];
    cbn [V5.is_empty from_option id fst snd];
    intros H;
    first [ rewrite H; cbn [fst snd]; eexists _, _, _; split; reflexivity
          | inversion H; subst; eexists _, _, _; split; reflexivity ].
Qed.

(** The guards come first, the window second: [get_history] raises exactly
    what the date arithmetic raises, and only past the two guards. *)
Lemma V5_get_history_guarded (env : V5.HistEnv) (sym0 : string) (hours : Q)
    (c : V5.MT5C) (g : Rng) :
  V5.connected c && V5.hist_available env && V5.symbol_select env = false ->
  V5.get_history env sym0 hours (c, g) = (Ret [], (c, g)).
Proof.
  unfold V5.get_history, bind, gets, ret. cbn [fst snd].
  destruct (V5.connected c), (V5.hist_available env), (V5.symbol_select env);
    cbn [negb orb andb]; try discriminate; reflexivity.
Qed.

Lemma V5_get_history_raises (env : V5.HistEnv) (sym0 : string) (hours : Q)
    (c : V5.MT5C) (g : Rng) (e : exn) :
  V5.connected c && V5.hist_available env && V5.symbol_select env = true ->
  window_start (V5.utc_now env) hours = Raise e ->
  V5.get_history env sym0 hours (c, g) = (Raise e, (c, g)).
Proof.
  intros Hg Hw. unfold V5.get_history, bind, gets, call, ret. cbn [fst snd].
  destruct (V5.connected c), (V5.hist_available env), (V5.symbol_select env);
    try discriminate. cbn [negb orb]. now rewrite Hw.
Qed.

Lemma V6_get_history_spec (env : V6.HistEnv) (symbol0 : string) (hours w : Q)
    (c : V6.MT5Connector) (g : Rng) :
  window_start (V6.utc_now env) hours = Ret w ->
  exists result vc' g',
    V6.get_history env symbol0 hours (c, g) = (Ret result, (c, g')) /\
    V6.replay symbol0 (batch6 env c) [] (V6.VC_init, g) = (Ret result, (vc', g')).
Proof.
  intros Hw.
  destruct (V6_replay_spec symbol0 (batch6 env c) [] V6.VC_init g vc_consistent_init)
    as (out & vc' & g' & Hrun & _).
  cbn [app] in Hrun. revert Hrun.
  unfold V6.get_history, batch6, bind, gets, try_except, call, zoom, ret.
  cbn [fst snd].
  destruct (V6.connected c), (V6.hist_available env), (V6.symbol_select env);
    cbn [negb orb andb];
    try (intros H; inversion H; subst; eexists _, _, _; split; reflexivity).
  rewrite Hw.
  destruct (V6.copy_ticks_range env) as [[[|t0 r0]|]|e];
    cbn [V6.is_empty from_option id fst snd];
    try destruct (V6.copy_ticks_from env) as [[[|t1 r1]|]|e1];
    cbn [V6.is_empty from_option id fst snd];
    intros H;
    first [ rewrite H; cbn [fst snd]; eexists _, _, _; split; reflexivity
          | inversion H; subst; eexists _, _, _; split; reflexivity ].
Qed.

(** The guards come first, the window second: [get_history] raises exactly
    what the date arithmetic raises, and only past the two guards. *)
Lemma V6_get_history_guarded (env : V6.HistEnv) (symbol0 : string) (hours : Q)
    (c : V6.MT5Connector) (g : Rng) :
  V6.connected c && V6.hist_available env && V6.symbol_select env = false ->
  V6.get_history env symbol0 hours (c, g) = (Ret [], (c, g)).
Proof.
  unfold V6.get_history, bind, gets, ret. cbn [fst snd].
  destruct (V6.connected c), (V6.hist_available env), (V6.symbol_select env);
    cbn [negb orb andb]; try discriminate; reflexivity.
Qed.

Lemma V6_get_history_raises (env : V6.HistEnv) (symbol0 : string) (hours : Q)
    (c : V6.MT5Connector) (g : Rng) (e : exn) :
  V6.connected c && V6.hist_available env && V6.symbol_select env = true ->
  window_start (V6.utc_now env) hours = Raise e ->
  V6.get_history env symbol0 hours (c, g) = (Raise e, (c, g)).
Proof.
  intros Hg Hw. unfold V6.get_history, bind, gets, call, ret. cbn [fst snd].
  destruct (V6.connected c), (V6.hist_available env), (V6.symbol_select env);
    try discriminate. cbn [negb orb]. now rewrite Hw.
Qed.

Lemma usable5_none (t : RawTick) :
  usable5 t = None <->
  V5.read_record t = None \/
  exists b a tms, V5.read_record t = Some (b, a, tms) /\ (b <= 0 \/ a <= 0).
Proof.
  unfold usable5. destruct (V5.read_record t) as [[[b a] tms]|]; [|tauto].
  destruct (Qle_bool b 0) eqn:Eb, (Qle_bool a 0) eqn:Ea; cbn [orb];
    try apply Qle_bool_iff in Eb; try apply Qle_bool_iff in Ea.
  1-3: split; [intros _; right; exists b, a, tms; tauto|reflexivity].
  split; [discriminate|].
  intros [H|(b' & a' & tms' & H & [Hb|Ha])]; [discriminate| |]; inversion H; subst.
  - apply Qle_bool_iff in Hb. congruence.
  - apply Qle_bool_iff in Ha. congruence.
Qed.

Lemma usable6_none (t : RawTick) :
  usable6 t = None <->
  V6.read_record t = None \/
  exists b a tms, V6.read_record t = Some (b, a, tms) /\ (b <= 0 \/ a <= 0).
Proof.
  unfold usable6. destruct (V6.read_record t) as [[[b a] tms]|]; [|tauto].
  destruct (Qlt_bool 0 b) eqn:Eb, (Qlt_bool 0 a) eqn:Ea; cbn [andb];
    try apply Qlt_bool_iff in Eb; try apply Qlt_bool_iff in Ea;
    try apply Qlt_bool_false in Eb; try apply Qlt_bool_false in Ea.
  2-4: split; [intros _; right; exists b, a, tms; tauto|reflexivity].
  split; [discriminate|].
  intros [H|(b' & a' & tms' & H & [Hb|Ha])]; [discriminate| |]; inversion H; subst; lra.
Qed.

Lemma usable5_valid5 (t : RawTick) : usable5 t = valid5 t.
Proof.
  unfold usable5, valid5, V5.read_record, quote_by_name, quote_by_position,
    positive_quote, Qlt_bool.
  destruct (by_name_bid t) as [b|], (by_name_ask t) as [a|], (by_name_time t) as [ts|];
    try (destruct (by_pos_1 t) as [b'|], (by_pos_2 t) as [a'|], (by_pos_0 t) as [ts'|];
         try reflexivity;
         now destruct (Qle_bool b' 0), (Qle_bool a' 0)).
  now destruct (Qle_bool b 0), (Qle_bool a 0).
Qed.

Lemma usable6_valid6 (t : RawTick) : usable6 t = valid6 t.
Proof.
  unfold usable6, valid6, V6.read_record, quote_by_name, positive_quote.
  now destruct (by_name_bid t) as [b|], (by_name_ask t) as [a|], (by_name_time t) as [ts|].
Qed.

Lemma omap_ext_eq {A B : Type} (f h : A -> option B) (l : list A) :
  (forall x, f x = h x) -> omap f l = omap h l.
Proof.
  intros H. induction l as [|x l IH]; cbn; [reflexivity|]. now rewrite H, IH.
Qed.

Lemma positive_quote_spec (q : Q * Q * Z) :
  (positive_quote q = Some q <-> 0 < fst (fst q) /\ 0 < snd (fst q)) /\
  (positive_quote q = None <-> fst (fst q) <= 0 \/ snd (fst q) <= 0).
Proof.
  destruct q as [[b a] tms]. unfold positive_quote. cbn [fst snd].
  destruct (Qlt_bool 0 b) eqn:Eb, (Qlt_bool 0 a) eqn:Ea; cbn [andb];
    try apply Qlt_bool_iff in Eb; try apply Qlt_bool_iff in Ea;
    try apply Qlt_bool_false in Eb; try apply Qlt_bool_false in Ea;
    (split; split; intros H; try discriminate; try tauto; try reflexivity;
     try (destruct H; lra)).
Qed.

(** The date arithmetic raises nothing but [OverflowError]. *)
Lemma window_start_raises (now hours : Q) (e : exn) :
  window_start now hours = Raise e -> e = OverflowError.
Proof.
  unfold window_start.
  destruct (_ || _); [congruence|]. destruct (_ || _); congruence.
Qed.

(** Within the bounds of the route and with the clock in range the window
    is there. *)
Lemma window_start_route (now hours : Q) :
  route_hours hours -> clock_in_range now ->
  window_start now hours = Ret (now - hours * 3600).
Proof.
  intros [H1 H2] [H3 H4]. unfold window_start, DATETIME_MIN, DATETIME_END in *.
  assert (Hlo : (0 <= Qfloor (hours / 24))%Z).
  { change 0%Z with (Qfloor 0). apply Qfloor_resp_le.
    apply Qle_shift_div_l; [reflexivity|]. lra. }
  assert (Hhi : (Qfloor (hours / 24) <= 1)%Z).
  { change 1%Z with (Qfloor 1). apply Qfloor_resp_le.
    apply Qle_shift_div_r; [reflexivity|]. lra. }
  assert (E1 : (Qfloor (hours / 24) <? - TIMEDELTA_MAX_DAYS)%Z = false)
    by (apply Z.ltb_ge; unfold TIMEDELTA_MAX_DAYS; lia).
  assert (E2 : (TIMEDELTA_MAX_DAYS <? Qfloor (hours / 24))%Z = false)
    by (apply Z.ltb_ge; unfold TIMEDELTA_MAX_DAYS; lia).
  cbv zeta. rewrite E1, E2. cbn [orb].
  assert (E3 : Qlt_bool (now - hours * 3600) (- 62135596800) = false)
    by (apply Qlt_bool_false; lra).
  assert (E4 : Qle_bool 253402300800 (now - hours * 3600) = false).
  { destruct (Qle_bool 253402300800 (now - hours * 3600)) eqn:E; [|reflexivity].
    apply Qle_bool_iff in E. lra. }
  now rewrite E3, E4.
Qed.

Lemma V5_conversion_spec (sym0 : string) (g : Rng) (env : V5.HistEnv) (hours : Q) :
  (forall w c,
     window_start (V5.utc_now env) hours = Ret w ->
     exists result vc' g',
       V5.get_history env sym0 hours (c, g) = (Ret result, (c, g')) /\
       V5.replay sym0 (batch5 env c) [] (V5.VC_init, g) = (Ret result, (vc', g')) /\
       map (fun td => (bid td, ask td, timestamp td)) result
       = map (shown (V5.dig (V5.gcfg sym0))) (omap valid5 (batch5 env c)) /\
       length result = length (omap valid5 (batch5 env c)) /\
       (length result <= length (batch5 env c))%nat) /\
  (forall c1 c2,
     V5.connected c1 = V5.connected c2 ->
     fst (V5.get_history env sym0 hours (c1, g))
     = fst (V5.get_history env sym0 hours (c2, g))) /\
  (forall w c e,
     window_start (V5.utc_now env) hours = Ret w ->
     V5.copy_ticks_range env = Raise e ->
     fst (V5.get_history env sym0 hours (c, g)) = Ret []) /\
  (forall c e,
     window_start (V5.utc_now env) hours = Raise e ->
     V5.get_history env sym0 hours (c, g)
     = (if V5.connected c && V5.hist_available env && V5.symbol_select env
        then Raise OverflowError else Ret [], (c, g))).
Proof.
  assert (H5 : forall w c,
     window_start (V5.utc_now env) hours = Ret w ->
     exists result vc' g',
       V5.get_history env sym0 hours (c, g) = (Ret result, (c, g')) /\
       V5.replay sym0 (batch5 env c) [] (V5.VC_init, g) = (Ret result, (vc', g')) /\
       map (fun td => (bid td, ask td, timestamp td)) result
       = map (shown (V5.dig (V5.gcfg sym0))) (omap valid5 (batch5 env c)) /\
       length result = length (omap valid5 (batch5 env c)) /\
       (length result <= length (batch5 env c))%nat).
  { intros w c Hw.
    destruct (V5_get_history_spec env sym0 hours w c g Hw)
      as (result & vc' & g' & Hrun & Hrep).
    destruct (V5_replay_spec sym0 (batch5 env c) [] V5.VC_init g)
      as (out & vc2 & g2 & Hrep2 & Hmap & _).
    rewrite Hrep in Hrep2. cbn [app] in Hrep2. inversion Hrep2; subst.
    rewrite (omap_ext_eq _ _ _ usable5_valid5) in Hmap.
    exists out, vc2, g2. split; [exact Hrun|]. split; [exact Hrep|].
    split; [exact Hmap|].
    assert (Hlen : length out = length (omap valid5 (batch5 env c))).
    { rewrite <- (length_map (fun td => (bid td, ask td, timestamp td)) out), Hmap.
      apply length_map. }
    split; [exact Hlen|]. rewrite Hlen. apply omap_length_le. }
  assert (H4 : forall c e,
     window_start (V5.utc_now env) hours = Raise e ->
     V5.get_history env sym0 hours (c, g)
     = (if V5.connected c && V5.hist_available env && V5.symbol_select env
        then Raise OverflowError else Ret [], (c, g))).
  { intros c e Hw. pose proof (window_start_raises _ _ _ Hw) as ->.
    destruct (V5.connected c && V5.hist_available env && V5.symbol_select env) eqn:E.
    - now apply V5_get_history_raises.
    - now apply V5_get_history_guarded. }
  split; [exact H5|]. split; [|split; [|exact H4]].
  - intros c1 c2 Hc.
    destruct (window_start (V5.utc_now env) hours) as [w|e] eqn:Hw.
    + destruct (H5 w c1 eq_refl) as (r1 & v1 & g1 & Hr1 & Hp1 & _).
      destruct (H5 w c2 eq_refl) as (r2 & v2 & g2 & Hr2 & Hp2 & _).
      rewrite Hr1, Hr2. cbn [fst].
      assert (Hb : batch5 env c1 = batch5 env c2) by (unfold batch5; now rewrite Hc).
      rewrite Hb in Hp1. rewrite Hp1 in Hp2. now inversion Hp2.
    + rewrite (H4 c1 e eq_refl), (H4 c2 e eq_refl), Hc. reflexivity.
  - intros w c e Hw He.
    destruct (H5 w c Hw) as (r & v & g1 & Hr & _ & _ & Hlen & _).
    rewrite Hr. cbn [fst]. f_equal.
    assert (Hb : batch5 env c = []).
    { unfold batch5. rewrite He. now destruct (_ && _ && _). }
    rewrite Hb in Hlen. cbn in Hlen. now destruct r.
Qed.

Lemma V6_conversion_spec (sym0 : string) (g : Rng) (env : V6.HistEnv) (hours : Q) :
  (forall w c,
     window_start (V6.utc_now env) hours = Ret w ->
     exists result vc' g',
       V6.get_history env sym0 hours (c, g) = (Ret result, (c, g')) /\
       V6.replay sym0 (batch6 env c) [] (V6.VC_init, g) = (Ret result, (vc', g')) /\
       map (fun h => (V6.h_bid h, V6.h_ask h, V6.h_timestamp h)) result
       = map (shown (V6.dig (V6.gcfg sym0))) (omap valid6 (batch6 env c)) /\
       length result = length (omap valid6 (batch6 env c)) /\
       (length result <= length (batch6 env c))%nat) /\
  (forall c1 c2,
     V6.connected c1 = V6.connected c2 ->
     fst (V6.get_history env sym0 hours (c1, g))
     = fst (V6.get_history env sym0 hours (c2, g))) /\
  (forall w c e,
     window_start (V6.utc_now env) hours = Ret w ->
     V6.copy_ticks_range env = Raise e ->
     fst (V6.get_history env sym0 hours (c, g)) = Ret []) /\
  (forall c e,
     window_start (V6.utc_now env) hours = Raise e ->
     V6.get_history env sym0 hours (c, g)
     = (if V6.connected c && V6.hist_available env && V6.symbol_select env
        then Raise OverflowError else Ret [], (c, g))).
Proof.
  assert (H6 : forall w c,
     window_start (V6.utc_now env) hours = Ret w ->
     exists result vc' g',
       V6.get_history env sym0 hours (c, g) = (Ret result, (c, g')) /\
       V6.replay sym0 (batch6 env c) [] (V6.VC_init, g) = (Ret result, (vc', g')) /\
       map (fun h => (V6.h_bid h, V6.h_ask h, V6.h_timestamp h)) result
       = map (shown (V6.dig (V6.gcfg sym0))) (omap valid6 (batch6 env c)) /\
       length result = length (omap valid6 (batch6 env c)) /\
       (length result <= length (batch6 env c))%nat).
  { intros w c Hw.
    destruct (V6_get_history_spec env sym0 hours w c g Hw)
      as (result & vc' & g' & Hrun & Hrep).
    destruct (V6_replay_spec sym0 (batch6 env c) [] V6.VC_init g vc_consistent_init)
      as (out & vc2 & g2 & Hrep2 & Hmap & _).
    rewrite Hrep in Hrep2. cbn [app] in Hrep2. inversion Hrep2; subst.
    rewrite (omap_ext_eq _ _ _ usable6_valid6) in Hmap.
    exists out, vc2, g2. split; [exact Hrun|]. split; [exact Hrep|].
    split; [exact Hmap|].
    assert (Hlen : length out = length (omap valid6 (batch6 env c))).
    { rewrite <- (length_map (fun h => (V6.h_bid h, V6.h_ask h, V6.h_timestamp h)) out),
        Hmap. apply length_map. }
    split; [exact Hlen|]. rewrite Hlen. apply omap_length_le. }
  assert (H4 : forall c e,
     window_start (V6.utc_now env) hours = Raise e ->
     V6.get_history env sym0 hours (c, g)
     = (if V6.connected c && V6.hist_available env && V6.symbol_select env
        then Raise OverflowError else Ret [], (c, g))).
  { intros c e Hw. pose proof (window_start_raises _ _ _ Hw) as ->.
    destruct (V6.connected c && V6.hist_available env && V6.symbol_select env) eqn:E.
    - now apply V6_get_history_raises.
    - now apply V6_get_history_guarded. }
  split; [exact H6|]. split; [|split; [|exact H4]].
  - intros c1 c2 Hc.
    destruct (window_start (V6.utc_now env) hours) as [w|e] eqn:Hw.
    + destruct (H6 w c1 eq_refl) as (r1 & v1 & g1 & Hr1 & Hp1 & _).
      destruct (H6 w c2 eq_refl) as (r2 & v2 & g2 & Hr2 & Hp2 & _).
      rewrite Hr1, Hr2. cbn [fst].
      assert (Hb : batch6 env c1 = batch6 env c2) by (unfold batch6; now rewrite Hc).
      rewrite Hb in Hp1. rewrite Hp1 in Hp2. now inversion Hp2.
    + rewrite (H4 c1 e eq_refl), (H4 c2 e eq_refl), Hc. reflexivity.
  - intros w c e Hw He.
    destruct (H6 w c Hw) as (r & v & g1 & Hr & _ & _ & Hlen & _).
    rewrite Hr. cbn [fst]. f_equal.
    assert (Hb : batch6 env c = []).
    { unfold batch6. rewrite He. now destruct (_ && _ && _). }
    rewrite Hb in Hlen. cbn in Hlen. now destruct r.
Qed.

Lemma valid6_none (t : RawTick) :
  valid6 t = None <->
  by_name_bid t = None \/ by_name_ask t = None \/ by_name_time t = None \/
  exists b a, by_name_bid t = Some b /\ by_name_ask t = Some a /\ (b <= 0 \/ a <= 0).
Proof.
  unfold valid6, quote_by_name.
  destruct (by_name_bid t) as [b|], (by_name_ask t) as [a|], (by_name_time t) as [ts|];
    try (split; [intros _; tauto|reflexivity]).
  destruct (positive_quote_spec
              (b, a, default (ts * 1000)%Z (by_name_time_msc t))) as [_ Hn].
  rewrite Hn. cbn [fst snd]. split.
  - intros H. right. right. right. now exists b, a.
  - intros [H|[H|[H|(b' & a' & Hb & Ha & H)]]]; try discriminate.
    now inversion Hb; inversion Ha; subst.
Qed.

Lemma valid5_some (t : RawTick) (b a : Q) (tms : Z) :
  valid5 t = Some (b, a, tms) <->
  0 < b /\ 0 < a /\
  (quote_by_name t = Some (b, a, tms) \/
   quote_by_name t = None /\ quote_by_position t = Some (b, a, tms)).
Proof.
  assert (Hp : forall q, positive_quote q = Some (b, a, tms) <-> q = (b, a, tms) /\ 0 < b /\ 0 < a).
  { intros [[b' a'] t']. unfold positive_quote.
    destruct (Qlt_bool 0 b') eqn:Eb, (Qlt_bool 0 a') eqn:Ea; cbn [andb];
      try apply Qlt_bool_iff in Eb; try apply Qlt_bool_iff in Ea;
      try apply Qlt_bool_false in Eb; try apply Qlt_bool_false in Ea;
      (split; [intros H; inversion H; subst; tauto|]);
      intros [H [H1 H2]]; inversion H; subst; try reflexivity; lra. }
  unfold valid5.
  destruct (quote_by_name t) as [q|].
  - rewrite Hp. split.
    + intros (-> & H1 & H2). tauto.
    + intros (H1 & H2 & [H|[H _]]); [inversion H; tauto|discriminate].
  - destruct (quote_by_position t) as [q|].
    + rewrite Hp. split.
      * intros (-> & H1 & H2). tauto.
      * intros (H1 & H2 & [H|[_ H]]); [discriminate|inversion H; tauto].
    + split; [discriminate|]. intros (_ & _ & [H|[_ H]]); discriminate.
Qed.

(** C6, as amended. Once the start of the window has been computed,
    [get_history] never raises and leaves the connector, its synthesizer
    included, as it was; its result is the replay, from a fresh synthesizer,
    of the batch it fetched, so it does not depend on the state of the
    connector beyond its being connected. The result lists, in the order of
    the batch, exactly the valid records, each with its own timestamp: those
    whose fields can be read (by name, and in v5.1 by position when not by
    name) and whose bid and ask are positive; the others are skipped. A
    fetch that raises gives the empty result. The start of the window is
    computed before the [try]: past the two guards, a number of hours that
    takes it out of the range of dates makes [get_history] raise
    [OverflowError]; hours within the bounds of the route never do. It
    holds in both versions. *)
Theorem history_conversion (sym0 : string) (g : Rng) (hours : Q) :
  (forall env w c,
     window_start (V5.utc_now env) hours = Ret w ->
     exists result vc' g',
       V5.get_history env sym0 hours (c, g) = (Ret result, (c, g')) /\
       V5.replay sym0 (batch5 env c) [] (V5.VC_init, g) = (Ret result, (vc', g')) /\
       map (fun td => (bid td, ask td, timestamp td)) result
       = map (shown (V5.dig (V5.gcfg sym0))) (omap valid5 (batch5 env c)) /\
       length result = length (omap valid5 (batch5 env c)) /\
       (length result <= length (batch5 env c))%nat) /\
  (forall env c1 c2,
     V5.connected c1 = V5.connected c2 ->
     fst (V5.get_history env sym0 hours (c1, g))
     = fst (V5.get_history env sym0 hours (c2, g))) /\
  (forall env w c e,
     window_start (V5.utc_now env) hours = Ret w ->
     V5.copy_ticks_range env = Raise e ->
     fst (V5.get_history env sym0 hours (c, g)) = Ret []) /\
  (forall env c e,
     window_start (V5.utc_now env) hours = Raise e ->
     V5.get_history env sym0 hours (c, g)
     = (if V5.connected c && V5.hist_available env && V5.symbol_select env
        then Raise OverflowError else Ret [], (c, g))) /\
  (forall env w c,
     window_start (V6.utc_now env) hours = Ret w ->
     exists result vc' g',
       V6.get_history env sym0 hours (c, g) = (Ret result, (c, g')) /\
       V6.replay sym0 (batch6 env c) [] (V6.VC_init, g) = (Ret result, (vc', g')) /\
       map (fun h => (V6.h_bid h, V6.h_ask h, V6.h_timestamp h)) result
       = map (shown (V6.dig (V6.gcfg sym0))) (omap valid6 (batch6 env c)) /\
       length result = length (omap valid6 (batch6 env c)) /\
       (length result <= length (batch6 env c))%nat) /\
  (forall env c1 c2,
     V6.connected c1 = V6.connected c2 ->
     fst (V6.get_history env sym0 hours (c1, g))
     = fst (V6.get_history env sym0 hours (c2, g))) /\
  (forall env w c e,
     window_start (V6.utc_now env) hours = Ret w ->
     V6.copy_ticks_range env = Raise e ->
     fst (V6.get_history env sym0 hours (c, g)) = Ret []) /\
  (forall env c e,
     window_start (V6.utc_now env) hours = Raise e ->
     V6.get_history env sym0 hours (c, g)
     = (if V6.connected c && V6.hist_available env && V6.symbol_select env
        then Raise OverflowError else Ret [], (c, g))) /\
  (forall now,
     route_hours hours -> clock_in_range now ->
     window_start now hours = Ret (now - hours * 3600)) /\
  (forall b a ts tms,
     valid5 (raw_tick b a ts tms)
     = (if Qlt_bool 0 b && Qlt_bool 0 a then Some (b, a, tms) else None) /\
     valid6 (raw_tick b a ts tms)
     = (if Qlt_bool 0 b && Qlt_bool 0 a then Some (b, a, tms) else None)) /\
  (forall t b a tms,
     valid5 t = Some (b, a, tms) <->
     0 < b /\ 0 < a /\
     (quote_by_name t = Some (b, a, tms) \/
      quote_by_name t = None /\ quote_by_position t = Some (b, a, tms))) /\
  (forall t,
     valid6 t = None <->
     by_name_bid t = None \/ by_name_ask t = None \/ by_name_time t = None \/
     exists b a, by_name_bid t = Some b /\ by_name_ask t = Some a /\ (b <= 0 \/ a <= 0)).
Proof.
  split; [intros env; apply (V5_conversion_spec sym0 g env hours)|].
  split; [intros env; apply (V5_conversion_spec sym0 g env hours)|].
  split; [intros env; apply (V5_conversion_spec sym0 g env hours)|].
  split; [intros env; apply (V5_conversion_spec sym0 g env hours)|].
  split; [intros env; apply (V6_conversion_spec sym0 g env hours)|].
  split; [intros env; apply (V6_conversion_spec sym0 g env hours)|].
  split; [intros env; apply (V6_conversion_spec sym0 g env hours)|].
  split; [intros env; apply (V6_conversion_spec sym0 g env hours)|].
  split; [intros now; apply window_start_route|].
  split; [intros b a ts tms; split; reflexivity|].
  split; [apply valid5_some|apply valid6_none].
Qed.

(** Scenario D in both versions: one hour of history, a batch of three
    records, the second with a bid of 0, converted by a connected connector;
    the two valid records come out, in order. *)
Lemma history_conversion_witness :
  (exists result st,
     V5.get_history
       (V5.mkHistEnv true true
          (Ret (Some [raw_tick (10850#10000) (10852#10000) 100 100000;
                      raw_tick 0 (10852#10000) 101 101000;
                      raw_tick (10855#10000) (10857#10000) 102 102000]))
          (Ret None) 1793664000)
       "EURUSD" 1
       (V5.mkMT5C true (V5.mkVC {["EURUSD" := 1]} {["EURUSD" := 1]}) true 0,
        mkRng (fun _ => 1#2) 0)
     = (Ret result, st) /\
     map timestamp result = [100000%Z; 102000%Z]) /\
  (exists result st,
     V6.get_history
       (V6.mkHistEnv true true
          (Ret (Some [raw_tick (10850#10000) (10852#10000) 100 100000;
                      raw_tick 0 (10852#10000) 101 101000;
                      raw_tick (10855#10000) (10857#10000) 102 102000]))
          (Ret None) 1793664000)
       "EURUSD" 1
       (V6.mkMT5C true (V6.mkVC {["EURUSD" := 1]} {["EURUSD" := 1]} {["EURUSD" := true]})
                  true 0 true None,
        mkRng (fun _ => 1#2) 0)
     = (Ret result, st) /\
     map V6.h_timestamp result = [100000%Z; 102000%Z]).
Proof.
  pose proof (history_conversion "EURUSD" (mkRng (fun _ => 1#2) 0) 1)
    as (H5 & _ & _ & _ & H6 & _).
  split.
  - match goal with |- context [V5.get_history ?env _ _ (?c, _)] =>
      destruct (H5 env (1793664000 - 1 * 3600) c)
        as (result & vc' & g' & Hget & _ & Hmap & _); [vm_compute; reflexivity|]
    end.
    exists result. eexists. split; [exact Hget|].
    transitivity (map (fun q : Q * Q * Z => snd q)
                    (map (fun td => (bid td, ask td, timestamp td)) result)).
    + rewrite map_map. reflexivity.
    + rewrite Hmap. vm_compute. reflexivity.
  - match goal with |- context [V6.get_history ?env _ _ (?c, _)] =>
      destruct (H6 env (1793664000 - 1 * 3600) c)
        as (result & vc' & g' & Hget & _ & Hmap & _); [vm_compute; reflexivity|]
    end.
    exists result. eexists. split; [exact Hget|].
    transitivity (map (fun q : Q * Q * Z => snd q)
                    (map (fun h => (V6.h_bid h, V6.h_ask h, V6.h_timestamp h)) result)).
    + rewrite map_map. reflexivity.
    + rewrite Hmap. vm_compute. reflexivity.
Defined.

(** C6, as stated, fails in both versions: asked for twenty million hours
    on 3 November 2026, a connected connector with a selectable symbol
    raises [OverflowError], the start of the window falling before year 1. *)
Lemma history_conversion_overflow_counterexample :
  V5.get_history (V5.mkHistEnv true true (Ret None) (Ret None) 1793664000)
    "EURUSD" 20000000 (V5.mkMT5C true V5.VC_init true 0, mkRng (fun _ => 1#2) 0)
  = (Raise OverflowError, (V5.mkMT5C true V5.VC_init true 0, mkRng (fun _ => 1#2) 0)) /\
  V6.get_history (V6.mkHistEnv true true (Ret None) (Ret None) 1793664000)
    "EURUSD" 20000000 (V6.set_connected true V6.MT5Connector_new, mkRng (fun _ => 1#2) 0)
  = (Raise OverflowError,
     (V6.set_connected true V6.MT5Connector_new, mkRng (fun _ => 1#2) 0)).
Proof.
  split; reflexivity.
Qed.

(** ** The callers of [calc] *)





(** ** The burst *)

(** What a turn of v5.1's simulator sends: the volume [calc] returned,
    multiplied by a factor [3 + 5 u] when the test draw exceeds 0.95. *)
Lemma V5_simulate_spec (send : handle -> Msg -> res unit) (sine : nat -> Q) (now : Z)
    (pr : gmap string Q) (n : nat) (w : V5.World) (g : Rng) :
  V5.mode (V5.wm w) = "simulation" ->
  let s := V5.sym (V5.wm w) in
  let bp0 := default 1 (pr !! s) in
  let nf := bp0 * (5#100000) in
  let bp := bp0 + (sine (S n) * nf * (3#10) + (draws g (pos g) - (5#10)) * nf) in
  let sp := bp * (8#100000) in
  let b := bp - sp / 2 in
  let a := bp + sp / 2 in
  exists mid vol pc sd vc1 g1 w' g',
    V5.calc s b a (V5.vc (V5.wm w), mkRng (draws g) (S (pos g)))
    = (Ret (mid, vol, pc, sd), (vc1, g1)) /\
    V5.simulate_step send sine now pr n (w, g) = (Ret (<[s := bp]> pr, S n), (w', g')) /\
    let vol' := if Qlt_bool (95#100) (draws g1 (pos g1))
                then vol * (3 + draws g1 (S (pos g1)) * 5) else vol in
    let msg := TickMsg (V5.mk_tick s (V5.dig (V5.gcfg s)) mid b a vol' sd now pc sp
                          "simulation") in
    V5.sent w' = V5.sent w ++ map (fun h => (h, msg))
                   (List.filter (delivers send msg) (V5.conns (V5.wm w))).
Proof.
  intros Hmode s bp0 nf bp sp b a.
  destruct (V5_calc_spec s b a (V5.vc (V5.wm w)) (mkRng (draws g) (S (pos g))))
    as (sd & g1 & Hrun & _).
  match type of Hrun with _ = (Ret (?m, ?v, ?q, _), (?v1, _)) =>
    exists m, v, q, sd, v1, g1 end.
  destruct g as [dr p]. destruct g1 as [dr1 p1].
  subst s bp0 nf bp sp b a. cbn [draws pos] in *.
  unfold V5.simulate_step.
  cbv [bind gets random update ret try_except]. cbn [fst snd draws pos].
  rewrite Hmode. cbn [String.eqb Ascii.eqb Bool.eqb negb].
  unfold V5.on_vc, zoom. cbn [fst snd draws pos]. rewrite Hrun.
  cbn [fst snd draws pos].
  unfold V5.on_world, zoom.
  destruct (Qlt_bool (95#100) (dr1 p1)); cbn [fst snd draws pos];
    rewrite V5_bcast_spec; cbn [fst snd];
    eexists _, _; (split; [reflexivity|]); (split; [reflexivity|]); reflexivity.
Qed.

Lemma burst_cases (vol t u : Q) :
  (97#100 < t -> burst vol t u = vol * (3 + u * 5)) /\
  (t <= 97#100 -> burst vol t u = vol) /\
  (0 <= u < 1 -> 3 <= 3 + u * 5 < 8).
Proof.
  unfold burst. split; [|split].
  - intros H. apply Qlt_bool_iff in H. now rewrite H.
  - intros H. apply Qlt_bool_false in H. now rewrite H.
  - intros [H0 H1]. split; lra.
Qed.

(** C7, as amended. In v6.1, the post-warm-up step of [calc] multiplies
    the volume by [3 + 5 u], a factor in [3, 8), exactly when its test draw
    exceeds 0.97, which a uniform draw does with probability 3%, and
    otherwise leaves it as it is. In v5.1 [calc] applies no burst: its
    volume is the jittered one whatever the draws; the simulated producer
    multiplies what [calc] returned by such a factor when its own test draw
    exceeds 0.95, probability 5%. *)
Theorem burst_rule (symbol0 : string) (bid ask : Q) (g : Rng) :
  let mid := (bid + ask) / 2 in
  (forall vc i lb0 lm0,
     V6._initialized vc !! symbol0 = Some i ->
     V6.last_bid vc !! symbol0 = Some lb0 ->
     V6.last_mid vc !! symbol0 = Some lm0 ->
     let base := jittered (mid - lm0) (V6.mult (V6.gcfg symbol0))
                          (V6.bv (V6.gcfg symbol0)) (draws g (pos g)) in
     let t := draws g (S (pos g)) in
     let u := draws g (S (S (pos g))) in
     exists sd st,
       V6.calc symbol0 bid ask (vc, g) = (Ret (mid, burst base t u, mid - lm0, sd), st) /\
       (97#100 < t -> burst base t u = base * (3 + u * 5)) /\
       (t <= 97#100 -> burst base t u = base) /\
       (0 <= u < 1 -> 3 <= 3 + u * 5 < 8)) /\
  tail_probability (97#100) == 3#100 /\
  (forall vc,
     let pc := mid - default mid (V5.lm vc !! symbol0) in
     exists sd st,
       V5.calc symbol0 bid ask (vc, g)
       = (Ret (mid, jittered pc (V5.mult (V5.gcfg symbol0)) (V5.bv (V5.gcfg symbol0))
                      (draws g (pos g)), pc, sd), st)) /\
  (forall send sine now pr n w,
     V5.mode (V5.wm w) = "simulation" ->
     let s := V5.sym (V5.wm w) in
     let bp0 := default 1 (pr !! s) in
     let nf := bp0 * (5#100000) in
     let bp := bp0 + (sine (S n) * nf * (3#10) + (draws g (pos g) - (5#10)) * nf) in
     let sp := bp * (8#100000) in
     let b := bp - sp / 2 in
     let a := bp + sp / 2 in
     exists mid vol pc sd vc1 g1 w' g',
       V5.calc s b a (V5.vc (V5.wm w), mkRng (draws g) (S (pos g)))
       = (Ret (mid, vol, pc, sd), (vc1, g1)) /\
       V5.simulate_step send sine now pr n (w, g) = (Ret (<[s := bp]> pr, S n), (w', g')) /\
       let vol' := if Qlt_bool (95#100) (draws g1 (pos g1))
                   then vol * (3 + draws g1 (S (pos g1)) * 5) else vol in
       let msg := TickMsg (V5.mk_tick s (V5.dig (V5.gcfg s)) mid b a vol' sd now pc sp
                             "simulation") in
       V5.sent w' = V5.sent w ++ map (fun h => (h, msg))
                      (List.filter (delivers send msg) (V5.conns (V5.wm w)))) /\
  tail_probability (95#100) == 5#100.
Proof.
  intros mid. split; [|split; [|split; [|split]]].
  - intros vc i lb0 lm0 Hi Hb Hm base t u.
    destruct (V6_calc_next symbol0 bid ask vc g i lb0 lm0 Hi Hb Hm)
      as (sd & g' & Hrun & _).
    exists sd. eexists. split; [exact Hrun|]. apply burst_cases.
  - unfold tail_probability. reflexivity.
  - intros vc pc.
    destruct (V5_calc_spec symbol0 bid ask vc g) as (sd & g' & Hrun & _).
    exists sd. eexists. exact Hrun.
  - intros send sine now pr n w Hmode. now apply V5_simulate_spec.
  - unfold tail_probability. reflexivity.
Qed.

Lemma burst_rule_witness :
  exists sd st,
    V6.calc "EURUSD" (10855#10000) (10857#10000)
      (V6.mkVC {["EURUSD" := 10850#10000]} {["EURUSD" := 10851#10000]}
               {["EURUSD" := true]},
       rng_of_list [1#2] (99#100))
    = (Ret (((10855#10000) + (10857#10000)) / 2,
            burst (jittered (((10855#10000) + (10857#10000)) / 2 - (10851#10000))
                            100000 5 (1#2)) (99#100) (99#100),
            ((10855#10000) + (10857#10000)) / 2 - (10851#10000), sd), st).
Proof.
  destruct (proj1 (burst_rule "EURUSD" (10855#10000) (10857#10000)
                     (rng_of_list [1#2] (99#100)))
              (V6.mkVC {["EURUSD" := 10850#10000]} {["EURUSD" := 10851#10000]}
                       {["EURUSD" := true]})
              true (10850#10000) (10851#10000))
    as (sd & st & Hrun & _).
  - reflexivity.
  - reflexivity.
  - reflexivity.
  - exists sd, st. exact Hrun.
Defined.

(** C7, as stated, fails on v5.1: on an observed symbol, with a jitter draw
    of 1/2 and every later draw 0.99, above any 3% threshold, [calc] returns
    the jittered volume 55, not multiplied by any factor of [3, 8); v6.1
    returns 55 * 7.95 on the same input. *)
Lemma burst_absent_counterexample :
  (exists mid vol pc sd st,
     V5.calc "EURUSD" (10855#10000) (10857#10000)
       (V5.mkVC {["EURUSD" := 10850#10000]} {["EURUSD" := 10851#10000]},
        rng_of_list [1#2] (99#100))
     = (Ret (mid, vol, pc, sd), st) /\
     vol == 55 /\
     vol == jittered pc (V5.mult (V5.gcfg "EURUSD")) (V5.bv (V5.gcfg "EURUSD")) (1#2) /\
     ~ (exists f, 3 <= f < 8 /\ vol == 55 * f)) /\
  (exists mid vol pc sd st,
     V6.calc "EURUSD" (10855#10000) (10857#10000)
       (V6.mkVC {["EURUSD" := 10850#10000]} {["EURUSD" := 10851#10000]}
                {["EURUSD" := true]},
        rng_of_list [1#2] (99#100))
     = (Ret (mid, vol, pc, sd), st) /\
     vol == 55 * (795#100)).
Proof.
  split.
  - destruct (V5_calc_spec "EURUSD" (10855#10000) (10857#10000)
                (V5.mkVC {["EURUSD" := 10850#10000]} {["EURUSD" := 10851#10000]})
                (rng_of_list [1#2] (99#100))) as (sd & g' & Hrun & _).
    eexists _, _, _, _, _. split; [exact Hrun|].
    assert (H55 : forall v, v == 55 -> ~ (exists f, 3 <= f < 8 /\ v == 55 * f)).
    { intros v Hv (f & [Hlo Hhi] & Hf). rewrite Hv in Hf. lra. }
    split; [vm_compute; reflexivity|]. split; [vm_compute; reflexivity|].
    apply H55. vm_compute. reflexivity.
  - destruct (V6_calc_next "EURUSD" (10855#10000) (10857#10000)
                (V6.mkVC {["EURUSD" := 10850#10000]} {["EURUSD" := 10851#10000]}
                         {["EURUSD" := true]})
                (rng_of_list [1#2] (99#100)) true (10850#10000) (10851#10000))
      as (sd & g' & Hrun & _); try reflexivity.
    eexists _, _, _, _, _. split; [exact Hrun|]. vm_compute. reflexivity.
Qed.


(** * Further properties of the code *)

(** ** The synthesizer, call by call *)

(** The draws one call of v5.1's [calc] takes: one, and a second exactly
    when the bid did not move. *)
Lemma V5_calc_draws (sym0 : string) (bid ask : Q) (vc : V5.VC) (g : Rng) :
  let bc := bid - default bid (V5.lb vc !! sym0) in
  exists r vc' g',
    V5.calc sym0 bid ask (vc, g) = (Ret r, (vc', g')) /\
    draws g' = draws g /\
    (~ bc == 0 -> pos g' = (pos g + 1)%nat) /\
    (bc == 0 -> pos g' = (pos g + 2)%nat).
Proof.
  intros bc. unfold V5.calc. destruct g as [dr p]. run_m. fold bc.
  destruct (Qlt_bool 0 bc) eqn:E1; [|destruct (Qlt_bool bc 0) eqn:E2];
    eexists _, _, _; (split; [reflexivity|]); cbn [draws pos fst snd];
    (split; [reflexivity|]).
  - apply Qlt_bool_iff in E1. split; intros; [lia|lra].
  - apply Qlt_bool_iff in E2. split; intros; [lia|lra].
  - apply Qlt_bool_false in E1, E2. split; intros H; [exfalso; apply H; lra|lia].
Qed.

(** The draws one call of v6.1's [calc] takes after the warm-up: the jitter
    and the burst test, the burst factor when the test passes, the coin when
    the bid did not move. *)
Lemma V6_calc_draws (symbol0 : string) (bid ask : Q) (vc : V6.VolumeCalculator) (g : Rng)
    (i : bool) (lb0 lm0 : Q) :
  V6._initialized vc !! symbol0 = Some i ->
  V6.last_bid vc !! symbol0 = Some lb0 ->
  V6.last_mid vc !! symbol0 = Some lm0 ->
  let nb := if Qlt_bool (97#100) (draws g (S (pos g))) then 1%nat else 0%nat in
  let nc := if Qlt_bool 0 (bid - lb0) then 0%nat
            else if Qlt_bool (bid - lb0) 0 then 0%nat else 1%nat in
  exists r vc' g',
    V6.calc symbol0 bid ask (vc, g) = (Ret r, (vc', g')) /\
    draws g' = draws g /\ pos g' = (pos g + 2 + nb + nc)%nat.
Proof.
  intros Hi Hb Hm nb nc. subst nb nc.
  unfold V6.calc. destruct g as [dr p]. run_m. rewrite Hi. run_m.
  rewrite Hm. cbn beta iota. cbn [fst snd]. rewrite Hb. cbn beta iota.
  cbn [fst snd draws pos].
  destruct (Qlt_bool (97#100) (dr (S p)));
    destruct (Qlt_bool 0 (bid - lb0)); [| destruct (Qlt_bool (bid - lb0) 0) | |
                                           destruct (Qlt_bool (bid - lb0) 0)];
    eexists _, _, _; (split; [reflexivity|]); cbn [draws pos fst snd];
    (split; [reflexivity|lia]).
Qed.

(** What one call of v6.1's [calc] leaves in the three dicts. *)
Lemma V6_calc_effect (symbol0 : string) (bid ask : Q) (vc : V6.VolumeCalculator) (g : Rng) :
  vc_consistent vc ->
  exists r g' ini',
    V6.calc symbol0 bid ask (vc, g)
    = (Ret r, (V6.mkVC (<[symbol0 := bid]> (V6.last_bid vc))
                       (<[symbol0 := (bid + ask) / 2]> (V6.last_mid vc)) ini', g')) /\
    is_Some (ini' !! symbol0) /\
    (forall t, t <> symbol0 -> ini' !! t = V6._initialized vc !! t).
Proof.
  intros Hc. destruct (V6._initialized vc !! symbol0) as [i|] eqn:Hi.
  - destruct (Hc symbol0 (ex_intro _ i Hi)) as [[lb0 Hb] [lm0 Hm]].
    destruct (V6_calc_next symbol0 bid ask vc g i lb0 lm0 Hi Hb Hm)
      as (sd & g' & Hrun & _).
    rewrite Hrun. eexists _, _, _. split; [reflexivity|].
    split; [now exists i|reflexivity].
  - rewrite (V6_calc_first symbol0 bid ask vc g Hi).
    eexists _, _, _. split; [reflexivity|]. split.
    + rewrite lookup_insert_eq. now eexists.
    + intros t Ht. now rewrite lookup_insert_ne by congruence.
Qed.

(** X1. One call of [calc] for a symbol stores its bid and its mid under
    that very symbol string and leaves what is stored for every other
    string as it was, two spellings of one instrument included; in v6.1 the
    symbol is then marked initialized and the synthesizer stays consistent. *)
Theorem calc_stores_quote (symbol0 : string) (bid ask : Q) (g : Rng) :
  (forall vc,
     exists r vc' g',
       V5.calc symbol0 bid ask (vc, g) = (Ret r, (vc', g')) /\
       V5.lb vc' !! symbol0 = Some bid /\
       V5.lm vc' !! symbol0 = Some ((bid + ask) / 2) /\
       forall t, t <> symbol0 ->
         V5.lb vc' !! t = V5.lb vc !! t /\ V5.lm vc' !! t = V5.lm vc !! t) /\
  (forall vc,
     vc_consistent vc ->
     exists r vc' g',
       V6.calc symbol0 bid ask (vc, g) = (Ret r, (vc', g')) /\
       V6.last_bid vc' !! symbol0 = Some bid /\
       V6.last_mid vc' !! symbol0 = Some ((bid + ask) / 2) /\
       is_Some (V6._initialized vc' !! symbol0) /\
       vc_consistent vc' /\
       forall t, t <> symbol0 ->
         V6.last_bid vc' !! t = V6.last_bid vc !! t /\
         V6.last_mid vc' !! t = V6.last_mid vc !! t /\
         V6._initialized vc' !! t = V6._initialized vc !! t).
Proof.
  split.
  - intros vc. destruct (V5_calc_spec symbol0 bid ask vc g) as (sd & g' & Hrun & _).
    eexists _, _, _. split; [exact Hrun|]. cbn.
    rewrite !lookup_insert_eq. repeat split; try reflexivity;
      now rewrite lookup_insert_ne by congruence.
  - intros vc Hc.
    destruct (V6_calc_effect symbol0 bid ask vc g Hc) as (r & g' & ini' & Hrun & Hs & Ho).
    destruct (V6_calc_returns symbol0 bid ask vc g Hc)
      as (vol & pc & sd & vc2 & g2 & Hrun2 & _ & Hc').
    rewrite Hrun in Hrun2. inversion Hrun2; subst vc2.
    eexists _, _, _. split; [exact Hrun|].
    cbn [V6.last_bid V6.last_mid V6._initialized].
    rewrite !lookup_insert_eq.
    split; [reflexivity|]. split; [reflexivity|]. split; [exact Hs|].
    split; [exact Hc'|]. intros t Ht.
    rewrite !lookup_insert_ne by congruence. split; [reflexivity|].
    split; [reflexivity|now apply Ho].
Qed.

Lemma calc_stores_quote_witness :
  exists r vc' g',
    V6.calc "eurusd" (10850#10000) (10852#10000)
      (V6.mkVC {["EURUSD" := 1]} {["EURUSD" := 1]} {["EURUSD" := true]},
       mkRng (fun _ => 1#2) 0)
    = (Ret r, (vc', g')) /\
    V6.last_bid vc' !! "eurusd" = Some (10850#10000) /\
    V6.last_bid vc' !! "EURUSD" = Some 1.
Proof.
  destruct (proj2 (calc_stores_quote "eurusd" (10850#10000) (10852#10000)
                     (mkRng (fun _ => 1#2) 0))
              (V6.mkVC {["EURUSD" := 1]} {["EURUSD" := 1]} {["EURUSD" := true]}))
    as (r & vc' & g' & Hrun & Hb & _ & _ & _ & Hother).
  - intros s. destruct (decide (s = "EURUSD")) as [->|Hne]; cbn.
    + intros _. split; eexists; apply lookup_singleton_eq.
    + rewrite lookup_singleton_ne by congruence. intros [x Hx]. discriminate.
  - exists r, vc', g'. split; [exact Hrun|]. split; [exact Hb|].
    destruct (Hother "EURUSD") as [H _]; [discriminate|]. rewrite H. reflexivity.
Defined.

(** X2. Two calls of [calc] in a row for one symbol: the second returns as
    price change the difference of the two mids, and its side follows the
    move from the first bid to the second. *)
Theorem consecutive_calls (symbol0 : string) (b1 a1 b2 a2 : Q) (g : Rng) :
  (forall vc,
     exists r1 st1 vol sd st2,
       V5.calc symbol0 b1 a1 (vc, g) = (Ret r1, st1) /\
       V5.calc symbol0 b2 a2 st1
       = (Ret ((b2 + a2) / 2, vol, (b2 + a2) / 2 - (b1 + a1) / 2, sd), st2) /\
       side_rule (b2 - b1) sd (last_draw (snd st2))) /\
  (forall vc,
     vc_consistent vc ->
     exists r1 st1 vol sd st2,
       V6.calc symbol0 b1 a1 (vc, g) = (Ret r1, st1) /\
       V6.calc symbol0 b2 a2 st1
       = (Ret ((b2 + a2) / 2, vol, (b2 + a2) / 2 - (b1 + a1) / 2, sd), st2) /\
       side_rule (b2 - b1) sd (last_draw (snd st2))).
Proof.
  split.
  - intros vc.
    destruct (V5_calc_spec symbol0 b1 a1 vc g) as (sd1 & g1 & Hrun1 & _).
    match type of Hrun1 with _ = (_, (?v1, _)) =>
      destruct (V5_calc_spec symbol0 b2 a2 v1 g1) as (sd & g2 & Hrun2 & _ & _ & Hrule & _)
    end.
    cbn [V5.lb V5.lm] in Hrun2, Hrule. rewrite !lookup_insert_eq in Hrun2, Hrule.
    cbn [from_option id] in Hrun2, Hrule.
    eexists _, _, _, sd, _. split; [exact Hrun1|]. split; [exact Hrun2|exact Hrule].
  - intros vc Hc.
    destruct (V6_calc_effect symbol0 b1 a1 vc g Hc)
      as (r1 & g1 & ini' & Hrun1 & [i Hi] & _).
    match type of Hrun1 with _ = (_, (?v1, _)) =>
      destruct (V6_calc_next symbol0 b2 a2 v1 g1 i b1 ((b1 + a1) / 2))
        as (sd & g2 & Hrun2 & _ & _ & Hrule & _)
    end; [exact Hi|apply lookup_insert_eq|apply lookup_insert_eq|].
    eexists _, _, _, sd, _. split; [exact Hrun1|]. split; [exact Hrun2|exact Hrule].
Qed.

(** Scenarios A and B of the instrument EURUSD, on a fresh synthesizer. *)
Lemma consecutive_calls_witness :
  exists r1 st1 vol sd st2,
    V6.calc "EURUSD" (10850#10000) (10852#10000) (V6.VC_init, mkRng (fun _ => 1#2) 0)
    = (Ret r1, st1) /\
    V6.calc "EURUSD" (10855#10000) (10857#10000) st1
    = (Ret (((10855#10000) + (10857#10000)) / 2, vol,
            ((10855#10000) + (10857#10000)) / 2 - ((10850#10000) + (10852#10000)) / 2,
            sd), st2) /\
    sd = "buy".
Proof.
  destruct (proj2 (consecutive_calls "EURUSD" (10850#10000) (10852#10000)
                     (10855#10000) (10857#10000) (mkRng (fun _ => 1#2) 0))
              V6.VC_init vc_consistent_init)
    as (r1 & st1 & vol & sd & st2 & H1 & H2 & Hrule).
  exists r1, st1, vol, sd, st2. split; [exact H1|]. split; [exact H2|].
  apply Hrule. reflexivity.
Defined.

(** X3. [reset] of a non-empty symbol drops what is stored for that symbol
    and nothing else; [reset] of no symbol, or of the empty string, which
    Python takes as false, drops everything; resetting twice is resetting
    once. *)
Theorem reset_scope (s : string) :
  s <> EmptyString ->
  (forall vc t,
     V5.lb (V5.reset (Some s) vc) !! t = (if decide (t = s) then None else V5.lb vc !! t) /\
     V5.lm (V5.reset (Some s) vc) !! t = (if decide (t = s) then None else V5.lm vc !! t)) /\
  (forall vc t,
     V6.last_bid (V6.reset (Some s) vc) !! t
     = (if decide (t = s) then None else V6.last_bid vc !! t) /\
     V6.last_mid (V6.reset (Some s) vc) !! t
     = (if decide (t = s) then None else V6.last_mid vc !! t) /\
     V6._initialized (V6.reset (Some s) vc) !! t
     = (if decide (t = s) then None else V6._initialized vc !! t)) /\
  (forall vc, V5.reset None vc = V5.VC_init /\ V5.reset (Some EmptyString) vc = V5.VC_init) /\
  (forall vc, V6.reset None vc = V6.VC_init /\ V6.reset (Some EmptyString) vc = V6.VC_init) /\
  (forall o vc, V5.reset o (V5.reset o vc) = V5.reset o vc) /\
  (forall o vc, V6.reset o (V6.reset o vc) = V6.reset o vc).
Proof.
  intros Hs.
  assert (Ht : truthy (Some s) = Some s) by (destruct s; [contradiction|reflexivity]).
  split; [|split; [|split; [|split; [|split]]]].
  - intros vc t. unfold V5.reset. rewrite Ht. cbn [V5.lb V5.lm].
    destruct (decide (t = s)) as [->|Hne].
    + now rewrite !lookup_delete_eq.
    + now rewrite !lookup_delete_ne by congruence.
  - intros vc t. unfold V6.reset. rewrite Ht.
    cbn [V6.last_bid V6.last_mid V6._initialized].
    destruct (decide (t = s)) as [->|Hne].
    + now rewrite !lookup_delete_eq.
    + now rewrite !lookup_delete_ne by congruence.
  - intros vc. split; reflexivity.
  - intros vc. split; reflexivity.
  - intros o vc. unfold V5.reset. destruct (truthy o); cbn [V5.lb V5.lm];
      [now rewrite !delete_delete_eq|reflexivity].
  - intros o vc. unfold V6.reset.
    destruct (truthy o); cbn [V6.last_bid V6.last_mid V6._initialized];
      [now rewrite !delete_delete_eq|reflexivity].
Qed.

Lemma reset_scope_witness :
  V5.lb (V5.reset (Some "XAUUSD")
           (V5.mkVC {["XAUUSD" := 2900; "EURUSD" := 1]} {["XAUUSD" := 2900; "EURUSD" := 1]}))
    !! "EURUSD" = Some 1 /\
  V5.lb (V5.reset (Some "XAUUSD")
           (V5.mkVC {["XAUUSD" := 2900; "EURUSD" := 1]} {["XAUUSD" := 2900; "EURUSD" := 1]}))
    !! "XAUUSD" = None.
Proof.
  split.
  - rewrite (proj1 (proj1 (reset_scope "XAUUSD" ltac:(discriminate)) _ "EURUSD")).
    vm_compute. reflexivity.
  - rewrite (proj1 (proj1 (reset_scope "XAUUSD" ltac:(discriminate)) _ "XAUUSD")).
    vm_compute. reflexivity.
Defined.

Lemma V5_mult_pos (s : string) : 1 <= V5.mult (V5.gcfg s).
Proof.
  unfold V5.gcfg. destruct (V5.SYM_CFG !! upper s) as [p|] eqn:E; cbn.
  - apply elem_of_list_to_map_2 in E.
    repeat (apply elem_of_cons in E as [E|E]; [inversion E; subst; cbn; lra|]).
    now apply elem_of_nil in E.
  - lra.
Qed.

Lemma V6_mult_pos (s : string) : 1 <= V6.mult (V6.gcfg s).
Proof.
  unfold V6.gcfg. destruct (V6.SYM_CFG !! upper s) as [p|] eqn:E; cbn.
  - apply elem_of_list_to_map_2 in E.
    repeat (apply elem_of_cons in E as [E|E]; [inversion E; subst; cbn; lra|]).
    now apply elem_of_nil in E.
  - lra.
Qed.

Lemma jittered_lt (pc mult bv r : Q) :
  0 <= mult -> 0 < bv -> 0 <= r < 1 ->
  jittered pc mult bv r < (13#10) * (Qabs pc * mult + bv).
Proof.
  intros Hm Hb [H0 H1]. unfold jittered, py_max.
  pose proof (Qabs_nonneg pc) as Ha.
  assert (Hx : 0 <= Qabs pc * mult) by nra.
  destruct (Qlt_bool _ _); nra.
Qed.

Lemma burst_lt (vol t u : Q) : 0 < vol -> 0 <= u < 1 -> burst vol t u < 8 * vol.
Proof.
  intros Hv [H0 H1]. unfold burst. destruct (Qlt_bool (97#100) t); nra.
Qed.

(** X4. The volume [calc] returns is bounded above by the quote move: with
    draws in [0, 1), v5.1 returns less than 1.3 times
    [|price_change| * multiplier + base_volume], and v6.1, after the
    warm-up, less than 10.4 times that, a burst multiplying by less than 8. *)
Theorem volume_ceiling (symbol0 : string) (bid ask : Q) (g : Rng) :
  unit_draws g ->
  (forall vc,
     let pc := (bid + ask) / 2 - default ((bid + ask) / 2) (V5.lm vc !! symbol0) in
     exists mid vol sd st,
       V5.calc symbol0 bid ask (vc, g) = (Ret (mid, vol, pc, sd), st) /\
       vol < (13#10) * (Qabs pc * V5.mult (V5.gcfg symbol0) + V5.bv (V5.gcfg symbol0))) /\
  (forall vc i lb0 lm0,
     V6._initialized vc !! symbol0 = Some i ->
     V6.last_bid vc !! symbol0 = Some lb0 ->
     V6.last_mid vc !! symbol0 = Some lm0 ->
     let pc := (bid + ask) / 2 - lm0 in
     exists mid vol sd st,
       V6.calc symbol0 bid ask (vc, g) = (Ret (mid, vol, pc, sd), st) /\
       vol < (104#10) * (Qabs pc * V6.mult (V6.gcfg symbol0) + V6.bv (V6.gcfg symbol0))).
Proof.
  intros Hg. split.
  - intros vc pc.
    destruct (V5_calc_spec symbol0 bid ask vc g) as (sd & g' & Hrun & _).
    eexists _, _, _, _. split; [exact Hrun|].
    pose proof (V5_mult_pos symbol0). pose proof (V5_bv_pos symbol0).
    apply (jittered_lt pc); [lra|lra|apply Hg].
  - intros vc i lb0 lm0 Hi Hb Hm pc.
    destruct (V6_calc_next symbol0 bid ask vc g i lb0 lm0 Hi Hb Hm)
      as (sd & g' & Hrun & _).
    eexists _, _, _, _. split; [exact Hrun|].
    pose proof (V6_mult_pos symbol0) as Hmu. pose proof (V6_bv_pos symbol0) as Hbv.
    pose proof (jittered_lt pc (V6.mult (V6.gcfg symbol0)) (V6.bv (V6.gcfg symbol0))
                  (draws g (pos g)) ltac:(lra) ltac:(lra) (Hg (pos g))) as Hj.
    assert (Hpos : 0 < jittered pc (V6.mult (V6.gcfg symbol0)) (V6.bv (V6.gcfg symbol0))
                         (draws g (pos g))).
    { pose proof (py_max_ge_r ((Qabs pc * V6.mult (V6.gcfg symbol0) + V6.bv (V6.gcfg symbol0))
                               * ((7#10) + draws g (pos g) * (6#10)))
                              (V6.bv (V6.gcfg symbol0))) as Hr.
      unfold jittered. lra. }
    pose proof (burst_lt _ (draws g (S (pos g))) (draws g (S (S (pos g)))) Hpos
                  (Hg (S (S (pos g))))) as Hb8.
    change (py_max _ _) with (jittered pc (V6.mult (V6.gcfg symbol0))
                                (V6.bv (V6.gcfg symbol0)) (draws g (pos g))).
    lra.
Qed.

Lemma volume_ceiling_witness :
  exists mid vol sd st,
    V5.calc "EURUSD" (10855#10000) (10857#10000)
      (V5.mkVC {["EURUSD" := 10850#10000]} {["EURUSD" := 10851#10000]},
       mkRng (fun _ => 1#2) 0)
    = (Ret (mid, vol,
            ((10855#10000) + (10857#10000)) / 2
            - default (((10855#10000) + (10857#10000)) / 2)
                ((({["EURUSD" := 10851#10000]}) : gmap string Q) !! "EURUSD"), sd), st) /\
    vol < (13#10) * (Qabs (((10855#10000) + (10857#10000)) / 2
                           - default (((10855#10000) + (10857#10000)) / 2)
                               ((({["EURUSD" := 10851#10000]}) : gmap string Q) !! "EURUSD"))
                     * V5.mult (V5.gcfg "EURUSD") + V5.bv (V5.gcfg "EURUSD")).
Proof.
  apply (proj1 (volume_ceiling "EURUSD" (10855#10000) (10857#10000)
                  (mkRng (fun _ => 1#2) 0) ltac:(intros n; cbn; lra))).
Defined.

(** X5. [calc] takes its draws in order and few of them: v5.1 one, and a
    second exactly when the bid did not move; v6.1 two on a first
    observation and, afterwards, two, plus one when the second of them
    exceeds 0.97 (the burst), plus one when the bid did not move, so never
    more than four. *)
Theorem calc_draw_consumption (symbol0 : string) (bid ask : Q) (g : Rng) :
  (forall vc,
     let bc := bid - default bid (V5.lb vc !! symbol0) in
     exists r vc' g',
       V5.calc symbol0 bid ask (vc, g) = (Ret r, (vc', g')) /\
       draws g' = draws g /\
       (~ bc == 0 -> pos g' = (pos g + 1)%nat) /\
       (bc == 0 -> pos g' = (pos g + 2)%nat)) /\
  (forall vc,
     V6._initialized vc !! symbol0 = None ->
     exists r vc' g',
       V6.calc symbol0 bid ask (vc, g) = (Ret r, (vc', g')) /\
       draws g' = draws g /\ pos g' = (pos g + 2)%nat) /\
  (forall vc i lb0 lm0,
     V6._initialized vc !! symbol0 = Some i ->
     V6.last_bid vc !! symbol0 = Some lb0 ->
     V6.last_mid vc !! symbol0 = Some lm0 ->
     exists r vc' g',
       V6.calc symbol0 bid ask (vc, g) = (Ret r, (vc', g')) /\
       draws g' = draws g /\
       pos g' = (pos g + 2
                 + (if Qlt_bool (97#100) (draws g (S (pos g))) then 1 else 0)
                 + (if Qeq_bool (bid - lb0) 0 then 1 else 0))%nat /\
       (97#100 < draws g (S (pos g)) -> bid - lb0 == 0 -> pos g' = (pos g + 4)%nat) /\
       (97#100 < draws g (S (pos g)) -> ~ bid - lb0 == 0 -> pos g' = (pos g + 3)%nat) /\
       (draws g (S (pos g)) <= 97#100 -> bid - lb0 == 0 -> pos g' = (pos g + 3)%nat) /\
       (draws g (S (pos g)) <= 97#100 -> ~ bid - lb0 == 0 -> pos g' = (pos g + 2)%nat) /\
       (pos g + 2 <= pos g' <= pos g + 4)%nat).
Proof.
  split; [|split].
  - intros vc. apply V5_calc_draws.
  - intros vc Hi. rewrite (V6_calc_first symbol0 bid ask vc g Hi).
    eexists _, _, _. split; [reflexivity|]. cbn. split; [reflexivity|lia].
  - intros vc i lb0 lm0 Hi Hb Hm.
    destruct (V6_calc_draws symbol0 bid ask vc g i lb0 lm0 Hi Hb Hm)
      as (r & vc' & g' & Hrun & Hd & Hp).
    exists r, vc', g'. split; [exact Hrun|]. split; [exact Hd|].
    cbv zeta in Hp.
    assert (Hc : (if Qlt_bool 0 (bid - lb0) then 0%nat
                  else if Qlt_bool (bid - lb0) 0 then 0%nat else 1%nat)
                 = (if Qeq_bool (bid - lb0) 0 then 1%nat else 0%nat)).
    { destruct (Qeq_bool (bid - lb0) 0) eqn:E.
      - apply Qeq_bool_iff in E.
        destruct (Qlt_bool 0 (bid - lb0)) eqn:E1; [apply Qlt_bool_iff in E1; lra|].
        destruct (Qlt_bool (bid - lb0) 0) eqn:E2; [apply Qlt_bool_iff in E2; lra|].
        reflexivity.
      - apply Qeq_bool_neq in E.
        destruct (Qlt_bool 0 (bid - lb0)) eqn:E1; [reflexivity|].
        destruct (Qlt_bool (bid - lb0) 0) eqn:E2; [reflexivity|].
        apply Qlt_bool_false in E1, E2. exfalso. apply E. lra. }
    rewrite Hc in Hp. clear Hc.
    assert (Hburst : 97#100 < draws g (S (pos g)) ->
                     Qlt_bool (97#100) (draws g (S (pos g))) = true)
      by (intros H; now apply Qlt_bool_iff).
    assert (Hcalm : draws g (S (pos g)) <= 97#100 ->
                    Qlt_bool (97#100) (draws g (S (pos g))) = false)
      by (intros H; now apply Qlt_bool_false).
    assert (Hsame : bid - lb0 == 0 -> Qeq_bool (bid - lb0) 0 = true)
      by (intros H; now apply Qeq_bool_iff).
    assert (Hmove : ~ bid - lb0 == 0 -> Qeq_bool (bid - lb0) 0 = false).
    { intros H. destruct (Qeq_bool (bid - lb0) 0) eqn:E; [|reflexivity].
      apply Qeq_bool_iff in E. contradiction. }
    split; [exact Hp|].
    split; [intros H1 H2; rewrite (Hburst H1), (Hsame H2) in Hp; lia|].
    split; [intros H1 H2; rewrite (Hburst H1), (Hmove H2) in Hp; lia|].
    split; [intros H1 H2; rewrite (Hcalm H1), (Hsame H2) in Hp; lia|].
    split; [intros H1 H2; rewrite (Hcalm H1), (Hmove H2) in Hp; lia|].
    destruct (Qlt_bool (97#100) (draws g (S (pos g)))), (Qeq_bool (bid - lb0) 0); lia.
Qed.

(** A bid that did not move and a second draw of 0.99: four draws. *)
Lemma calc_draw_consumption_witness :
  exists r vc' g',
    V6.calc "EURUSD" 1 2
      (V6.mkVC {["EURUSD" := 1]} {["EURUSD" := 1]} {["EURUSD" := true]},
       mkRng (fun _ => 99#100) 7)
    = (Ret r, (vc', g')) /\
    pos g' = 11%nat.
Proof.
  pose proof (proj2 (proj2 (calc_draw_consumption "EURUSD" 1 2 (mkRng (fun _ => 99#100) 7)))
                (V6.mkVC {["EURUSD" := 1]} {["EURUSD" := 1]} {["EURUSD" := true]})
                true 1 1) as H.
  destruct H as (r & vc' & g' & Hrun & _ & Hp & _);
    [apply lookup_singleton_eq..|].
  exists r, vc', g'. split; [exact Hrun|]. rewrite Hp. reflexivity.
Defined.

(** ** The manager: connector, symbol, routes *)

Lemma V5_init_state (env : V5.InitEnv) (c : V5.MT5C) :
  V5.init env c
  = (Ret (connects5 env),
     if V5.MT5_AVAILABLE env && match V5.initialize env with Ret true => true | _ => false end
     then V5.set_connected true c else c).
Proof.
  unfold V5.init, connects5.
  destruct (V5.MT5_AVAILABLE env); cbn [negb andb]; [|reflexivity].
  unfold try_except, bind, call, modify, ret.
  destruct (V5.initialize env) as [[|]|e]; cbn [negb]; try reflexivity.
  destruct (V5.account_info env) as [a|e]; reflexivity.
Qed.

Lemma V6_init_state (env : V6.InitEnv) (c : V6.MT5Connector) :
  V6.init env c
  = (Ret (connects6 env),
     if V6.MT5_AVAILABLE env then
       let c1 := V6.mkMT5C (V6.connected c) (V6.cvc c) (V6.on_tick c) (V6.tick_count c)
                           (V6._should_reconnect c) (V6.find_mt5_path env) in
       if match V6.initialize_with env, V6.initialize_bare env with
          | Ret true, _ => true
          | Ret false, Ret true => true
          | _, _ => false
          end
       then V6.set_connected true c1 else c1
     else c).
Proof.
  unfold V6.init, connects6.
  destruct (V6.MT5_AVAILABLE env); cbn [negb andb]; [|reflexivity].
  unfold try_except, bind, call, modify, ret.
  destruct (V6.initialize_with env) as [[|]|e]; cbn [negb]; try reflexivity.
  - destruct (V6.account_info env) as [a|e]; [reflexivity|].
    destruct (V6.initialize_bare env) as [[|]|?]; reflexivity.
  - destruct (V6.initialize_bare env) as [[|]|e]; cbn [negb]; try reflexivity.
    destruct (V6.account_info env) as [a|e]; reflexivity.
Qed.


Lemma start_mt5_effect_lemma5 (s : string) :
  forall env m,
    exists c m',
      V5.start_mt5 env s m = (Ret (connects5 env), m') /\
      V5.mt5 m' = Some c /\ V5.cvc c = V5.VC_init /\ V5.on_tick c = true /\
      V5.connected c
      = (V5.MT5_AVAILABLE env
         && match V5.initialize env with Ret true => true | _ => false end) /\
      V5.sym m' = upper s /\
      V5.conns m' = V5.conns m /\ V5.vc m' = V5.vc m /\
      (connects5 env = true -> V5.mt5_task m' = Some (mkTask s false)) /\
      (connects5 env = false -> V5.mt5_task m' = V5.mt5_task m).
Proof.
  intros env m. unfold V5.start_mt5. rewrite V5_init_state. unfold connects5.
  destruct (V5.MT5_AVAILABLE env), (V5.initialize env) as [[|]|e],
           (V5.account_info env) as [a|e'];
    cbn [andb]; eexists _, _; (split; [reflexivity|]); cbn;
    repeat split; congruence.
Qed.

Lemma start_mt5_effect_lemma6 (s : string) :
  forall env m,
    exists c m',
      V6.start_mt5 env s m = (Ret (connects6 env), m') /\
      V6.mt5 m' = Some c /\ V6.cvc c = V6.VC_init /\ V6.on_tick c = true /\
      V6.tick_count c = 0%nat /\
      V6.connected c
      = (V6.MT5_AVAILABLE env
         && match V6.initialize_with env, V6.initialize_bare env with
            | Ret true, _ => true
            | Ret false, Ret true => true
            | _, _ => false
            end) /\
      V6.symbol m' = upper s /\
      V6.connections m' = V6.connections m /\ V6.vc m' = V6.vc m /\
      (connects6 env = true -> V6.mt5_task m' = Some (mkTask s false)) /\
      (connects6 env = false -> V6.mt5_task m' = V6.mt5_task m).
Proof.
  intros env m. unfold V6.start_mt5. rewrite V6_init_state. unfold connects6.
  destruct (V6.MT5_AVAILABLE env), (V6.initialize_with env) as [[|]|e],
           (V6.initialize_bare env) as [[|]|e2], (V6.account_info env) as [a|e'];
    cbn [andb]; eexists _, _; (split; [reflexivity|]); cbn;
    repeat split; congruence.
Qed.

(** X7. [start_mt5] installs a fresh connector, with a fresh synthesizer
    and the tick callback set, whatever the attempt gives, and sets the
    symbol to the upper-case form of the one given while the listener is
    started on the symbol as given. The connector is marked connected as
    soon as [initialize] has answered true: when [account_info] then raises,
    the call reports [False] and the mode is "simulation", yet the health
    route reports a connection. *)
Theorem start_mt5_effect (s : string) :
  (forall env m,
     exists c m',
       V5.start_mt5 env s m = (Ret (connects5 env), m') /\
       V5.mt5 m' = Some c /\ V5.cvc c = V5.VC_init /\ V5.on_tick c = true /\
       V5.connected c
       = (V5.MT5_AVAILABLE env
          && match V5.initialize env with Ret true => true | _ => false end) /\
       V5.sym m' = upper s /\
       V5.conns m' = V5.conns m /\ V5.vc m' = V5.vc m /\
       (connects5 env = true -> V5.mt5_task m' = Some (mkTask s false)) /\
       (connects5 env = false -> V5.mt5_task m' = V5.mt5_task m)) /\
  (forall env m e,
     V5.MT5_AVAILABLE env = true -> V5.initialize env = Ret true ->
     V5.account_info env = Raise e ->
     exists m',
       V5.start_mt5 env s m = (Ret false, m') /\
       V5.health m' = V5.mkHealth "simulation" (upper s) true) /\
  (forall env m,
     exists c m',
       V6.start_mt5 env s m = (Ret (connects6 env), m') /\
       V6.mt5 m' = Some c /\ V6.cvc c = V6.VC_init /\ V6.on_tick c = true /\
       V6.tick_count c = 0%nat /\
       V6.connected c
       = (V6.MT5_AVAILABLE env
          && match V6.initialize_with env, V6.initialize_bare env with
             | Ret true, _ => true
             | Ret false, Ret true => true
             | _, _ => false
             end) /\
       V6.symbol m' = upper s /\
       V6.connections m' = V6.connections m /\ V6.vc m' = V6.vc m /\
       (connects6 env = true -> V6.mt5_task m' = Some (mkTask s false)) /\
       (connects6 env = false -> V6.mt5_task m' = V6.mt5_task m)) /\
  (forall env m e,
     V6.MT5_AVAILABLE env = true -> V6.initialize_with env = Ret true ->
     V6.account_info env = Raise e ->
     exists m',
       V6.start_mt5 env s m = (Ret false, m') /\
       V6.health m' = V6.mkHealth "simulation" (upper s) true 0).
Proof.
  split; [|split; [|split]].
  - apply start_mt5_effect_lemma5.
  - intros env m e Ha Hi Hacc. unfold V5.start_mt5. rewrite V5_init_state.
    unfold connects5. rewrite Ha, Hi, Hacc. cbn. eexists. split; reflexivity.
  - apply start_mt5_effect_lemma6.
  - intros env m e Ha Hi Hacc. unfold V6.start_mt5. rewrite V6_init_state.
    unfold connects6. rewrite Ha, Hi, Hacc. cbn. eexists. split; reflexivity.
Qed.

Lemma start_mt5_effect_witness :
  exists m',
    V5.start_mt5 (V5.mkInitEnv true (Ret true) (Raise FeedError)) "xauusd" V5.WM_new
    = (Ret false, m') /\
    V5.health m' = V5.mkHealth "simulation" (upper "xauusd") true.
Proof.
  apply (proj1 (proj2 (start_mt5_effect "xauusd"))
           (V5.mkInitEnv true (Ret true) (Raise FeedError)) V5.WM_new FeedError);
    reflexivity.
Defined.

Lemma upper_idem (s : string) : upper (upper s) = upper s.
Proof. induction s as [|c s IH]; cbn; [reflexivity|]. now rewrite upper_ascii_idem, IH. Qed.

Lemma V5_reset_forgets (s : string) (vc : V5.VC) :
  V5.lb (V5.reset (Some s) vc) !! s = None /\ V5.lm (V5.reset (Some s) vc) !! s = None.
Proof.
  unfold V5.reset. destruct s; cbn; split;
    first [apply lookup_empty | apply lookup_delete_eq].
Qed.

Lemma V6_reset_forgets (s : string) (vc : V6.VolumeCalculator) :
  V6._initialized (V6.reset (Some s) vc) !! s = None.
Proof.
  unfold V6.reset. destruct s; cbn; first [apply lookup_empty | apply lookup_delete_eq].
Qed.

(** X8. The symbol switch makes the upper-case form of the symbol the
    active one and resets the manager's synthesizer for it, so that the next
    [calc] for it is a first observation; it keeps the subscribers. Outside
    live mode nothing else changes and the reply is a success in mode
    "simulation"; in live mode the reply carries the outcome of the new
    connection attempt, made with a fresh connector. *)
Theorem switch_symbol_effect (s : string) :
  (forall env m,
     exists reply m',
       V5.switch_sym env s m = (Ret reply, m') /\
       V5.sym m' = upper s /\ V5.reply_symbol reply = upper s /\
       V5.conns m' = V5.conns m /\
       V5.vc m' = V5.reset (Some (upper s)) (V5.vc m) /\
       V5.lb (V5.vc m') !! upper s = None /\ V5.lm (V5.vc m') !! upper s = None /\
       (V5.mode m <> "mt5" ->
          reply = V5.mkReply true "simulation" (upper s) /\
          V5.mode m' = V5.mode m /\ V5.mt5 m' = V5.mt5 m /\
          V5.mt5_task m' = V5.mt5_task m) /\
       (V5.mode m = "mt5" ->
          V5.ok reply = connects5 env /\
          exists c, V5.mt5 m' = Some c /\ V5.cvc c = V5.VC_init)) /\
  (forall env m,
     exists reply m',
       V6.switch_symbol env s m = (Ret reply, m') /\
       V6.symbol m' = upper s /\ V6.reply_symbol reply = upper s /\
       V6.connections m' = V6.connections m /\
       V6.vc m' = V6.reset (Some (upper s)) (V6.vc m) /\
       V6._initialized (V6.vc m') !! upper s = None /\
       (V6.mode m <> "mt5" ->
          reply = V6.mkReply true "simulation" (upper s) /\
          V6.mode m' = V6.mode m /\ V6.mt5 m' = V6.mt5 m /\
          V6.mt5_task m' = V6.mt5_task m) /\
       (V6.mode m = "mt5" ->
          V6.success reply = connects6 env /\
          exists c, V6.mt5 m' = Some c /\ V6.cvc c = V6.VC_init)).
Proof.
  split.
  - intros env m. unfold V5.switch_sym, bind, modify, get, ret. cbn [V5.mode].
    destruct (String.eqb (V5.mode m) "mt5") eqn:E.
    + apply String.eqb_eq in E.
      match goal with |- context [V5.start_mt5 env ?s0 ?m0] =>
        destruct (start_mt5_effect_lemma5 s0 env m0)
          as (c & m' & Hrun & Hc & Hv & _ & _ & Hsym & Hcs & Hvc & _) end.
      rewrite Hrun. eexists _, _. split; [reflexivity|].
      cbn [V5.reply_symbol V5.ok]. rewrite Hsym, Hcs, Hvc.
      destruct m as [cs v st [t|] [c0|] md sy]; cbn in *;
        rewrite upper_idem;
        destruct (V5_reset_forgets (upper s) v) as [H1 H2];
        repeat split; try assumption; try congruence; eauto.
    + apply String.eqb_neq in E. eexists _, _. split; [reflexivity|]. cbn.
      destruct (V5_reset_forgets (upper s) (V5.vc m)) as [H1 H2].
      repeat split; try assumption; try congruence.
  - intros env m. unfold V6.switch_symbol, bind, modify, get, ret. cbn [V6.mode].
    destruct (String.eqb (V6.mode m) "mt5") eqn:E.
    + apply String.eqb_eq in E.
      match goal with |- context [V6.start_mt5 env ?s0 ?m0] =>
        destruct (start_mt5_effect_lemma6 s0 env m0)
          as (c & m' & Hrun & Hc & Hv & _ & _ & _ & Hsym & Hcs & Hvc & _) end.
      rewrite Hrun. eexists _, _. split; [reflexivity|].
      cbn [V6.reply_symbol V6.success]. rewrite Hsym, Hcs, Hvc.
      destruct m as [cs v st t [c0|] md sy]; cbn in *;
        rewrite upper_idem;
        pose proof (V6_reset_forgets (upper s) v) as H1;
        repeat split; try assumption; try congruence; eauto.
    + apply String.eqb_neq in E. eexists _, _. split; [reflexivity|]. cbn.
      pose proof (V6_reset_forgets (upper s) (V6.vc m)) as H1.
      repeat split; try assumption; try congruence.
Qed.

Lemma switch_symbol_effect_witness :
  exists m',
    V6.switch_symbol (V6.mkInitEnv false None (Ret false) (Ret false) (Ret false))
      "ustec" V6.WM_new
    = (Ret (V6.mkReply true "simulation" (upper "ustec")), m') /\
    V6.symbol m' = "USTEC".
Proof.
  destruct (proj2 (switch_symbol_effect "ustec")
              (V6.mkInitEnv false None (Ret false) (Ret false) (Ret false)) V6.WM_new)
    as (reply & m' & Hrun & Hsym & _ & _ & _ & _ & Hsim & _).
  destruct Hsim as [Hr _]; [discriminate|]. subst reply.
  exists m'. split; [exact Hrun|exact Hsym].
Defined.

(** ** The live listener *)

(** What a turn of v5.1's listener does with a fresh quote of positive
    bid and ask. *)
Lemma V5_listen_emits (send : handle -> Msg -> res unit) (now : Z) (sym0 : string)
    (tm lt : Z) (b a : Q) (w : V5.World) (g : Rng) (c : V5.MT5C) :
  V5.mt5 (V5.wm w) = Some c -> V5.connected c = true ->
  0 < b -> 0 < a -> (tm <> lt \/ V5.tc c = 0%nat) ->
  exists mid vol pc sd vc1 g1,
    V5.calc sym0 b a (V5.cvc c, g) = (Ret (mid, vol, pc, sd), (vc1, g1)) /\
    let msg := TickMsg (V5.mk_tick sym0 (V5.dig (V5.gcfg sym0)) mid b a vol sd now pc
                          (a - b) "mt5") in
    let c' := V5.mkMT5C true vc1 (V5.on_tick c) (S (V5.tc c)) in
    V5.listen_poll send now sym0 (Ret (Some (tm, b, a))) lt (w, g)
    = (Ret tm,
       (if V5.on_tick c then
          V5.set_conns (List.filter (delivers send msg) (V5.conns (V5.wm w)))
            (V5.mkWorld (V5.set_mt5 (Some c') (V5.wm w))
               (V5.sent w ++ map (fun h => (h, msg))
                               (List.filter (delivers send msg) (V5.conns (V5.wm w)))))
        else V5.mkWorld (V5.set_mt5 (Some c') (V5.wm w)) (V5.sent w),
        g1)).
Proof.
  intros Hm Hc Hb Ha Hfresh.
  destruct (V5_calc_spec sym0 b a (V5.cvc c) g) as (sd & g1 & Hrun & _).
  match type of Hrun with _ = (Ret (?m, ?v, ?q, _), (?v1, _)) =>
    exists m, v, q, sd, v1, g1 end.
  split; [exact Hrun|].
  unfold V5.listen_poll. destruct g as [dr p]. destruct g1 as [dr1 p1].
  cbv [bind gets random update ret try_except]. cbn [fst snd draws pos].
  rewrite Hm, Hc. cbn [negb].
  assert (Hf : negb (Z.eqb tm lt) || Nat.eqb (V5.tc c) 0 = true).
  { apply Bool.orb_true_iff. destruct Hfresh as [H|H].
    - left. apply Bool.negb_true_iff. now apply Z.eqb_neq.
    - right. now apply Nat.eqb_eq. }
  rewrite Hf.
  assert (Hg : Qle_bool b 0 || Qle_bool a 0 = false).
  { apply Bool.orb_false_iff. split.
    - destruct (Qle_bool b 0) eqn:E; [apply Qle_bool_iff in E; lra|reflexivity].
    - destruct (Qle_bool a 0) eqn:E; [apply Qle_bool_iff in E; lra|reflexivity]. }
  rewrite Hg. unfold V5.on_cvc. cbn [fst snd V5.cvc V5.connected V5.on_tick V5.tc V5.wm V5.sent].
  rewrite Hrun. cbn [fst snd V5.on_tick].
  destruct (V5.on_tick c).
  - unfold V5.on_world, zoom. cbn [fst snd]. rewrite V5_bcast_spec. reflexivity.
  - reflexivity.
Qed.

(** What a turn of v6.1's listener does with a fresh quote of positive
    bid and ask, the connector's synthesizer being consistent. *)
Lemma V6_listen_emits (send : handle -> Msg -> res unit) (now : Z) (symbol0 : string)
    (tm lt : Z) (b a : Q) (w : V6.World) (g : Rng) (c : V6.MT5Connector) :
  V6.mt5 (V6.wm w) = Some c -> V6.connected c = true -> vc_consistent (V6.cvc c) ->
  0 < b -> 0 < a -> tm <> lt ->
  exists mid vol pc sd vc1 g1,
    V6.calc symbol0 b a (V6.cvc c, g) = (Ret (mid, vol, pc, sd), (vc1, g1)) /\
    let msg := TickMsg (V6.mk_tick symbol0 (V6.dig (V6.gcfg symbol0)) mid b a vol sd now pc
                          (a - b) "mt5") in
    let c' := V6.mkMT5C true vc1 (V6.on_tick c) (S (V6.tick_count c))
                        (V6._should_reconnect c) (V6.mt5_path c) in
    V6.listen_poll send now symbol0 (Ret (Some (tm, b, a))) lt (w, g)
    = (Ret tm,
       (if V6.on_tick c then
          V6.set_connections
            (List.filter (delivers send msg) (V6.connections (V6.wm w)))
            (V6.mkWorld (V6.set_mt5 (Some c') (V6.wm w))
               (V6.sent w ++ map (fun h => (h, msg))
                               (List.filter (delivers send msg)
                                            (V6.connections (V6.wm w)))))
        else V6.mkWorld (V6.set_mt5 (Some c') (V6.wm w)) (V6.sent w),
        g1)).
Proof.
  intros Hm Hc Hcons Hb Ha Hfresh.
  destruct (V6_calc_returns symbol0 b a (V6.cvc c) g Hcons)
    as (vol & pc & sd & vc1 & g1 & Hrun & _).
  exists ((b + a) / 2), vol, pc, sd, vc1, g1. split; [exact Hrun|].
  unfold V6.listen_poll. destruct g as [dr p]. destruct g1 as [dr1 p1].
  cbv [bind gets random update ret try_except]. cbn [fst snd draws pos].
  rewrite Hm, Hc. cbn [negb].
  assert (Hf : negb (Z.eqb tm lt) = true).
  { apply Bool.negb_true_iff. now apply Z.eqb_neq. }
  rewrite Hf.
  assert (Hg : Qlt_bool 0 b && Qlt_bool 0 a = true).
  { apply Bool.andb_true_iff. split; now apply Qlt_bool_iff. }
  rewrite Hg. unfold V6.on_cvc.
  cbn [fst snd V6.cvc V6.connected V6.on_tick V6.tick_count V6._should_reconnect
       V6.mt5_path V6.wm V6.sent].
  rewrite Hrun. cbn [fst snd V6.on_tick].
  destruct (V6.on_tick c).
  - unfold V6.on_world, zoom. cbn [fst snd]. rewrite V6_bcast_spec. reflexivity.
  - reflexivity.
Qed.

(** X9. A turn of the listener that has nothing new changes nothing and
    sends nothing: when the poll raises or returns no quote, when the
    connector is not connected, and when the quote carries the time of the
    previous one (in v5.1 once a first quote has been counted). *)
Theorem listener_idle (send : handle -> Msg -> res unit) (now : Z) (s : string)
    (lt : Z) (g : Rng) :
  (forall w e, V5.listen_poll send now s (Raise e) lt (w, g) = (Ret lt, (w, g))) /\
  (forall w, V5.listen_poll send now s (Ret None) lt (w, g) = (Ret lt, (w, g))) /\
  (forall w c tick,
     V5.mt5 (V5.wm w) = Some c -> V5.connected c = false ->
     V5.listen_poll send now s tick lt (w, g) = (Ret lt, (w, g))) /\
  (forall w c b a,
     V5.mt5 (V5.wm w) = Some c -> V5.tc c <> 0%nat ->
     V5.listen_poll send now s (Ret (Some (lt, b, a))) lt (w, g) = (Ret lt, (w, g))) /\
  (forall w e, V6.listen_poll send now s (Raise e) lt (w, g) = (Ret lt, (w, g))) /\
  (forall w, V6.listen_poll send now s (Ret None) lt (w, g) = (Ret lt, (w, g))) /\
  (forall w c tick,
     V6.mt5 (V6.wm w) = Some c -> V6.connected c = false ->
     V6.listen_poll send now s tick lt (w, g) = (Ret lt, (w, g))) /\
  (forall w b a,
     V6.listen_poll send now s (Ret (Some (lt, b, a))) lt (w, g) = (Ret lt, (w, g))).
Proof.
  repeat split; intros.
  - unfold V5.listen_poll. run_m. destruct (V5.mt5 (V5.wm w)) as [c|]; [|reflexivity].
    now destruct (V5.connected c).
  - unfold V5.listen_poll. run_m. destruct (V5.mt5 (V5.wm w)) as [c|]; [|reflexivity].
    now destruct (V5.connected c).
  - unfold V5.listen_poll. run_m. now rewrite H, H0.
  - unfold V5.listen_poll. run_m. rewrite H. destruct (V5.connected c); [|reflexivity].
    cbn [negb]. rewrite Z.eqb_refl. apply Nat.eqb_neq in H0. now rewrite H0.
  - unfold V6.listen_poll. run_m. destruct (V6.mt5 (V6.wm w)) as [c|]; [|reflexivity].
    now destruct (V6.connected c).
  - unfold V6.listen_poll. run_m. destruct (V6.mt5 (V6.wm w)) as [c|]; [|reflexivity].
    now destruct (V6.connected c).
  - unfold V6.listen_poll. run_m. now rewrite H, H0.
  - unfold V6.listen_poll. run_m. destruct (V6.mt5 (V6.wm w)) as [c|]; [|reflexivity].
    destruct (V6.connected c); [|reflexivity].
    cbn [negb]. now rewrite Z.eqb_refl.
Qed.

Lemma listener_idle_witness :
  V5.listen_poll (fun _ _ => Ret tt) 0 "EURUSD" (Ret (Some (17%Z, 1, 2))) 17
    (V5.mkWorld (V5.set_mt5 (Some (V5.mkMT5C true V5.VC_init true 3)) V5.WM_new) [],
     mkRng (fun _ => 1#2) 0)
  = (Ret 17%Z,
     (V5.mkWorld (V5.set_mt5 (Some (V5.mkMT5C true V5.VC_init true 3)) V5.WM_new) [],
      mkRng (fun _ => 1#2) 0)).
Proof.
  apply (proj1 (proj2 (proj2 (proj2
           (listener_idle (fun _ _ => Ret tt) 0 "EURUSD" 17 (mkRng (fun _ => 1#2) 0)))))
           _ (V5.mkMT5C true V5.VC_init true 3)).
  - reflexivity.
  - cbn. lia.
Defined.

(** X10. A turn of the listener on a fresh quote with positive bid and ask
    counts it, runs it through the connector's own synthesizer, never the
    manager's, and, the tick callback being set, broadcasts one tick of
    source "mt5" carrying the symbol as given, the clock reading and the
    rounded bid, ask and spread: it is delivered to the subscribers that do
    not fail, and the others are unregistered. *)
Theorem listener_emits (send : handle -> Msg -> res unit) (now : Z) (s : string)
    (tm lt : Z) (b a : Q) (g : Rng) :
  0 < b -> 0 < a ->
  (forall w c,
     V5.mt5 (V5.wm w) = Some c -> V5.connected c = true -> V5.on_tick c = true ->
     tm <> lt \/ V5.tc c = 0%nat ->
     exists td w' g' c',
       V5.listen_poll send now s (Ret (Some (tm, b, a))) lt (w, g) = (Ret tm, (w', g')) /\
       V5.sent w' = V5.sent w ++ map (fun h => (h, TickMsg td))
                      (List.filter (delivers send (TickMsg td)) (V5.conns (V5.wm w))) /\
       V5.conns (V5.wm w')
       = List.filter (delivers send (TickMsg td)) (V5.conns (V5.wm w)) /\
       symbol td = s /\ source td = "mt5" /\ timestamp td = now /\
       bid td = py_round b (V5.dig (V5.gcfg s)) /\
       ask td = py_round a (V5.dig (V5.gcfg s)) /\
       spread td = py_round (a - b) (V5.dig (V5.gcfg s)) /\
       V5.vc (V5.wm w') = V5.vc (V5.wm w) /\
       V5.mt5 (V5.wm w') = Some c' /\ V5.tc c' = S (V5.tc c) /\
       V5.lb (V5.cvc c') !! s = Some b) /\
  (forall w c,
     V6.mt5 (V6.wm w) = Some c -> V6.connected c = true -> V6.on_tick c = true ->
     vc_consistent (V6.cvc c) -> tm <> lt ->
     exists td w' g' c',
       V6.listen_poll send now s (Ret (Some (tm, b, a))) lt (w, g) = (Ret tm, (w', g')) /\
       V6.sent w' = V6.sent w ++ map (fun h => (h, TickMsg td))
                      (List.filter (delivers send (TickMsg td)) (V6.connections (V6.wm w))) /\
       V6.connections (V6.wm w')
       = List.filter (delivers send (TickMsg td)) (V6.connections (V6.wm w)) /\
       symbol td = s /\ source td = "mt5" /\ timestamp td = now /\
       bid td = py_round b (V6.dig (V6.gcfg s)) /\
       ask td = py_round a (V6.dig (V6.gcfg s)) /\
       spread td = py_round (a - b) (V6.dig (V6.gcfg s)) /\
       V6.vc (V6.wm w') = V6.vc (V6.wm w) /\
       V6.mt5 (V6.wm w') = Some c' /\ V6.tick_count c' = S (V6.tick_count c) /\
       V6.last_bid (V6.cvc c') !! s = Some b).
Proof.
  intros Hb Ha. split.
  - intros w c Hm Hc Hon Hfresh.
    destruct (V5_listen_emits send now s tm lt b a w g c Hm Hc Hb Ha Hfresh)
      as (mid & vol & pc & sd & vc1 & g1 & Hcalc & Hrun).
    cbv zeta in Hrun. rewrite Hon in Hrun.
    destruct (V5_calc_spec s b a (V5.cvc c) g) as (sd2 & g2 & Hspec & _).
    rewrite Hcalc in Hspec. inversion Hspec; subst vc1.
    eexists _, _, _, _. split; [exact Hrun|]. cbn.
    repeat split. apply lookup_insert_eq.
  - intros w c Hm Hc Hon Hcons Hfresh.
    destruct (V6_listen_emits send now s tm lt b a w g c Hm Hc Hcons Hb Ha Hfresh)
      as (mid & vol & pc & sd & vc1 & g1 & Hcalc & Hrun).
    cbv zeta in Hrun. rewrite Hon in Hrun.
    destruct (V6_calc_effect s b a (V6.cvc c) g Hcons) as (r & g2 & ini' & Heff & _).
    rewrite Hcalc in Heff. inversion Heff; subst vc1.
    eexists _, _, _, _. split; [exact Hrun|]. cbn.
    repeat split. apply lookup_insert_eq.
Qed.

Lemma listener_emits_witness :
  exists td w' g' c',
    V6.listen_poll (fun h _ => if Nat.eqb h 2 then Raise TransportError else Ret tt)
      1700000000000 "XAUUSD" (Ret (Some (5%Z, 2900, 2901))) 4
      (V6.mkWorld (V6.mkWM [1%nat; 2%nat; 3%nat] V6.VC_init None None
                     (Some (V6.mkMT5C true V6.VC_init true 0 true None)) "mt5" "XAUUSD") [],
       mkRng (fun _ => 1#2) 0)
    = (Ret 5%Z, (w', g')) /\
    map fst (V6.sent w') = [1%nat; 3%nat] /\
    V6.connections (V6.wm w') = [1%nat; 3%nat] /\
    symbol td = "XAUUSD" /\ V6.mt5 (V6.wm w') = Some c' /\ V6.tick_count c' = 1%nat.
Proof.
  destruct (proj2 (listener_emits
              (fun h _ => if Nat.eqb h 2 then Raise TransportError else Ret tt)
              1700000000000 "XAUUSD" 5 4 2900 2901 (mkRng (fun _ => 1#2) 0)
              ltac:(reflexivity) ltac:(reflexivity))
              (V6.mkWorld (V6.mkWM [1%nat; 2%nat; 3%nat] V6.VC_init None None
                     (Some (V6.mkMT5C true V6.VC_init true 0 true None)) "mt5" "XAUUSD") [])
              (V6.mkMT5C true V6.VC_init true 0 true None))
    as (td & w' & g' & c' & Hrun & Hsent & Hconns & Hsym & _ & _ & _ & _ & _ & _ & Hc' & Htc & _).
  - reflexivity.
  - reflexivity.
  - reflexivity.
  - apply vc_consistent_init.
  - discriminate.
  - exists td, w', g', c'. split; [exact Hrun|]. split.
    + rewrite Hsent. cbn. reflexivity.
    + split; [rewrite Hconns; reflexivity|]. split; [exact Hsym|]. split; [exact Hc'|exact Htc].
Defined.

(** ** The simulator *)

(** A turn of v5.1's simulator in simulation mode, with the world it leaves. *)
Lemma V5_simulate_full (send : handle -> Msg -> res unit) (sine : nat -> Q) (now : Z)
    (pr : gmap string Q) (n : nat) (w : V5.World) (g : Rng) :
  V5.mode (V5.wm w) = "simulation" ->
  let s := V5.sym (V5.wm w) in
  let bp0 := default 1 (pr !! s) in
  let nf := bp0 * (5#100000) in
  let bp := bp0 + (sine (S n) * nf * (3#10) + (draws g (pos g) - (5#10)) * nf) in
  let sp := bp * (8#100000) in
  let b := bp - sp / 2 in
  let a := bp + sp / 2 in
  exists mid vol pc sd vc1 g1 g',
    V5.calc s b a (V5.vc (V5.wm w), mkRng (draws g) (S (pos g)))
    = (Ret (mid, vol, pc, sd), (vc1, g1)) /\
    let vol' := if Qlt_bool (95#100) (draws g1 (pos g1))
                then vol * (3 + draws g1 (S (pos g1)) * 5) else vol in
    let msg := TickMsg (V5.mk_tick s (V5.dig (V5.gcfg s)) mid b a vol' sd now pc sp
                          "simulation") in
    V5.simulate_step send sine now pr n (w, g)
    = (Ret (<[s := bp]> pr, S n),
       (V5.set_conns (List.filter (delivers send msg) (V5.conns (V5.wm w)))
          (V5.mkWorld (V5.set_vc vc1 (V5.wm w))
             (V5.sent w ++ map (fun h => (h, msg))
                             (List.filter (delivers send msg) (V5.conns (V5.wm w))))),
        g')).
Proof.
  intros Hmode s bp0 nf bp sp b a.
  destruct (V5_calc_spec s b a (V5.vc (V5.wm w)) (mkRng (draws g) (S (pos g))))
    as (sd & g1 & Hrun & _).
  match type of Hrun with _ = (Ret (?m, ?v, ?q, _), (?v1, _)) =>
    exists m, v, q, sd, v1, g1 end.
  destruct g as [dr p]. destruct g1 as [dr1 p1].
  subst s bp0 nf bp sp b a. cbn [draws pos] in *.
  unfold V5.simulate_step.
  cbv [bind gets random update ret try_except]. cbn [fst snd draws pos].
  rewrite Hmode. cbn [String.eqb Ascii.eqb Bool.eqb negb].
  unfold V5.on_vc, zoom. cbn [fst snd draws pos]. rewrite Hrun.
  cbn [fst snd draws pos].
  unfold V5.on_world, zoom.
  destruct (Qlt_bool (95#100) (dr1 p1)); cbn [fst snd draws pos];
    rewrite V5_bcast_spec; cbn [fst snd V5.wm V5.sent V5.conns V5.set_vc];
    eexists; (split; [reflexivity|]); reflexivity.
Qed.

(** A turn of v6.1's simulator in simulation mode, on a consistent
    synthesizer, with the world it leaves. *)
Lemma V6_simulate_full (send : handle -> Msg -> res unit) (sine : nat -> Q) (now : Z)
    (prices : gmap string Q) (n : nat) (w : V6.World) (g : Rng) :
  V6.mode (V6.wm w) = "simulation" -> vc_consistent (V6.vc (V6.wm w)) ->
  let s := V6.symbol (V6.wm w) in
  let bp0 := default 1 (prices !! s) in
  let nf := bp0 * (5#100000) in
  let bp := bp0 + (sine (S n) * nf * (3#10) + (draws g (pos g) - (5#10)) * nf) in
  let sp := bp * (8#100000) in
  let b := bp - sp / 2 in
  let a := bp + sp / 2 in
  exists vol pc sd vc1 g1,
    V6.calc s b a (V6.vc (V6.wm w), mkRng (draws g) (S (pos g)))
    = (Ret ((b + a) / 2, vol, pc, sd), (vc1, g1)) /\
    let msg := TickMsg (V6.mk_tick s (V6.dig (V6.gcfg s)) ((b + a) / 2) b a vol sd now pc sp
                          "simulation") in
    V6.simulate_step send sine now prices n (w, g)
    = (Ret (<[s := bp]> prices, S n),
       (V6.set_connections (List.filter (delivers send msg) (V6.connections (V6.wm w)))
          (V6.mkWorld (V6.set_vc vc1 (V6.wm w))
             (V6.sent w ++ map (fun h => (h, msg))
                             (List.filter (delivers send msg) (V6.connections (V6.wm w))))),
        mkRng (draws g1) (S (pos g1)))).
Proof.
  intros Hmode Hcons s bp0 nf bp sp b a.
  destruct (V6_calc_returns s b a (V6.vc (V6.wm w)) (mkRng (draws g) (S (pos g))) Hcons)
    as (vol & pc & sd & vc1 & g1 & Hrun & _).
  exists vol, pc, sd, vc1, g1. split; [exact Hrun|].
  destruct g as [dr p]. destruct g1 as [dr1 p1].
  subst s bp0 nf bp sp b a. cbn [draws pos] in *.
  unfold V6.simulate_step.
  cbv [bind gets random update ret try_except]. cbn [fst snd draws pos].
  rewrite Hmode. cbn [String.eqb Ascii.eqb Bool.eqb negb].
  unfold V6.on_vc, zoom. cbn [fst snd draws pos]. rewrite Hrun.
  cbn [fst snd draws pos].
  unfold V6.on_world, zoom. rewrite V6_bcast_spec. reflexivity.
Qed.

Lemma simulated_price_bounds (p0 sn r : Q) :
  0 < p0 -> -1 <= sn <= 1 -> 0 <= r < 1 ->
  let nf := p0 * (5#100000) in
  let bp := p0 + (sn * nf * (3#10) + (r - (5#10)) * nf) in
  let sp := bp * (8#100000) in
  (1 - (4#100000)) * p0 <= bp /\ bp < (1 + (4#100000)) * p0 /\
  0 < bp - sp / 2 /\ bp - sp / 2 < bp + sp / 2 /\
  ((bp - sp / 2) + (bp + sp / 2)) / 2 == bp.
Proof.
  intros Hp [Hs1 Hs2] [Hr1 Hr2] nf bp sp. subst nf bp sp.
  assert (E1 : forall x, x / 2 == x * (1#2)) by (intros; field).
  rewrite !E1.
  repeat split; nra.
Qed.

Lemma try_except_returns {St A : Type} (m : M St A) (a0 : A) (st : St) :
  exists a st', try_except m (fun _ => ret a0) st = (Ret a, st').
Proof.
  unfold try_except, ret. destruct (m st) as [[a|e] st']; eauto.
Qed.

(** X11. A turn of the simulator never raises, whatever the transport and
    the synthesizer do; outside simulation mode it is idle: it changes
    nothing, takes no draw and leaves its price table and counter alone. *)
Theorem simulator_idle_or_returns (send : handle -> Msg -> res unit) (sine : nat -> Q)
    (now : Z) (pr : gmap string Q) (n : nat) (g : Rng) :
  (forall w, exists r st, V5.simulate_step send sine now pr n (w, g) = (Ret r, st)) /\
  (forall w, exists r st, V6.simulate_step send sine now pr n (w, g) = (Ret r, st)) /\
  (forall w, V5.mode (V5.wm w) <> "simulation" ->
             V5.simulate_step send sine now pr n (w, g) = (Ret (pr, n), (w, g))) /\
  (forall w, V6.mode (V6.wm w) <> "simulation" ->
             V6.simulate_step send sine now pr n (w, g) = (Ret (pr, n), (w, g))).
Proof.
  split; [|split; [|split]].
  - intros w. unfold V5.simulate_step. unfold bind at 1, gets at 1. cbn [fst].
    destruct (negb _); [unfold ret; eauto|].
    unfold bind at 1, gets at 1. unfold bind at 1, random at 1. destruct g as [dr p].
    cbn [draws pos]. apply try_except_returns.
  - intros w. unfold V6.simulate_step. unfold bind at 1, gets at 1. cbn [fst].
    destruct (negb _); [unfold ret; eauto|].
    unfold bind at 1, gets at 1. unfold bind at 1, random at 1. destruct g as [dr p].
    cbn [draws pos]. apply try_except_returns.
  - intros w H. unfold V5.simulate_step. unfold bind at 1, gets at 1. cbn [fst].
    apply String.eqb_neq in H. now rewrite H.
  - intros w H. unfold V6.simulate_step. unfold bind at 1, gets at 1. cbn [fst].
    apply String.eqb_neq in H. now rewrite H.
Qed.

Lemma simulator_idle_or_returns_witness :
  V6.simulate_step (fun _ _ => Ret tt) (fun _ => 0) 0 V6.initial_prices 5
    (V6.mkWorld (V6.set_mode "mt5" V6.WM_new) [], mkRng (fun _ => 1#2) 0)
  = (Ret (V6.initial_prices, 5%nat),
     (V6.mkWorld (V6.set_mode "mt5" V6.WM_new) [], mkRng (fun _ => 1#2) 0)).
Proof.
  apply (proj2 (proj2 (proj2 (simulator_idle_or_returns (fun _ _ => Ret tt) (fun _ => 0) 0
                                V6.initial_prices 5 (mkRng (fun _ => 1#2) 0))))).
  discriminate.
Defined.

(** X12. In simulation mode, from a positive price and with a sine in
    [-1, 1] and a draw in [0, 1), a turn of the simulator moves the price of
    the active symbol by at most 0.004%, so that it stays positive, records
    it in the price table, and hands the synthesizer a quote with
    [0 < bid < ask] whose mid is the new price. *)
Theorem simulated_quote_invariant (send : handle -> Msg -> res unit) (sine : nat -> Q)
    (now : Z) (pr : gmap string Q) (n : nat) (g : Rng) :
  -1 <= sine (S n) <= 1 -> 0 <= draws g (pos g) < 1 ->
  (forall w,
     V5.mode (V5.wm w) = "simulation" ->
     0 < default 1 (pr !! V5.sym (V5.wm w)) ->
     exists bp b a w' g',
       V5.simulate_step send sine now pr n (w, g)
       = (Ret (<[V5.sym (V5.wm w) := bp]> pr, S n), (w', g')) /\
       (1 - (4#100000)) * default 1 (pr !! V5.sym (V5.wm w)) <= bp /\
       bp < (1 + (4#100000)) * default 1 (pr !! V5.sym (V5.wm w)) /\
       0 < b /\ b < a /\ (b + a) / 2 == bp /\
       V5.lb (V5.vc (V5.wm w')) !! V5.sym (V5.wm w) = Some b /\
       V5.lm (V5.vc (V5.wm w')) !! V5.sym (V5.wm w) = Some ((b + a) / 2)) /\
  (forall w,
     V6.mode (V6.wm w) = "simulation" -> vc_consistent (V6.vc (V6.wm w)) ->
     0 < default 1 (pr !! V6.symbol (V6.wm w)) ->
     exists bp b a w' g',
       V6.simulate_step send sine now pr n (w, g)
       = (Ret (<[V6.symbol (V6.wm w) := bp]> pr, S n), (w', g')) /\
       (1 - (4#100000)) * default 1 (pr !! V6.symbol (V6.wm w)) <= bp /\
       bp < (1 + (4#100000)) * default 1 (pr !! V6.symbol (V6.wm w)) /\
       0 < b /\ b < a /\ (b + a) / 2 == bp /\
       V6.last_bid (V6.vc (V6.wm w')) !! V6.symbol (V6.wm w) = Some b /\
       V6.last_mid (V6.vc (V6.wm w')) !! V6.symbol (V6.wm w) = Some ((b + a) / 2) /\
       vc_consistent (V6.vc (V6.wm w'))).
Proof.
  intros Hs Hr. split.
  - intros w Hmode Hp.
    destruct (V5_simulate_full send sine now pr n w g Hmode)
      as (mid & vol & pc & sd & vc1 & g1 & g' & Hcalc & Hrun).
    cbv zeta in Hrun, Hcalc.
    match type of Hcalc with V5.calc ?s ?b ?a (?v, ?g0) = _ =>
      destruct (V5_calc_spec s b a v g0) as (sd2 & g2 & Hspec & _) end.
    rewrite Hcalc in Hspec. inversion Hspec; subst vc1.
    destruct (simulated_price_bounds _ _ _ Hp Hs Hr) as (B1 & B2 & B3 & B4 & B5).
    eexists _, _, _, _, _. split; [exact Hrun|].
    cbn [V5.wm V5.vc V5.set_conns V5.set_vc V5.lb V5.lm].
    rewrite !lookup_insert_eq.
    split; [exact B1|]. split; [exact B2|]. split; [exact B3|]. split; [exact B4|].
    split; [exact B5|]. split; reflexivity.
  - intros w Hmode Hcons Hp.
    destruct (V6_simulate_full send sine now pr n w g Hmode Hcons)
      as (vol & pc & sd & vc1 & g1 & Hcalc & Hrun).
    cbv zeta in Hrun, Hcalc.
    match type of Hcalc with V6.calc ?s ?b ?a (?v, ?g0) = _ =>
      destruct (V6_calc_effect s b a v g0 Hcons) as (r & g2 & ini' & Heff & _);
      destruct (V6_calc_returns s b a v g0 Hcons) as (v3 & p3 & s3 & vc3 & g3 & Hret & _ & Hc3)
    end.
    rewrite Hcalc in Heff, Hret. inversion Hret; subst vc3. inversion Heff; subst vc1.
    destruct (simulated_price_bounds _ _ _ Hp Hs Hr) as (B1 & B2 & B3 & B4 & B5).
    eexists _, _, _, _, _. split; [exact Hrun|].
    cbn [V6.wm V6.vc V6.set_connections V6.set_vc V6.last_bid V6.last_mid].
    rewrite !lookup_insert_eq.
    split; [exact B1|]. split; [exact B2|]. split; [exact B3|]. split; [exact B4|].
    split; [exact B5|]. split; [reflexivity|]. split; [reflexivity|exact Hc3].
Qed.

Lemma simulated_quote_invariant_witness :
  exists bp b a w' g',
    V5.simulate_step (fun _ _ => Ret tt) (fun _ => 1#2) 0 {["EURUSD" := 1085#1000]} 0
      (V5.mkWorld V5.WM_new [], mkRng (fun _ => 1#4) 0)
    = (Ret (<["EURUSD" := bp]> {["EURUSD" := 1085#1000]}, 1%nat), (w', g')) /\
    0 < b /\ b < a /\ (b + a) / 2 == bp.
Proof.
  destruct (proj1 (simulated_quote_invariant (fun _ _ => Ret tt) (fun _ => 1#2) 0
                     {["EURUSD" := 1085#1000]} 0 (mkRng (fun _ => 1#4) 0)
                     ltac:(cbn; lra) ltac:(cbn; lra))
              (V5.mkWorld V5.WM_new []))
    as (bp & b & a & w' & g' & Hrun & _ & _ & Hb & Hba & Hmid & _).
  - reflexivity.
  - vm_compute. reflexivity.
  - exists bp, b, a, w', g'. split; [exact Hrun|]. split; [exact Hb|].
    split; [exact Hba|exact Hmid].
Defined.

(** X13. In simulation mode a turn of the simulator broadcasts one tick of
    source "simulation" for the active symbol, stamped with the clock
    reading: each subscriber that does not fail receives it once and the
    others are unregistered. The turn leaves the mode, the symbol and the
    connector, with the live synthesizer it holds, as they were. *)
Theorem simulator_emits (send : handle -> Msg -> res unit) (sine : nat -> Q)
    (now : Z) (pr : gmap string Q) (n : nat) (g : Rng) :
  (forall w,
     V5.mode (V5.wm w) = "simulation" ->
     exists td r w' g',
       V5.simulate_step send sine now pr n (w, g) = (Ret r, (w', g')) /\
       V5.sent w' = V5.sent w ++ map (fun h => (h, TickMsg td))
                      (List.filter (delivers send (TickMsg td)) (V5.conns (V5.wm w))) /\
       V5.conns (V5.wm w')
       = List.filter (delivers send (TickMsg td)) (V5.conns (V5.wm w)) /\
       symbol td = V5.sym (V5.wm w) /\ source td = "simulation" /\ timestamp td = now /\
       (side td = "buy" \/ side td = "sell") /\
       V5.mt5 (V5.wm w') = V5.mt5 (V5.wm w) /\ V5.mode (V5.wm w') = "simulation" /\
       V5.sym (V5.wm w') = V5.sym (V5.wm w)) /\
  (forall w,
     V6.mode (V6.wm w) = "simulation" -> vc_consistent (V6.vc (V6.wm w)) ->
     exists td r w' g',
       V6.simulate_step send sine now pr n (w, g) = (Ret r, (w', g')) /\
       V6.sent w' = V6.sent w ++ map (fun h => (h, TickMsg td))
                      (List.filter (delivers send (TickMsg td)) (V6.connections (V6.wm w))) /\
       V6.connections (V6.wm w')
       = List.filter (delivers send (TickMsg td)) (V6.connections (V6.wm w)) /\
       symbol td = V6.symbol (V6.wm w) /\ source td = "simulation" /\ timestamp td = now /\
       (side td = "buy" \/ side td = "sell") /\
       V6.mt5 (V6.wm w') = V6.mt5 (V6.wm w) /\ V6.mode (V6.wm w') = "simulation" /\
       V6.symbol (V6.wm w') = V6.symbol (V6.wm w)).
Proof.
  split.
  - intros w Hmode.
    destruct (V5_simulate_full send sine now pr n w g Hmode)
      as (mid & vol & pc & sd & vc1 & g1 & g' & Hcalc & Hrun).
    cbv zeta in Hrun, Hcalc.
    match type of Hcalc with V5.calc ?s ?b ?a (?v, ?g0) = _ =>
      destruct (V5_calc_spec s b a v g0) as (sd2 & g2 & Hspec & _ & _ & _ & Hside) end.
    rewrite Hcalc in Hspec. inversion Hspec; subst sd2.
    eexists _, _, _, _. split; [exact Hrun|].
    cbn [V5.wm V5.sent V5.conns V5.mt5 V5.mode V5.sym V5.set_conns V5.set_vc
         symbol source timestamp side V5.mk_tick].
    repeat split; try assumption.
  - intros w Hmode Hcons.
    destruct (V6_simulate_full send sine now pr n w g Hmode Hcons)
      as (vol & pc & sd & vc1 & g1 & Hcalc & Hrun).
    cbv zeta in Hrun, Hcalc.
    match type of Hcalc with V6.calc ?s ?b ?a (?v, ?g0) = _ =>
      destruct (V6_calc_returns s b a v g0 Hcons)
        as (v3 & p3 & s3 & vc3 & g3 & Hret & Hside & _) end.
    rewrite Hcalc in Hret. inversion Hret; subst s3.
    eexists _, _, _, _. split; [exact Hrun|].
    cbn [V6.wm V6.sent V6.connections V6.mt5 V6.mode V6.symbol V6.set_connections
         V6.set_vc symbol source timestamp side V6.mk_tick].
    repeat split; try assumption.
Qed.

Lemma simulator_emits_witness :
  exists td r w' g',
    V6.simulate_step (fun h _ => if Nat.eqb h 2 then Raise TransportError else Ret tt)
      (fun _ => 0) 42 V6.initial_prices 0
      (V6.mkWorld (V6.mkWM [1%nat; 2%nat] V6.VC_init None None None "simulation" "BTCUSD") [],
       mkRng (fun _ => 1#2) 0)
    = (Ret r, (w', g')) /\
    map fst (V6.sent w') = [1%nat] /\ V6.connections (V6.wm w') = [1%nat] /\
    symbol td = "BTCUSD" /\ timestamp td = 42%Z.
Proof.
  destruct (proj2 (simulator_emits
              (fun h _ => if Nat.eqb h 2 then Raise TransportError else Ret tt)
              (fun _ => 0) 42 V6.initial_prices 0 (mkRng (fun _ => 1#2) 0))
              (V6.mkWorld (V6.mkWM [1%nat; 2%nat] V6.VC_init None None None
                             "simulation" "BTCUSD") []))
    as (td & r & w' & g' & Hrun & Hsent & Hconns & Hsym & _ & Hts & _).
  - reflexivity.
  - apply vc_consistent_init.
  - exists td, r, w', g'. split; [exact Hrun|].
    split; [rewrite Hsent; reflexivity|].
    split; [rewrite Hconns; reflexivity|]. split; [exact Hsym|exact Hts].
Defined.

(** ** History conversion, further *)

Lemma usable5_stamps_Forall (P : Z -> Prop) (raw : list RawTick) :
  Forall P (stamps5 raw) -> Forall P (map snd (omap usable5 raw)).
Proof.
  unfold stamps5. induction raw as [|t raw IH]; cbn; [constructor|].
  unfold usable5 at 1. destruct (V5.read_record t) as [[[b a] ts]|]; cbn; [|exact IH].
  intros H. inversion H; subst.
  destruct (Qle_bool b 0 || Qle_bool a 0); cbn; [now apply IH|].
  constructor; [assumption|now apply IH].
Qed.

Lemma usable5_stamps_sorted (raw : list RawTick) :
  StronglySorted Z.le (stamps5 raw) -> StronglySorted Z.le (map snd (omap usable5 raw)).
Proof.
  induction raw as [|t raw IH]; [constructor|].
  unfold stamps5 in *. cbn. unfold usable5 at 1.
  destruct (V5.read_record t) as [[[b a] ts]|]; cbn; [|exact IH].
  intros H. inversion H; subst.
  destruct (Qle_bool b 0 || Qle_bool a 0); cbn; [now apply IH|].
  constructor; [now apply IH|]. now apply usable5_stamps_Forall.
Qed.

Lemma usable6_stamps_Forall (P : Z -> Prop) (raw : list RawTick) :
  Forall P (stamps6 raw) -> Forall P (map snd (omap usable6 raw)).
Proof.
  unfold stamps6. induction raw as [|t raw IH]; cbn; [constructor|].
  unfold usable6 at 1. destruct (V6.read_record t) as [[[b a] ts]|]; cbn; [|exact IH].
  intros H. inversion H; subst.
  destruct (Qlt_bool 0 b && Qlt_bool 0 a); cbn; [|now apply IH].
  constructor; [assumption|now apply IH].
Qed.

Lemma usable6_stamps_sorted (raw : list RawTick) :
  StronglySorted Z.le (stamps6 raw) -> StronglySorted Z.le (map snd (omap usable6 raw)).
Proof.
  induction raw as [|t raw IH]; [constructor|].
  unfold stamps6 in *. cbn. unfold usable6 at 1.
  destruct (V6.read_record t) as [[[b a] ts]|]; cbn; [|exact IH].
  intros H. inversion H; subst.
  destruct (Qlt_bool 0 b && Qlt_bool 0 a); cbn; [|now apply IH].
  constructor; [now apply IH|]. now apply usable6_stamps_Forall.
Qed.

Lemma map_snd_shown (d : nat) (l : list (Q * Q * Z)) :
  map snd (map (shown d) l) = map snd l.
Proof.
  induction l as [|[[b a] ts] l IH]; cbn; [reflexivity|]. now rewrite IH.
Qed.

(** The result of [get_history], tick by tick, against the usable records. *)
Lemma V5_history_shown (env : V5.HistEnv) (sym0 : string) (hours w : Q)
    (c : V5.MT5C) (g : Rng) :
  window_start (V5.utc_now env) hours = Ret w ->
  exists result g',
    V5.get_history env sym0 hours (c, g) = (Ret result, (c, g')) /\
    map (fun td => (bid td, ask td, timestamp td)) result
    = map (shown (V5.dig (V5.gcfg sym0))) (omap usable5 (batch5 env c)) /\
    Forall (fun td => symbol td = sym0 /\ source td = "mt5_history") result.
Proof.
  intros Hw.
  destruct (V5_get_history_spec env sym0 hours w c g Hw)
    as (result & vc' & g' & Hrun & Hrep).
  destruct (V5_replay_spec sym0 (batch5 env c) [] V5.VC_init g)
    as (out & vc2 & g2 & Hrep2 & Hmap & Hall).
  rewrite Hrep in Hrep2. cbn [app] in Hrep2. inversion Hrep2; subst.
  exists out, g2. split; [exact Hrun|]. split; [exact Hmap|exact Hall].
Qed.

Lemma V6_history_shown (env : V6.HistEnv) (sym0 : string) (hours w : Q)
    (c : V6.MT5Connector) (g : Rng) :
  window_start (V6.utc_now env) hours = Ret w ->
  exists result g',
    V6.get_history env sym0 hours (c, g) = (Ret result, (c, g')) /\
    map (fun h => (V6.h_bid h, V6.h_ask h, V6.h_timestamp h)) result
    = map (shown (V6.dig (V6.gcfg sym0))) (omap usable6 (batch6 env c)) /\
    Forall (fun h => V6.h_symbol h = sym0 /\ V6.h_source h = "mt5_history") result.
Proof.
  intros Hw.
  destruct (V6_get_history_spec env sym0 hours w c g Hw)
    as (result & vc' & g' & Hrun & Hrep).
  destruct (V6_replay_spec sym0 (batch6 env c) [] V6.VC_init g vc_consistent_init)
    as (out & vc2 & g2 & Hrep2 & Hmap & Hall).
  rewrite Hrep in Hrep2. cbn [app] in Hrep2. inversion Hrep2; subst.
  exists out, g2. split; [exact Hrun|]. split; [exact Hmap|exact Hall].
Qed.

(** X14. When the readable records of the fetched batch come in
    non-decreasing time, so do the ticks [get_history] returns, the window
    once computed; every tick carries the symbol asked for and the source
    "mt5_history". *)
Theorem history_timestamps_sorted (sym0 : string) (hours : Q) (g : Rng) :
  (forall env w c,
     window_start (V5.utc_now env) hours = Ret w ->
     StronglySorted Z.le (stamps5 (batch5 env c)) ->
     exists result st,
       V5.get_history env sym0 hours (c, g) = (Ret result, st) /\
       StronglySorted Z.le (map timestamp result) /\
       Forall (fun td => symbol td = sym0 /\ source td = "mt5_history") result) /\
  (forall env w c,
     window_start (V6.utc_now env) hours = Ret w ->
     StronglySorted Z.le (stamps6 (batch6 env c)) ->
     exists result st,
       V6.get_history env sym0 hours (c, g) = (Ret result, st) /\
       StronglySorted Z.le (map V6.h_timestamp result) /\
       Forall (fun h => V6.h_symbol h = sym0 /\ V6.h_source h = "mt5_history") result).
Proof.
  split.
  - intros env w c Hw Hs.
    destruct (V5_history_shown env sym0 hours w c g Hw)
      as (result & g' & Hrun & Hmap & Hall).
    exists result. eexists. split; [exact Hrun|]. split; [|exact Hall].
    assert (E : map timestamp result
                = map snd (map (fun td => (bid td, ask td, timestamp td)) result))
      by (rewrite map_map; reflexivity).
    rewrite E, Hmap, map_snd_shown. now apply usable5_stamps_sorted.
  - intros env w c Hw Hs.
    destruct (V6_history_shown env sym0 hours w c g Hw)
      as (result & g' & Hrun & Hmap & Hall).
    exists result. eexists. split; [exact Hrun|]. split; [|exact Hall].
    assert (E : map V6.h_timestamp result
                = map snd (map (fun h => (V6.h_bid h, V6.h_ask h, V6.h_timestamp h)) result))
      by (rewrite map_map; reflexivity).
    rewrite E, Hmap, map_snd_shown. now apply usable6_stamps_sorted.
Qed.

Lemma history_timestamps_sorted_witness :
  exists result st,
    V5.get_history
      (V5.mkHistEnv true true (Ret None)
         (Ret (Some [raw_tick 1 2 100 100500;
                     mkRaw None None None None (Some 101%Z) (Some 0) (Some 2);
                     mkRaw None None None None (Some 102%Z) (Some 1) (Some 2)]))
         1793664000)
      "EURUSD" 1 (V5.mkMT5C true V5.VC_init true 0, mkRng (fun _ => 1#2) 0)
    = (Ret result, st) /\
    StronglySorted Z.le (map timestamp result).
Proof.
  destruct (proj1 (history_timestamps_sorted "EURUSD" 1 (mkRng (fun _ => 1#2) 0))
              (V5.mkHistEnv true true (Ret None)
                 (Ret (Some [raw_tick 1 2 100 100500;
                             mkRaw None None None None (Some 101%Z) (Some 0) (Some 2);
                             mkRaw None None None None (Some 102%Z) (Some 1) (Some 2)]))
                 1793664000)
              (1793664000 - 1 * 3600)
              (V5.mkMT5C true V5.VC_init true 0))
    as (result & st & Hrun & Hs & _).
  - vm_compute. reflexivity.
  - vm_compute. repeat constructor; discriminate.
  - exists result, st. split; [exact Hrun|exact Hs].
Defined.

(** ** The two versions side by side *)

Lemma SYM_CFG_agree :
  V5.SYM_CFG = (fun p => V5.mkProfile (V6.mult p) (V6.bv p) (V6.dig p)) <$> V6.SYM_CFG.
Proof. vm_compute. reflexivity. Qed.

Lemma gcfg_agree (s : string) :
  V5.mult (V5.gcfg s) = V6.mult (V6.gcfg s) /\
  V5.bv (V5.gcfg s) = V6.bv (V6.gcfg s) /\
  V5.dig (V5.gcfg s) = V6.dig (V6.gcfg s).
Proof.
  unfold V5.gcfg, V6.gcfg. rewrite SYM_CFG_agree, lookup_fmap.
  destruct (V6.SYM_CFG !! upper s); cbn; repeat split.
Qed.

Lemma usable_agree (t : RawTick) : name_readable t -> usable5 t = usable6 t.
Proof.
  intros ([b Hb] & [a Ha] & [ts Ht]). unfold usable5, usable6, V5.read_record, V6.read_record.
  rewrite Hb, Ha, Ht. unfold Qlt_bool.
  destruct (Qle_bool b 0), (Qle_bool a 0); reflexivity.
Qed.

Lemma omap_usable_agree (raw : list RawTick) :
  Forall name_readable raw -> omap usable5 raw = omap usable6 raw.
Proof.
  induction 1 as [|t raw Ht _ IH]; cbn; [reflexivity|].
  now rewrite (usable_agree t Ht), IH.
Qed.

(** X15. The two versions keep the same profile figures: for every symbol,
    known or not and in any letter case, [gcfg] gives the same multiplier,
    base volume and number of digits in v5.1 and in v6.1; v6.1 only adds
    the base price. *)
Theorem profiles_agree (s : string) :
  V5.mult (V5.gcfg s) = V6.mult (V6.gcfg s) /\
  V5.bv (V5.gcfg s) = V6.bv (V6.gcfg s) /\
  V5.dig (V5.gcfg s) = V6.dig (V6.gcfg s) /\
  (V5.SYM_CFG !! upper s = None <-> V6.SYM_CFG !! upper s = None) /\
  5 <= V5.bv (V5.gcfg s) /\ 1 <= V5.mult (V5.gcfg s).
Proof.
  destruct (gcfg_agree s) as (H1 & H2 & H3).
  split; [exact H1|]. split; [exact H2|]. split; [exact H3|]. split.
  - rewrite SYM_CFG_agree, lookup_fmap. destruct (V6.SYM_CFG !! upper s); cbn; split; congruence.
  - split; [apply V5_bv_pos|apply V5_mult_pos].
Qed.

(** X16. On one fetched batch whose records can all be read by name, the
    two versions of [get_history], the window once computed, return ticks
    with the same bids, asks and timestamps, in the same order. A record
    that can be read by position only, with positive bid and ask, is kept
    by v5.1, with its time in seconds turned into milliseconds, and skipped
    by v6.1. *)
Theorem history_versions_agree (sym0 : string) (hours : Q) (g5 g6 : Rng) :
  (forall env5 env6 w5 w6 c5 c6,
     window_start (V5.utc_now env5) hours = Ret w5 ->
     window_start (V6.utc_now env6) hours = Ret w6 ->
     batch5 env5 c5 = batch6 env6 c6 ->
     Forall name_readable (batch5 env5 c5) ->
     exists r5 st5 r6 st6,
       V5.get_history env5 sym0 hours (c5, g5) = (Ret r5, st5) /\
       V6.get_history env6 sym0 hours (c6, g6) = (Ret r6, st6) /\
       map (fun td => (bid td, ask td, timestamp td)) r5
       = map (fun h => (V6.h_bid h, V6.h_ask h, V6.h_timestamp h)) r6) /\
  (forall b a ts,
     0 < b -> 0 < a ->
     usable5 (mkRaw None None None None (Some ts) (Some b) (Some a))
     = Some (b, a, (ts * 1000)%Z) /\
     usable6 (mkRaw None None None None (Some ts) (Some b) (Some a)) = None).
Proof.
  split.
  - intros env5 env6 w5 w6 c5 c6 Hw5 Hw6 Hb Hn.
    destruct (V5_history_shown env5 sym0 hours w5 c5 g5 Hw5)
      as (r5 & g5' & Hrun5 & Hmap5 & _).
    destruct (V6_history_shown env6 sym0 hours w6 c6 g6 Hw6)
      as (r6 & g6' & Hrun6 & Hmap6 & _).
    exists r5. eexists. exists r6. eexists.
    split; [exact Hrun5|]. split; [exact Hrun6|].
    rewrite Hmap5, Hmap6, <- Hb, (omap_usable_agree _ Hn).
    destruct (gcfg_agree sym0) as (_ & _ & ->). reflexivity.
  - intros b a ts Hb Ha. unfold usable5, usable6. cbn.
    assert (Hg : Qle_bool b 0 || Qle_bool a 0 = false).
    { apply Bool.orb_false_iff. split.
      - destruct (Qle_bool b 0) eqn:E; [apply Qle_bool_iff in E; lra|reflexivity].
      - destruct (Qle_bool a 0) eqn:E; [apply Qle_bool_iff in E; lra|reflexivity]. }
    now rewrite Hg.
Qed.

Lemma history_versions_agree_witness :
  exists r5 st5 r6 st6,
    V5.get_history
      (V5.mkHistEnv true true (Ret (Some [raw_tick 1 2 100 100500; raw_tick 0 2 101 101500]))
                    (Ret None) 1793664000)
      "USDJPY" 24 (V5.mkMT5C true V5.VC_init true 0, mkRng (fun _ => 1#2) 0)
    = (Ret r5, st5) /\
    V6.get_history
      (V6.mkHistEnv true true (Ret (Some [raw_tick 1 2 100 100500; raw_tick 0 2 101 101500]))
                    (Ret None) 1793664000)
      "USDJPY" 24 (V6.set_connected true V6.MT5Connector_new, mkRng (fun _ => 1#4) 0)
    = (Ret r6, st6) /\
    map (fun td => (bid td, ask td, timestamp td)) r5
    = map (fun h => (V6.h_bid h, V6.h_ask h, V6.h_timestamp h)) r6.
Proof.
  apply (proj1 (history_versions_agree "USDJPY" 24 (mkRng (fun _ => 1#2) 0)
                  (mkRng (fun _ => 1#4) 0))
           _ _ (1793664000 - 24 * 3600) (1793664000 - 24 * 3600)).
  - vm_compute. reflexivity.
  - vm_compute. reflexivity.
  - reflexivity.
  - repeat constructor; cbn; eexists; reflexivity.
Defined.

(** ** The registry, operations composed *)

Lemma filter_idem {A : Type} (f : A -> bool) (l : list A) :
  List.filter f (List.filter f l) = List.filter f l.
Proof.
  induction l as [|x l IH]; cbn; [reflexivity|].
  destruct (f x) eqn:E; cbn; [rewrite E; now f_equal|exact IH].
Qed.

Lemma filter_NoDup {A : Type} (f : A -> bool) (l : list A) :
  List.NoDup l -> List.NoDup (List.filter f l).
Proof.
  induction 1 as [|x l Hx Hl IH]; cbn; [constructor|].
  destruct (f x); [|exact IH]. constructor; [|exact IH].
  intros Hin. apply List.filter_In in Hin. tauto.
Qed.

(** X17. Once a broadcast has unregistered the subscribers that failed, a
    second broadcast of the same message, the transport answering as before,
    reaches every subscriber left and unregisters none; a broadcast sends as
    many messages as it leaves subscribers, and it never introduces a
    repeated handle. *)
Theorem broadcast_settles (send : handle -> Msg -> res unit) (msg : Msg) :
  (forall w,
     exists w1 w2,
       V5.bcast send msg w = (Ret tt, w1) /\ V5.bcast send msg w1 = (Ret tt, w2) /\
       V5.conns (V5.wm w2) = V5.conns (V5.wm w1) /\
       V5.sent w2 = V5.sent w1 ++ map (fun h => (h, msg)) (V5.conns (V5.wm w1)) /\
       length (V5.sent w1) = (length (V5.sent w) + length (V5.conns (V5.wm w1)))%nat /\
       (List.NoDup (V5.conns (V5.wm w)) -> List.NoDup (V5.conns (V5.wm w1)))) /\
  (forall w,
     exists w1 w2,
       V6.broadcast send msg w = (Ret tt, w1) /\ V6.broadcast send msg w1 = (Ret tt, w2) /\
       V6.connections (V6.wm w2) = V6.connections (V6.wm w1) /\
       V6.sent w2 = V6.sent w1 ++ map (fun h => (h, msg)) (V6.connections (V6.wm w1)) /\
       length (V6.sent w1)
       = (length (V6.sent w) + length (V6.connections (V6.wm w1)))%nat /\
       (List.NoDup (V6.connections (V6.wm w)) -> List.NoDup (V6.connections (V6.wm w1)))).
Proof.
  split; intros w.
  - eexists _, _. split; [apply V5_bcast_spec|]. split; [apply V5_bcast_spec|].
    cbn. rewrite !filter_idem. split; [reflexivity|]. split; [reflexivity|].
    split; [now rewrite length_app, length_map|apply filter_NoDup].
  - eexists _, _. split; [apply V6_bcast_spec|]. split; [apply V6_bcast_spec|].
    cbn. rewrite !filter_idem. split; [reflexivity|]. split; [reflexivity|].
    split; [now rewrite length_app, length_map|apply filter_NoDup].
Qed.

Lemma broadcast_settles_witness :
  exists w1,
    V5.bcast (fun h _ => if Nat.eqb h 2 then Raise TransportError else Ret tt)
      (ConnectedMsg "simulation" "EURUSD" false false)
      (V5.set_conns [1%nat; 2%nat; 3%nat] (V5.mkWorld V5.WM_new []))
    = (Ret tt, w1) /\
    V5.conns (V5.wm w1) = [1%nat; 3%nat] /\ List.NoDup (V5.conns (V5.wm w1)).
Proof.
  destruct (proj1 (broadcast_settles
              (fun h _ => if Nat.eqb h 2 then Raise TransportError else Ret tt)
              (ConnectedMsg "simulation" "EURUSD" false false))
              (V5.set_conns [1%nat; 2%nat; 3%nat] (V5.mkWorld V5.WM_new [])))
    as (w1 & w2 & H1 & _ & _ & _ & _ & Hnd).
  exists w1. split; [exact H1|]. split.
  - vm_compute in H1. now inversion H1.
  - apply Hnd. cbn. repeat constructor; cbn; lia.
Defined.

Lemma drop_app_fresh (ws : handle) (l : list handle) :
  ~ In ws l -> drop (l ++ [ws]) ws = l.
Proof.
  intros H. unfold drop.
  assert (Hc : contains ws (l ++ [ws]) = true)
    by (apply contains_In, in_or_app; right; now left).
  rewrite Hc, remove_first_app by exact H. apply app_nil_r.
Qed.

(** X18. Subscribing a handle that is not registered and then unsubscribing
    it gives back the list of connections as it was. In v6.1 subscribing
    first sends to the new subscriber an acknowledgment with the current
    mode and symbol and whether a connector is connected; when that send
    fails the call raises with the handle left registered, and the next
    broadcast that fails for it takes it out again. *)
Theorem subscribe_round_trip (ws : handle) :
  (forall accept (w : V5.World),
     accept ws = Ret tt -> ~ In ws (V5.conns (V5.wm w)) ->
     exists w1, V5.conn accept ws w = (Ret tt, w1) /\ V5.disc ws w1 = w) /\
  (forall accept send available (w : V6.World),
     accept ws = Ret tt -> ~ In ws (V6.connections (V6.wm w)) ->
     let ack := ConnectedMsg (V6.mode (V6.wm w)) (V6.symbol (V6.wm w)) available
                             (V6.mt5_connected (V6.wm w)) in
     (send ws ack = Ret tt ->
      exists w1,
        V6.connect accept send available ws w = (Ret tt, w1) /\
        V6.sent w1 = V6.sent w ++ [(ws, ack)] /\
        V6.disconnect ws w1 = V6.mkWorld (V6.wm w) (V6.sent w1)) /\
     (forall e msg,
        send ws ack = Raise e -> delivers send msg ws = false ->
        Forall (fun h => delivers send msg h = true) (V6.connections (V6.wm w)) ->
        exists w1 w2,
          V6.connect accept send available ws w = (Raise e, w1) /\
          V6.connections (V6.wm w1) = V6.connections (V6.wm w) ++ [ws] /\
          V6.sent w1 = V6.sent w /\
          V6.broadcast send msg w1 = (Ret tt, w2) /\
          V6.connections (V6.wm w2) = V6.connections (V6.wm w))).
Proof.
  split.
  - intros accept w Ha Hin. unfold V5.conn, bind, call, modify. rewrite Ha.
    eexists. split; [reflexivity|].
    unfold V5.disc. cbn [V5.wm V5.set_conns V5.conns].
    assert (Hc : contains ws (V5.conns (V5.wm w) ++ [ws]) = true)
      by (apply contains_In, in_or_app; right; now left).
    rewrite Hc, remove_first_app by exact Hin. rewrite app_nil_r.
    now destruct w as [[] ?].
  - intros accept send available w Ha Hin ack. split.
    + intros Hs. subst ack. unfold V6.mt5_connected in *.
      unfold V6.connect, bind, call, modify, get, V6.send_json, V6.mt5_connected.
      rewrite Ha. cbn [V6.wm V6.set_connections V6.mode V6.symbol V6.mt5].
      rewrite Hs.
      eexists. split; [reflexivity|]. split; [reflexivity|].
      unfold V6.disconnect. cbn [V6.wm V6.set_connections V6.connections V6.sent].
      assert (Hc : contains ws (V6.connections (V6.wm w) ++ [ws]) = true)
        by (apply contains_In, in_or_app; right; now left).
      rewrite Hc, remove_first_app by exact Hin. rewrite app_nil_r.
      now destruct w as [[] ?].
    + intros e msg Hs Hfail Hall. subst ack. unfold V6.mt5_connected in *.
      unfold V6.connect, bind, call, modify, get, V6.send_json, V6.mt5_connected.
      rewrite Ha. cbn [V6.wm V6.set_connections V6.mode V6.symbol V6.mt5].
      rewrite Hs.
      eexists _, _. split; [reflexivity|]. split; [reflexivity|]. split; [reflexivity|].
      split; [apply V6_bcast_spec|].
      cbn [V6.wm V6.set_connections V6.connections].
      rewrite List.filter_app. cbn [List.filter]. rewrite Hfail, app_nil_r.
      clear -Hall. induction Hall as [|h l Hh _ IH]; cbn; [reflexivity|].
      now rewrite Hh, IH.
Qed.

Lemma subscribe_round_trip_witness :
  exists w1,
    V5.conn (fun _ => Ret tt) 9%nat (V5.set_conns [4%nat] (V5.mkWorld V5.WM_new []))
    = (Ret tt, w1) /\
    V5.disc 9%nat w1 = V5.set_conns [4%nat] (V5.mkWorld V5.WM_new []).
Proof.
  apply (proj1 (subscribe_round_trip 9%nat) (fun _ => Ret tt)).
  - reflexivity.
  - cbn. lia.
Defined.

(** ** The websocket endpoint and the routes *)

Lemma V5_switch_returns (env : V5.InitEnv) (s : string) (m : V5.WM) :
  exists r m', V5.switch_sym env s m = (Ret r, m').
Proof.
  unfold V5.switch_sym, bind, modify, get, ret. cbn [V5.mode].
  destruct (String.eqb (V5.mode m) "mt5"); [|eauto].
  match goal with |- context [V5.start_mt5 env ?s0 ?m0] =>
    destruct (V5_start_spec env s0 m0) as (m' & Hrun & _) end.
  rewrite Hrun. eauto.
Qed.

(** X19. A turn of v6.1's websocket loop raises in one case only: when
    the receive itself raises something other than a disconnect, which the
    endpoint does not catch; the exception then leaves the loop with the
    socket still registered, in v5.1 as well. Otherwise the v6.1 turn
    returns: a message that is no usable command, an unknown action and a
    ping change nothing, a ping being answered by a pong when the send
    succeeds; a switch command acts on the manager as the switch route
    does, on EURUSD when it names no symbol; a disconnect unregisters the
    socket and ends the loop. In v5.1 a message that is no usable command
    raises out of the loop too and leaves the socket registered, and a ping
    is ignored. *)
Theorem websocket_turn (env6 : V6.InitEnv) (env5 : V5.InitEnv) (pong : handle -> res unit)
    (ws : handle) :
  (forall incoming w,
     (forall e, incoming <> ReceiveFails e) ->
     exists r w', V6.ws_turn env6 pong ws incoming w = (Ret r, w')) /\
  (forall e w, V6.ws_turn env6 pong ws (ReceiveFails e) w = (Raise e, w)) /\
  (forall e w, V5.ws_turn env5 ws (ReceiveFails e) w = (Raise e, w)) /\
  (forall w, V6.ws_turn env6 pong ws Garbage w = (Ret (Continue false), w)) /\
  (forall w o,
     V6.ws_turn env6 pong ws (Command (Some "ping") o) w
     = (Ret (Continue (match pong ws with Ret _ => true | Raise _ => false end)), w)) /\
  (forall w a o,
     a <> "switch_symbol" -> a <> "ping" ->
     V6.ws_turn env6 pong ws (Command (Some a) o) w = (Ret (Continue false), w)) /\
  (forall w o,
     V6.ws_turn env6 pong ws (Command (Some "switch_symbol") o) w
     = (Ret (Continue false),
        V6.mkWorld (snd (V6.switch_symbol env6 (default "EURUSD" o) (V6.wm w))) (V6.sent w))) /\
  (forall w, V6.ws_turn env6 pong ws WsDisconnect w = (Ret Closed, V6.disconnect ws w)) /\
  (forall w, V5.ws_turn env5 ws Garbage w = (Raise ParseError, w)) /\
  (forall w o, V5.ws_turn env5 ws (Command (Some "ping") o) w = (Ret (Continue false), w)) /\
  (forall w o,
     V5.ws_turn env5 ws (Command (Some "switch_symbol") o) w
     = (Ret (Continue false),
        V5.mkWorld (snd (V5.switch_sym env5 (default "EURUSD" o) (V5.wm w))) (V5.sent w))) /\
  (forall w, V5.ws_turn env5 ws WsDisconnect w = (Ret Closed, V5.disc ws w)).
Proof.
  assert (Hsw6 : forall o w,
    V6.ws_turn env6 pong ws (Command (Some "switch_symbol") o) w
    = (Ret (Continue false),
       V6.mkWorld (snd (V6.switch_symbol env6 (default "EURUSD" o) (V6.wm w))) (V6.sent w))).
  { intros o w. unfold V6.ws_turn. cbn [String.eqb Ascii.eqb Bool.eqb].
    unfold try_except, bind, zoom, ret.
    destruct (V6.switch_symbol env6 (default "EURUSD" o) (V6.wm w)) as [[r|e] m'];
      reflexivity. }
  assert (Hpi6 : forall o w,
    V6.ws_turn env6 pong ws (Command (Some "ping") o) w
    = (Ret (Continue (match pong ws with Ret _ => true | Raise _ => false end)), w)).
  { intros o w. unfold V6.ws_turn. cbn [String.eqb Ascii.eqb Bool.eqb].
    unfold try_except, bind, call, ret. destruct (pong ws); reflexivity. }
  assert (Hot6 : forall w a o,
     a <> "switch_symbol" -> a <> "ping" ->
     V6.ws_turn env6 pong ws (Command (Some a) o) w = (Ret (Continue false), w)).
  { intros w a o H1 H2. unfold V6.ws_turn.
    apply String.eqb_neq in H1, H2. rewrite H1, H2. reflexivity. }
  split; [|split; [|split; [|split; [|split; [|split; [|split; [|split; [|split;
    [|split; [|split]]]]]]]]]].
  - intros [|e| |[a|] o] w Hne; try (eexists _, _; reflexivity);
      [now contradiction (Hne e)|].
    destruct (String.eqb a "switch_symbol") eqn:E1.
    + apply String.eqb_eq in E1. subst a. rewrite Hsw6. eauto.
    + destruct (String.eqb a "ping") eqn:E2.
      * apply String.eqb_eq in E2. subst a. rewrite Hpi6. eauto.
      * apply String.eqb_neq in E1, E2. rewrite Hot6 by assumption. eauto.
  - reflexivity.
  - reflexivity.
  - reflexivity.
  - intros w o. apply Hpi6.
  - exact Hot6.
  - intros w o. apply Hsw6.
  - reflexivity.
  - reflexivity.
  - reflexivity.
  - intros w o. unfold V5.ws_turn. cbn [String.eqb Ascii.eqb Bool.eqb].
    unfold bind, zoom, ret.
    destruct (V5_switch_returns env5 (default "EURUSD" o) (V5.wm w)) as (r & m' & ->).
    reflexivity.
  - reflexivity.
Qed.

Lemma websocket_turn_witness :
  V6.ws_turn (V6.mkInitEnv false None (Ret false) (Ret false) (Ret false))
    (fun _ => Ret tt) 3%nat (Command (Some "subscribe") (Some "XAUUSD"))
    (V6.mkWorld V6.WM_new [])
  = (Ret (Continue false), V6.mkWorld V6.WM_new []).
Proof.
  apply (proj1 (proj2 (proj2 (proj2 (proj2 (proj2
           (websocket_turn (V6.mkInitEnv false None (Ret false) (Ret false) (Ret false))
              (V5.mkInitEnv false (Ret false) (Ret false)) (fun _ => Ret tt) 3%nat)))))));
    discriminate.
Defined.

Lemma route_hours_bounds (hours : Q) :
  route_hours hours -> Qlt_bool hours (1#10) || Qlt_bool 24 hours = false.
Proof.
  intros [H1 H2]. apply Bool.orb_false_iff. split; now apply Qlt_bool_false.
Qed.

(** X20. The history route, with the clock in range, never raises and
    never changes the manager. Hours outside the declared bounds are
    rejected before the handler runs. Within them, without a connected
    connector it answers the error reply, with no ticks and count 0, and
    takes no draw; with one it converts under the upper-case form of the
    symbol, and answers that symbol, the hours, the ticks, each carrying
    the symbol, and their number. *)
Theorem history_route (env5 : V5.HistEnv) (env6 : V6.HistEnv) (s : string) (hours : Q)
    (g : Rng) :
  (forall m,
     route_hours hours ->
     match V5.mt5 m with Some c => V5.connected c = false | None => True end ->
     V5.route_get_history env5 s hours (m, g)
     = (Ret (V5.HistError "MT5 não conectado" [] 0), (m, g))) /\
  (forall m c,
     route_hours hours -> clock_in_range (V5.utc_now env5) ->
     V5.mt5 m = Some c -> V5.connected c = true ->
     exists ticks g',
       V5.route_get_history env5 s hours (m, g)
       = (Ret (V5.HistOk (upper s) hours (length ticks) ticks), (m, g')) /\
       fst (V5.get_history env5 (upper s) hours (c, g)) = Ret ticks /\
       Forall (fun td => symbol td = upper s) ticks) /\
  (forall m,
     route_hours hours ->
     match V6.mt5 m with Some c => V6.connected c = false | None => True end ->
     V6.route_get_history env6 s hours (m, g)
     = (Ret (V6.HistError "MT5 não conectado" [] 0), (m, g))) /\
  (forall m c,
     route_hours hours -> clock_in_range (V6.utc_now env6) ->
     V6.mt5 m = Some c -> V6.connected c = true ->
     exists ticks g',
       V6.route_get_history env6 s hours (m, g)
       = (Ret (V6.HistOk (upper s) hours (length ticks) ticks), (m, g')) /\
       fst (V6.get_history env6 (upper s) hours (c, g)) = Ret ticks /\
       Forall (fun h => V6.h_symbol h = upper s) ticks) /\
  (forall m5 m6,
     hours < 1#10 \/ 24 < hours ->
     V5.route_get_history env5 s hours (m5, g) = (Ret V5.HistRejected, (m5, g)) /\
     V6.route_get_history env6 s hours (m6, g) = (Ret V6.HistRejected, (m6, g))).
Proof.
  split; [|split; [|split; [|split]]].
  - intros m Hh H. unfold V5.route_get_history. rewrite (route_hours_bounds _ Hh).
    unfold bind, gets, ret. cbn [fst].
    destruct (V5.mt5 m) as [c|]; [now rewrite H|reflexivity].
  - intros m c Hh Hk Hm Hc.
    destruct (V5_history_shown env5 (upper s) hours _ c g (window_start_route _ _ Hh Hk))
      as (ticks & g' & Hrun & _ & Hall).
    exists ticks, g'. split; [|split].
    + unfold V5.route_get_history. rewrite (route_hours_bounds _ Hh).
      unfold bind, gets, ret, zoom. cbn [fst snd].
      rewrite Hm, Hc. cbn [fst snd]. rewrite Hrun. cbn [fst snd].
      destruct m as [cs v st t o md sy]. cbn in Hm. subst o. reflexivity.
    + now rewrite Hrun.
    + eapply Forall_impl; [exact Hall|]. now intros td [H _].
  - intros m Hh H. unfold V6.route_get_history. rewrite (route_hours_bounds _ Hh).
    unfold bind, gets, ret. cbn [fst].
    destruct (V6.mt5 m) as [c|]; [now rewrite H|reflexivity].
  - intros m c Hh Hk Hm Hc.
    destruct (V6_history_shown env6 (upper s) hours _ c g (window_start_route _ _ Hh Hk))
      as (ticks & g' & Hrun & _ & Hall).
    exists ticks, g'. split; [|split].
    + unfold V6.route_get_history. rewrite (route_hours_bounds _ Hh).
      unfold bind, gets, ret, zoom. cbn [fst snd].
      rewrite Hm, Hc. cbn [fst snd]. rewrite Hrun. cbn [fst snd].
      destruct m as [cs v st t o md sy]. cbn in Hm. subst o. reflexivity.
    + now rewrite Hrun.
    + eapply Forall_impl; [exact Hall|]. now intros h [H _].
  - intros m5 m6 Hout.
    assert (E : Qlt_bool hours (1#10) || Qlt_bool 24 hours = true).
    { apply Bool.orb_true_iff. destruct Hout as [H|H]; [left|right]; now apply Qlt_bool_iff. }
    unfold V5.route_get_history, V6.route_get_history. rewrite E. split; reflexivity.
Qed.

(** One hour of history asked of a connected manager on 3 November 2026,
    the terminal holding no tick. *)
Lemma history_route_witness :
  exists ticks g',
    V6.route_get_history (V6.mkHistEnv true true (Ret None) (Ret None) 1793664000)
      "eurusd" 1
      (V6.mkWM [] V6.VC_init None None (Some (V6.set_connected true V6.MT5Connector_new))
               "mt5" "EURUSD",
       mkRng (fun _ => 1#2) 0)
    = (Ret (V6.HistOk "EURUSD" 1 (length ticks) ticks),
       (V6.mkWM [] V6.VC_init None None (Some (V6.set_connected true V6.MT5Connector_new))
                "mt5" "EURUSD", g')).
Proof.
  destruct (proj1 (proj2 (proj2 (proj2
              (history_route (V5.mkHistEnv true true (Ret None) (Ret None) 1793664000)
                 (V6.mkHistEnv true true (Ret None) (Ret None) 1793664000) "eurusd" 1
                 (mkRng (fun _ => 1#2) 0)))))
              (V6.mkWM [] V6.VC_init None None
                       (Some (V6.set_connected true V6.MT5Connector_new)) "mt5" "EURUSD")
              (V6.set_connected true V6.MT5Connector_new))
    as (ticks & g' & Hrun & _).
  - split; vm_compute; discriminate.
  - split; vm_compute; [discriminate|reflexivity].
  - reflexivity.
  - reflexivity.
  - exists ticks, g'. exact Hrun.
Defined.

Lemma append_cons (c : ascii) (p q : string) :
  String.append (String c p) q = String c (String.append p q).
Proof. reflexivity. Qed.

Lemma prefix_append (p h : string) :
  String.prefix p h = true <-> exists post, h = String.append p post.
Proof.
  revert h. induction p as [|c p IH]; intros h.
  - split; [intros _; now exists h|intros _; now destruct h].
  - destruct h as [|d h]; cbn [String.prefix].
    + split; [discriminate|]. intros [post H]. rewrite append_cons in H. discriminate.
    + destruct (ascii_dec c d) as [->|Hne].
      * rewrite IH. split; intros [post H]; exists post; rewrite append_cons in *;
          [now rewrite H|now inversion H].
      * split; [discriminate|]. intros [post H]. rewrite append_cons in H.
        inversion H. congruence.
Qed.

(** [occurs] is the substring test. *)
Lemma occurs_spec (needle hay : string) :
  occurs needle hay = true <->
  exists pre post, hay = String.append pre (String.append needle post).
Proof.
  induction hay as [|c hay IH]; cbn [occurs].
  - rewrite Bool.orb_false_r, prefix_append. split.
    + intros [post H]. now exists EmptyString, post.
    + intros (pre & post & H). destruct pre as [|d pre].
      * now exists post.
      * rewrite append_cons in H. discriminate.
  - rewrite Bool.orb_true_iff, prefix_append, IH. split.
    + intros [[post H]|(pre & post & H)].
      * now exists EmptyString, post.
      * exists (String c pre), post. rewrite append_cons. now rewrite H.
    + intros (pre & post & H). destruct pre as [|d pre].
      * left. now exists post.
      * right. exists pre, post. rewrite append_cons in H. now inversion H.
Qed.

Lemma In_firstn {A : Type} (n : nat) (x : A) (l : list A) : In x (firstn n l) -> In x l.
Proof.
  revert l. induction n as [|n IH]; intros [|y l]; cbn; try tauto.
  intros [H|H]; [now left|right; now apply IH].
Qed.

(** X21. The symbols routes never raise and bound their answer. v5.1
    lists at most 50 entries, each a symbol of the terminal whose
    upper-case name contains the upper-case filter, and none without the
    binding, without a connector, or with a connector that is not
    connected, which is how [start_mt5] leaves the manager when
    [initialize] has not answered true. v6.1 lists at most 100 entries when connected, and without
    a connection exactly the symbols of the profile table; both answer the
    empty list when the terminal's list raises or cannot be read. *)
Theorem symbols_routes (available : bool) (symbols_get : res (option (list SymbolInfo))) :
  (forall filter0 m,
     (length (V5.symbols available symbols_get filter0 m) <= 50)%nat /\
     forall n d g,
       In (n, d, g) (V5.symbols available symbols_get filter0 m) ->
       exists ss si pre post,
         symbols_get = Ret (Some ss) /\ In si ss /\
         (n, d, g) = (si_name si, si_description si, si_digits si) /\
         upper n = String.append pre (String.append (upper filter0) post)) /\
  (forall filter0 m,
     available = false \/ V5.mt5 m = None \/
     (exists c, V5.mt5 m = Some c /\ V5.connected c = false) ->
     V5.symbols available symbols_get filter0 m = []) /\
  (forall filter0 env s m,
     V5.MT5_AVAILABLE env = false \/ V5.initialize env <> Ret true ->
     V5.symbols available symbols_get filter0 (snd (V5.start_mt5 env s m)) = []) /\
  (forall m,
     available = true -> V6.mt5_connected m = true ->
     (length (V6.list_symbols available symbols_get m) <= 100)%nat /\
     ((forall ss, symbols_get <> Ret (Some ss)) ->
      V6.list_symbols available symbols_get m = [])) /\
  (forall m,
     available = false \/ V6.mt5_connected m = false ->
     length (V6.list_symbols available symbols_get m) = 8%nat /\
     forall k, In k (map fst (V6.list_symbols available symbols_get m)) <->
               is_Some (V6.SYM_CFG !! k)).
Proof.
  split; [|split; [|split; [|split]]].
  - intros filter0 m. unfold V5.symbols.
    destruct (negb available || _); [split; [cbn; lia|intros ? ? ? []]|].
    destruct symbols_get as [[ss|]|e]; try (split; [cbn; lia|intros ? ? ? []]).
    split; [apply firstn_le_length|].
    intros n d g Hin.
    apply In_firstn in Hin. apply in_map_iff in Hin as (si & E & Hin).
    apply List.filter_In in Hin as [Hin Hf].
    exists ss, si. inversion E; subst.
    destruct filter0 as [|c f].
    + exists EmptyString, (upper (si_name si)). repeat split; assumption.
    + apply occurs_spec in Hf as (pre & post & Hf).
      exists pre, post. repeat split; assumption.
  - intros filter0 m [->|[H|(c & H & Hc)]]; unfold V5.symbols; [reflexivity| |].
    + rewrite H. now destruct available.
    + rewrite H, Hc. now destruct available.
  - intros filter0 env s m Hf.
    destruct (start_mt5_effect_lemma5 s env m) as (c & m' & Hrun & Hm & _ & _ & Hc & _).
    rewrite Hrun. cbn [snd]. unfold V5.symbols. rewrite Hm, Hc.
    destruct Hf as [-> |Hf]; [now destruct available|].
    destruct (V5.initialize env) as [[|]|e]; [now contradiction Hf| |];
      rewrite andb_false_r; now destruct available.
  - intros m -> Hc. unfold V6.list_symbols. rewrite Hc. cbn [negb orb].
    destruct symbols_get as [[ss|]|e]; cbn [length].
    + split; [rewrite length_map; apply firstn_le_length|].
      intros H. exfalso. now apply (H ss).
    + split; [lia|reflexivity].
    + split; [lia|reflexivity].
  - intros m H. unfold V6.list_symbols.
    assert (E : negb available || negb (V6.mt5_connected m) = true)
      by (destruct H as [->| ->]; [reflexivity|now destruct available]).
    rewrite E. split; [reflexivity|]. intros k.
    rewrite map_map. cbn [fst].
    rewrite <- list_elem_of_In, <- elem_of_dom. unfold V6.SYM_CFG.
    rewrite dom_list_to_map_L, elem_of_list_to_set. reflexivity.
Qed.

(** After a start whose [initialize] answered false the manager holds a
    connector that is not connected: the route lists nothing. *)
Lemma symbols_routes_witness :
  V5.symbols true
    (Ret (Some [mkSymbolInfo "EURUSD" "Euro" 5 true; mkSymbolInfo "XAUUSD" "Gold" 2 true]))
    "usd" (snd (V5.start_mt5 (V5.mkInitEnv true (Ret false) (Ret true)) "EURUSD" V5.WM_new))
  = [].
Proof.
  apply (proj1 (proj2 (proj2 (symbols_routes true
           (Ret (Some [mkSymbolInfo "EURUSD" "Euro" 5 true;
                       mkSymbolInfo "XAUUSD" "Gold" 2 true])))))).
  right. discriminate.
Defined.

(** ** Finding the terminal *)

(** X22. [find_mt5_path] returns only a path that exists: the first
    candidate, in the order of the list, that exists once expanded, or whose
    folder holds a [terminal64.exe]; it returns nothing exactly when no
    candidate gives one. *)
Theorem find_mt5_path_sound (expandvars : string -> string) (path_exists : string -> bool)
    (dirname : string -> string) (join : string -> string -> string) (paths : list string) :
  let hit c :=
    path_exists (expandvars c)
    || (path_exists (dirname (expandvars c))
        && path_exists (join (dirname (expandvars c)) "terminal64.exe")) in
  (forall p,
     V6.find_mt5_path_in expandvars path_exists dirname join paths = Some p ->
     path_exists p = true /\
     exists before c after,
       paths = before ++ c :: after /\
       Forall (fun c' => hit c' = false) before /\ hit c = true /\
       (p = expandvars c \/ p = join (dirname (expandvars c)) "terminal64.exe")) /\
  (V6.find_mt5_path_in expandvars path_exists dirname join paths = None <->
   Forall (fun c => hit c = false) paths).
Proof.
  intros hit. subst hit. induction paths as [|c rest [IH1 IH2]]; cbn [V6.find_mt5_path_in].
  - split; [discriminate|]. split; constructor.
  - destruct (path_exists (expandvars c)) eqn:E1.
    + split.
      * intros p H. inversion H; subst. split; [exact E1|].
        exists [], c, rest. cbn. rewrite E1. repeat split; auto.
      * split; [discriminate|]. intros H. inversion H; subst.
        rewrite E1 in *. discriminate.
    + destruct (path_exists (dirname (expandvars c))) eqn:E2;
        [destruct (path_exists (join (dirname (expandvars c)) "terminal64.exe")) eqn:E3|].
      * split.
        -- intros p H. inversion H; subst. split; [exact E3|].
           exists [], c, rest. cbn. rewrite E1, E2, E3. repeat split; auto.
        -- split; [discriminate|]. intros H. inversion H; subst.
           rewrite E1, E2, E3 in *. discriminate.
      * split.
        -- intros p H. destruct (IH1 p H) as (Hp & before & c' & after & -> & Hb & Hc & Hor).
           split; [exact Hp|]. exists (c :: before), c', after.
           split; [reflexivity|]. split; [|tauto].
           constructor; [now rewrite E1, E2, E3|exact Hb].
        -- rewrite IH2. split; intros H.
           ++ constructor; [now rewrite E1, E2, E3|exact H].
           ++ now inversion H.
      * split.
        -- intros p H. destruct (IH1 p H) as (Hp & before & c' & after & -> & Hb & Hc & Hor).
           split; [exact Hp|]. exists (c :: before), c', after.
           split; [reflexivity|]. split; [|tauto].
           constructor; [now rewrite E1, E2|exact Hb].
        -- rewrite IH2. split; intros H.
           ++ constructor; [now rewrite E1, E2|exact H].
           ++ now inversion H.
Qed.

Lemma find_mt5_path_sound_witness :
  V6.find_mt5_path_in (fun p => p) (String.eqb "C:/MT5/terminal64.exe") (fun p => p)
    (fun a b => a) ["C:/Exness/terminal64.exe"; "C:/MT5/terminal64.exe"]
  = Some "C:/MT5/terminal64.exe" /\
  String.eqb "C:/MT5/terminal64.exe" "C:/MT5/terminal64.exe" = true.
Proof.
  split; [reflexivity|].
  apply (proj1 (find_mt5_path_sound (fun p => p)
                  (String.eqb "C:/MT5/terminal64.exe") (fun p => p) (fun a b => a)
                  ["C:/Exness/terminal64.exe"; "C:/MT5/terminal64.exe"])
           "C:/MT5/terminal64.exe").
  reflexivity.
Defined.

(** ** Live mode and the connector *)

Lemma V5_start_live (env : V5.InitEnv) (s : string) (m : V5.WM) :
  live_has_connector5 (snd (V5.start_mt5 env s m)).
Proof.
  unfold live_has_connector5, V5.start_mt5. rewrite V5_init_state. unfold connects5.
  destruct (V5.MT5_AVAILABLE env), (V5.initialize env) as [[|]|e],
           (V5.account_info env) as [a|e']; cbn; intros H; try discriminate;
    eexists; split; reflexivity.
Qed.

Lemma V6_start_live (env : V6.InitEnv) (s : string) (m : V6.WebSocketManager) :
  live_has_connector6 (snd (V6.start_mt5 env s m)).
Proof.
  unfold live_has_connector6, V6.start_mt5. rewrite V6_init_state. unfold connects6.
  destruct (V6.MT5_AVAILABLE env), (V6.initialize_with env) as [[|]|e],
           (V6.initialize_bare env) as [[|]|e2], (V6.account_info env) as [a|e'];
    cbn; intros H; try discriminate; eexists; split; reflexivity.
Qed.

Lemma V5_switch_live (env : V5.InitEnv) (s : string) (m : V5.WM) :
  live_has_connector5 m -> live_has_connector5 (snd (V5.switch_sym env s m)).
Proof.
  intros Hm. unfold V5.switch_sym, bind, modify, get, ret. cbn [V5.mode].
  destruct (String.eqb (V5.mode m) "mt5") eqn:E.
  - match goal with |- context [V5.start_mt5 env ?s0 ?m0] =>
      pose proof (V5_start_live env s0 m0) as Hl;
      destruct (V5.start_mt5 env s0 m0) as [[r|e] m'] end; exact Hl.
  - apply String.eqb_neq in E. cbn. intros H. contradiction.
Qed.

Lemma V6_switch_live (env : V6.InitEnv) (s : string) (m : V6.WebSocketManager) :
  live_has_connector6 m -> live_has_connector6 (snd (V6.switch_symbol env s m)).
Proof.
  intros Hm. unfold V6.switch_symbol, bind, modify, get, ret. cbn [V6.mode].
  destruct (String.eqb (V6.mode m) "mt5") eqn:E.
  - match goal with |- context [V6.start_mt5 env ?s0 ?m0] =>
      pose proof (V6_start_live env s0 m0) as Hl;
      destruct (V6.start_mt5 env s0 m0) as [[r|e] m'] end; exact Hl.
  - apply String.eqb_neq in E. cbn. intros H. contradiction.
Qed.

Lemma V6_reconnect_spec (env : V6.InitEnv) (m : V6.WebSocketManager) :
  exists m',
    V6.reconnect env m
    = (Ret (V6.mkReconnectReply (connects6 env)
              (if connects6 env then "mt5" else "simulation")), m') /\
    V6.mode m' = (if connects6 env then "mt5" else "simulation") /\
    V6.symbol m' = upper (V6.symbol m) /\
    V6.connections m' = V6.connections m /\ V6.vc m' = V6.vc m /\
    live_has_connector6 m'.
Proof.
  unfold V6.reconnect, bind, get, modify, ret.
  destruct (V6.mt5 m) as [c|] eqn:Em; cbn [fst snd].
  - pose proof (V6_start_live env (V6.symbol (V6.stop_mt5 m)) (V6.stop_mt5 m)) as Hl.
    destruct (start_mt5_effect_lemma6 (V6.symbol (V6.stop_mt5 m)) env (V6.stop_mt5 m))
      as (c' & m' & Hrun & _ & _ & _ & _ & _ & Hsym & Hcs & Hvc & _).
    destruct (V6_start_spec env (V6.symbol (V6.stop_mt5 m)) (V6.stop_mt5 m))
      as (m2 & Hrun2 & Hmode & _).
    rewrite Hrun in Hrun2. inversion Hrun2; subst m2.
    rewrite Hrun in *. cbn [snd] in Hl. eexists. split; [|split; [exact Hmode|]].
    + now rewrite Hmode.
    + rewrite Hsym, Hcs, Hvc. destruct m as [cs v st t o md sy].
      cbn in Em; subst o. repeat split; try reflexivity. exact Hl.
  - pose proof (V6_start_live env (V6.symbol m) m) as Hl.
    destruct (start_mt5_effect_lemma6 (V6.symbol m) env m)
      as (c' & m' & Hrun & _ & _ & _ & _ & _ & Hsym & Hcs & Hvc & _).
    destruct (V6_start_spec env (V6.symbol m) m) as (m2 & Hrun2 & Hmode & _).
    rewrite Hrun in Hrun2. inversion Hrun2; subst m2.
    rewrite Hrun in *. cbn [snd] in Hl. eexists. split; [|split; [exact Hmode|]].
    + now rewrite Hmode.
    + repeat split; try assumption.
Qed.

(** X23. [reconnect] always attempts the live connection, from either
    mode, on the active symbol: it answers the outcome of the attempt and
    the mode it leaves, without a symbol, "mt5" exactly when the attempt succeeds, and keeps
    the subscribers and the manager's synthesizer. The symbol switch, by
    contrast, never leaves a mode other than "mt5". *)
Theorem reconnect_effect (env : V6.InitEnv) (m : V6.WebSocketManager) :
  (exists m',
     V6.reconnect env m
     = (Ret (V6.mkReconnectReply (connects6 env)
               (if connects6 env then "mt5" else "simulation")), m') /\
     V6.mode m' = (if connects6 env then "mt5" else "simulation") /\
     V6.symbol m' = upper (V6.symbol m) /\
     V6.connections m' = V6.connections m /\ V6.vc m' = V6.vc m) /\
  (forall s,
     V6.mode m <> "mt5" ->
     V6.mode (snd (V6.switch_symbol env s m)) = V6.mode m).
Proof.
  split.
  - destruct (V6_reconnect_spec env m) as (m' & H1 & H2 & H3 & H4 & H5 & _).
    exists m'. repeat split; assumption.
  - intros s H. unfold V6.switch_symbol, bind, modify, get, ret. cbn [V6.mode].
    apply String.eqb_neq in H. now rewrite H.
Qed.

Lemma reconnect_effect_witness :
  V6.mode (snd (V6.switch_symbol (V6.mkInitEnv true None (Ret true) (Ret true) (Ret true))
                  "USTEC" V6.WM_new)) = "simulation".
Proof.
  apply (proj2 (reconnect_effect (V6.mkInitEnv true None (Ret true) (Ret true) (Ret true))
                  V6.WM_new) "USTEC").
  discriminate.
Defined.

(** X24. Every manager that [start_mt5], [stop_mt5], the symbol switch and
    [reconnect] can produce from the initial one keeps this: in mode "mt5"
    it holds a connector that is connected. *)
Theorem live_mode_has_connector :
  (forall m, wm_reachable5 m -> live_has_connector5 m) /\
  (forall m, wm_reachable6 m -> live_has_connector6 m).
Proof.
  split.
  - induction 1 as [|env s m r m' _ IH Hrun|m _ IH|env s m r m' _ IH Hrun].
    + intros H. discriminate.
    + pose proof (V5_start_live env s m) as Hl. now rewrite Hrun in Hl.
    + intros H. destruct m as [cs v st [t|] [c|] md sy]; discriminate.
    + pose proof (V5_switch_live env s m IH) as Hl. now rewrite Hrun in Hl.
  - induction 1 as [|env s m r m' _ IH Hrun|m _ IH|env s m r m' _ IH Hrun
                   |env m r m' _ IH Hrun].
    + intros H. discriminate.
    + pose proof (V6_start_live env s m) as Hl. now rewrite Hrun in Hl.
    + intros H. destruct m as [cs v st t [c|] md sy]; discriminate.
    + pose proof (V6_switch_live env s m IH) as Hl. now rewrite Hrun in Hl.
    + destruct (V6_reconnect_spec env m) as (m2 & E & _ & _ & _ & _ & Hl).
      rewrite Hrun in E. now inversion E; subst.
Qed.

Lemma live_mode_has_connector_witness :
  live_has_connector6
    (snd (V6.start_mt5 (V6.mkInitEnv true None (Ret false) (Ret true) (Ret true))
            "EURUSD" V6.WM_new)).
Proof.
  apply (proj2 live_mode_has_connector).
  eapply wr6_start; [apply wr6_new|]. apply surjective_pairing.
Defined.
